(** * crypto_dashboard: the price store, the poller and the query layer

    A shallow embedding of the four Python programs of the repository:

    - [crypto_tracker.py]    the poller ([CryptoTracker]),
    - [query_data.py]        the console history query,
    - [crypto_dashboard.py]  the web dashboard's queries and summary table,
    - [crypto_visualizer.py] the chart generator's query and summary.

    Python [float]s and SQLite [REAL]s are IEEE binary64 numbers and are
    modelled by Rocq's primitive floats, Python [int]s by [Z].  The single
    table [crypto_prices] is a list of rows in insertion order.  Timestamps
    are stored as text and SQLite compares them byte by byte, which is
    [String.leb]; rows with equal sort keys come out of its sorter in the
    order of the scan, that is of insertion. *)

From Stdlib Require Import Floats ZArith NArith Ascii List Sorted Permutation Lia ZifyNat.
From Stdlib Require String OrderedTypeEx.
From stdpp Require Import base option list sorting strings gmap.

Set Warnings "-register-all".

(** ** Python values, exceptions and results *)

(** The exceptions of [requests] that derive from [requests.RequestException]. *)
Inductive request_error :=
| ConnectionError
| Timeout
| TooManyRedirects
| HTTPError (status : nat)
| JSONDecodeError.

(** The exceptions the programs can meet.  [InterfaceError] is the refusal
    of [sqlite3] to bind a value of an unsupported type (it is raised as
    [sqlite3.ProgrammingError] from Python 3.11 on).  [OverflowError] is its
    refusal of an [int] outside the 64-bit integers, and Python's refusal to
    convert an [int] beyond the binary64 range to a [float]. *)
Inductive exn :=
| KeyError (key : string)
| IndexError
| TypeError
| ZeroDivisionError
| InterfaceError
| OverflowError
| RequestException (e : request_error).

(** [LookupError] and its subclasses. *)
Definition is_lookup_error (e : exn) : bool :=
  match e with
  | KeyError _ | IndexError => true
  | _ => false
  end.

Inductive result (A : Type) :=
| Ok (a : A)
| Raise (e : exn).
Arguments Ok {A} a.
Arguments Raise {A} e.

Definition bind_result {A B} (r : result A) (k : A → result B) : result B :=
  match r with
  | Ok a => k a
  | Raise e => Raise e
  end.

Definition is_Ok {A} (r : result A) : Prop := ∃ a, r = Ok a.

Global Instance result_ret : MRet result := λ A a, Ok a.
Global Instance result_bind : MBind result := λ A B k r, bind_result r k.

(** What [response.json()] can return, as far as the programs look into it:
    [None], a number, a list or a dict with string keys.  A JSON number
    without fraction or exponent is a Python [int], any other a [float];
    [true] and [false] are the [int]s 1 and 0 in each operation that the
    programs apply to a value. *)
Inductive pyval :=
| PyNone
| PyFloat (f : float)
| PyList (l : list pyval)
| PyDict (d : gmap string pyval)
| PyInt (z : Z).

(** [bool(v)], as used by [if not crypto_data] and [if crypto_data]. *)
Definition truthy (v : pyval) : bool :=
  match v with
  | PyNone => false
  | PyInt z => negb (z =? 0)%Z
  | PyFloat f => negb (PrimFloat.is_zero f)
  | PyList l => negb (bool_decide (l = []))
  | PyDict d => negb (bool_decide (dom d = (∅ : gset string)))
  end.

(** [v[key]] for a string key. *)
Definition subscript (v : pyval) (key : string) : result pyval :=
  match v with
  | PyDict d =>
      match d !! key with
      | Some x => Ok x
      | None => Raise (KeyError key)
      end
  | _ => Raise TypeError
  end.

(** [l[i]] on a Python list, negative indices counting from the end. *)
Definition py_index {A} (l : list A) (i : Z) : result A :=
  let n := Z.of_nat (length l) in
  let j := if (i <? 0)%Z then (i + n)%Z else i in
  if ((j <? 0) || (n <=? j))%Z then Raise IndexError
  else match l !! Z.to_nat j with
       | Some x => Ok x
       | None => Raise IndexError
       end.

(** A cell of a [REAL] column as Python reads it: [None] for NULL. *)
Definition cell := option float.

(** [float(z)], and the value of an integer in a [REAL] column: the nearest
    binary64 number, ties to even. *)
Definition float_of_Z (z : Z) : float :=
  SF2Prim (binary_normalize prec emax z 0 false).

(** The largest [int] that [float()] accepts is below [2^1024 - 2^970]. *)
Definition fits_float (z : Z) : bool :=
  (Z.abs z <? 2 ^ 1024 - 2 ^ 970)%Z.

(** The 64-bit integers of SQLite. *)
Definition fits_int64 (z : Z) : bool :=
  ((- 2 ^ 63 <=? z) && (z <? 2 ^ 63))%Z.

(** [a - b], [a / b] on cells read from the database: [None] operands raise
    [TypeError], a zero divisor raises [ZeroDivisionError]. *)
Definition py_sub (a b : cell) : result float :=
  match a, b with
  | Some x, Some y => Ok (x - y)%float
  | _, _ => Raise TypeError
  end.

Definition py_truediv (a : float) (b : cell) : result float :=
  match b with
  | Some y => if PrimFloat.is_zero y then Raise ZeroDivisionError else Ok (a / y)%float
  | None => Raise TypeError
  end.

(** [str.capitalize()] on ASCII text. *)
Definition upper (c : ascii) : ascii :=
  let n := nat_of_ascii c in
  if bool_decide (97 ≤ n ≤ 122) then ascii_of_nat (n - 32) else c.

Definition lower (c : ascii) : ascii :=
  let n := nat_of_ascii c in
  if bool_decide (65 ≤ n ≤ 90) then ascii_of_nat (n + 32) else c.

Fixpoint lower_all (s : string) : string :=
  match s with
  | EmptyString => EmptyString
  | String c s' => String (lower c) (lower_all s')
  end.

Definition capitalize (s : string) : string :=
  match s with
  | EmptyString => EmptyString
  | String c s' => String (upper c) (lower_all s')
  end.

(** ** Printed output *)

(** A printed line is a sequence of fragments: literal text, [Fixed2 v] for
    [v] rendered under the format [,.2f], [Plain2 v] under [.2f], [Num n]
    for an integer and [ExnText e] for the message of an exception. *)
Inductive fragment :=
| Lit (s : string)
| Fixed2 (v : float)
| Plain2 (v : float)
| Num (n : nat)
| ExnText (e : request_error).

Definition line := list fragment.

Definition nl : string := String (ascii_of_nat 10) EmptyString.

(** [f"{v:,.2f}"] raises [TypeError] on [None]. *)
Definition format_2f (v : cell) : result fragment :=
  match v with
  | Some f => Ok (Fixed2 f)
  | None => Raise TypeError
  end.

(** ** Dates *)

(** [datetime.datetime]: the naive local time with its seven fields. *)
Record datetime := {
  year : nat;
  month : nat;
  day : nat;
  hour : nat;
  minute : nat;
  second : nat;
  microsecond : nat
}.

Definition digit (n : nat) : ascii := ascii_of_nat (48 + n mod 10).

Definition pad2 (n : nat) : string :=
  String (digit (n / 10)) (String (digit n) EmptyString).

Definition pad4 (n : nat) : string :=
  String (digit (n / 1000)) (String (digit (n / 100)) (pad2 n)).

(** [d.strftime("%Y-%m-%d %H:%M:%S")] (four-digit years). *)
Definition strftime (d : datetime) : string :=
  pad4 (year d) +:+ "-" +:+ pad2 (month d) +:+ "-" +:+ pad2 (day d) +:+ " "
  +:+ pad2 (hour d) +:+ ":" +:+ pad2 (minute d) +:+ ":" +:+ pad2 (second d).

(** The fields of [d] print in the widths of the format: a year of four
    digits and five fields of at most two. *)
Definition in_range (d : datetime) : Prop :=
  1000 ≤ year d < 100 * 100 ∧ month d < 100 ∧ day d < 100 ∧
  hour d < 100 ∧ minute d < 100 ∧ second d < 100.

(** The comparison of two times to the second: field by field, from the
    year down. *)
Definition compare_to_second (d1 d2 : datetime) : comparison :=
  match year d1 ?= year d2 with
  | Eq =>
      match month d1 ?= month d2 with
      | Eq =>
          match day d1 ?= day d2 with
          | Eq =>
              match hour d1 ?= hour d2 with
              | Eq =>
                  match minute d1 ?= minute d2 with
                  | Eq => second d1 ?= second d2
                  | c => c
                  end
              | c => c
              end
          | c => c
          end
      | c => c
      end
  | c => c
  end.

(** [d1] is not later than [d2], to the second. *)
Definition not_after (d1 d2 : datetime) : Prop := compare_to_second d1 d2 ≠ Gt.

(** The time to the second: the microsecond field dropped. *)
Definition to_second (d : datetime) : datetime :=
  {| year := year d; month := month d; day := day d; hour := hour d;
     minute := minute d; second := second d; microsecond := 0 |}.

(** ** The store *)

(** One row of [crypto_prices].  [rowid] is the column [id]. *)
Record row := {
  rowid : nat;
  cryptocurrency : string;
  price_usd : cell;
  market_cap_usd : cell;
  volume_usd : cell;
  timestamp : string
}.

(** SQLite's comparison of two TEXT values (BINARY collation). *)
Definition text_le (a b : string) : Prop := String.leb a b = true.

Global Instance text_le_dec a b : Decision (text_le a b).
Proof. unfold text_le. apply _. Defined.

Definition by_timestamp {A} (ts : A → string) : relation A :=
  λ x y, text_le (ts x) (ts y).

Global Instance by_timestamp_dec {A} (ts : A → string) x y :
  Decision (by_timestamp ts x y).
Proof. unfold by_timestamp. apply _. Defined.

(** The sorter of SQLite keeps rows whose keys are equal in the order in
    which the scan of the table delivers them, the order of insertion: a
    row is placed before the first row that it does not have to follow. *)
Fixpoint insert_sorted {A} (R : relation A) `{!∀ x y, Decision (R x y)}
    (x : A) (l : list A) : list A :=
  match l with
  | [] => [x]
  | y :: l' => if decide (R x y) then x :: y :: l' else y :: insert_sorted R x l'
  end.

Definition stable_sort {A} (R : relation A) `{!∀ x y, Decision (R x y)}
    (l : list A) : list A :=
  foldr (insert_sorted R) [] l.

(** [ORDER BY timestamp ASC] and [ORDER BY timestamp DESC]. *)
Definition order_by_asc {A} (ts : A → string) (l : list A) : list A :=
  stable_sort (by_timestamp ts) l.

Definition order_by_desc {A} (ts : A → string) (l : list A) : list A :=
  stable_sort (flip (by_timestamp ts)) l.

(** A row of the historical query: the five selected columns. *)
Record hist_row := {
  h_cryptocurrency : string;
  h_timestamp : string;
  h_price_usd : cell;
  h_market_cap_usd : cell;
  h_volume_usd : cell
}.

Definition select_hist (r : row) : hist_row :=
  {| h_cryptocurrency := cryptocurrency r; h_timestamp := timestamp r;
     h_price_usd := price_usd r; h_market_cap_usd := market_cap_usd r;
     h_volume_usd := volume_usd r |}.

(** [SELECT cryptocurrency, timestamp, price_usd, market_cap_usd, volume_usd
     FROM crypto_prices WHERE timestamp >= ? ORDER BY timestamp ASC]
    ([fetch_historical_data] and [fetch_data]). *)
Definition range_query (db : list row) (time_threshold : string) : list hist_row :=
  select_hist <$>
    order_by_asc timestamp (filter (λ r, text_le time_threshold (timestamp r)) db).

(** [MAX(timestamp)] over a group. *)
Definition max_text (a b : string) : string :=
  if String.ltb a b then b else a.

Definition max_timestamp (l : list string) : option string :=
  match l with
  | [] => None
  | t :: l' => Some (foldl max_text t l')
  end.

(** [SELECT cryptocurrency, MAX(timestamp) FROM crypto_prices
     GROUP BY cryptocurrency]. *)
Definition group_max (db : list row) : list (string * string) :=
  omap (λ c, (λ m, (c, m)) <$>
               max_timestamp (timestamp <$> filter (λ r, cryptocurrency r = c) db))
       (remove_dups (cryptocurrency <$> db)).

(** [SELECT cryptocurrency, price_usd, timestamp FROM crypto_prices
     WHERE (cryptocurrency, timestamp) IN (... GROUP BY cryptocurrency)]
    ([fetch_latest_prices]). *)
Definition fetch_latest_prices (db : list row) : list (string * cell * string) :=
  (λ r, (cryptocurrency r, price_usd r, timestamp r)) <$>
    filter (λ r, (cryptocurrency r, timestamp r) ∈ group_max db) db.

(** [SELECT timestamp, price_usd FROM crypto_prices
     WHERE cryptocurrency = ? AND timestamp >= ? ORDER BY timestamp ASC]
    ([query_crypto_history]). *)
Definition price_history (db : list row) (crypto time_threshold : string)
  : list (string * cell) :=
  (λ r, (timestamp r, price_usd r)) <$>
    order_by_asc timestamp
      (filter (λ r, cryptocurrency r = crypto ∧ text_le time_threshold (timestamp r)) db).

(** [SELECT price_usd, timestamp FROM crypto_prices WHERE cryptocurrency = ?
     ORDER BY timestamp DESC LIMIT 1], then [fetchone()]
    ([display_latest_stored_data]). *)
Definition latest_stored (db : list row) (crypto : string) : option (cell * string) :=
  head ((λ r, (price_usd r, timestamp r)) <$>
          order_by_desc timestamp (filter (λ r, cryptocurrency r = crypto) db)).

(** ** The query layer of [query_data.py] *)

(** Lines 30-33 of [query_data.py]: the price change over the fetched rows,
    [results] being the list of [(timestamp, price_usd)] tuples. *)
Definition percent_change (results : list (string * cell)) : result float :=
  first ← py_index results 0;
  last ← py_index results (-1);
  let first_price := first.2 in
  let last_price := last.2 in
  d ← py_sub last_price first_price;
  q ← py_truediv d first_price;
  Ok (q * 100)%float.

(** ** The summary table of the visualizer and of the dashboard *)

(** [pd.read_sql_query] gives a [REAL] column the dtype float64, NULL read
    as NaN, as soon as one cell of the column in the frame holds a number;
    a column without a number has the dtype object and holds [None]. *)
Definition float64_column (col : list cell) : bool :=
  bool_decide (Exists is_Some col).

(** A cell in a float64 column: NULL is NaN.  Arithmetic on these values
    follows IEEE 754 and never raises. *)
Definition np_float (c : cell) : float := default nan c.

Definition float_of_nat (n : nat) : float :=
  PrimFloat.of_uint63 (Uint63.of_Z (Z.of_nat n)).

(** [Series.max()] and [Series.min()]: NaN entries are skipped and the
    result is NaN when nothing is left. *)
Definition dropna (l : list float) : list float :=
  filter (λ x, PrimFloat.is_nan x = false) l.

Definition fmax (a b : float) : float := if (a <? b)%float then b else a.
Definition fmin (a b : float) : float := if (b <? a)%float then b else a.

Definition series_max (l : list float) : float :=
  match dropna l with
  | [] => nan
  | x :: xs => foldl fmax x xs
  end.

Definition series_min (l : list float) : float :=
  match dropna l with
  | [] => nan
  | x :: xs => foldl fmin x xs
  end.

(** The sum of a float64 array by NumPy ([pairwise_sum] of its [add]
    loop).  Fewer than eight numbers are added one by one, starting from
    [-0.0].  Up to 128 numbers are added into eight accumulators, the
    number at position [i] into accumulator [i mod 8] while a block of
    eight is complete; the accumulators are added pairwise and the numbers
    left over one by one.  A longer array is cut near its middle, at a
    multiple of eight, and the sums of the two parts are added. *)
Definition acc8 : Type :=
  float * float * float * float * float * float * float * float.

Fixpoint accumulate8 (r : acc8) (a : list float) : acc8 * list float :=
  match a with
  | a0 :: a1 :: a2 :: a3 :: a4 :: a5 :: a6 :: a7 :: a' =>
      let '(r0, r1, r2, r3, r4, r5, r6, r7) := r in
      accumulate8 (r0 + a0, r1 + a1, r2 + a2, r3 + a3,
                   r4 + a4, r5 + a5, r6 + a6, r7 + a7)%float a'
  | _ => (r, a)
  end.

Definition block_sum (a : list float) : float :=
  match a with
  | r0 :: r1 :: r2 :: r3 :: r4 :: r5 :: r6 :: r7 :: a' =>
      let '((r0, r1, r2, r3, r4, r5, r6, r7), rest) :=
        accumulate8 (r0, r1, r2, r3, r4, r5, r6, r7) a' in
      foldl PrimFloat.add
        (((r0 + r1) + (r2 + r3)) + ((r4 + r5) + (r6 + r7)))%float rest
  | _ => foldl PrimFloat.add neg_zero a
  end.

(** [fuel] bounds the depth of the cuts; the length of the array is
    enough ([pairwise_sum_unfold]). *)
Fixpoint pairwise_sum_upto (fuel : nat) (a : list float) : float :=
  match fuel with
  | S fuel' =>
      if bool_decide (length a ≤ 128) then block_sum a
      else
        let n2 := length a / 2 - (length a / 2) mod 8 in
        (pairwise_sum_upto fuel' (take n2 a) + pairwise_sum_upto fuel' (drop n2 a))%float
  | 0 => block_sum a
  end.

Definition pairwise_sum (a : list float) : float :=
  pairwise_sum_upto (length a) a.

(** [a.sum()] on a float64 array that is not empty: the reduction starts
    from [-0.0]. *)
Definition np_sum (a : list float) : float := (neg_zero + pairwise_sum a)%float.

(** [Series.mean()] ([nanmean] of pandas): the NaN entries count as zero in
    the sum and are left out of the count; the result is NaN when no entry
    is left. *)
Definition series_mean (l : list float) : float :=
  let count := length (dropna l) in
  let values := (λ x, if PrimFloat.is_nan x then 0%float else x) <$> l in
  if bool_decide (count = 0) then nan
  else (np_sum values / float_of_nat count)%float.

(** [Series.iloc[i]] on the price column of a frame: an element of a
    float64 column is a number, NaN for NULL; an object column holds the
    cells as Python read them. *)
Definition iloc (float64 : bool) (col : list cell) (i : Z) : result cell :=
  c ← py_index col i;
  Ok (if float64 then Some (np_float c) else c).

(** [((last_price - first_price) / first_price) * 100] on two elements of
    the price column: float64 arithmetic on the elements of a float64
    column, the arithmetic of Python on those of an object column. *)
Definition price_change_of (float64 : bool) (last_price first_price : cell)
  : result float :=
  if float64 then
    Ok (((np_float last_price - np_float first_price) / np_float first_price)
        * 100)%float
  else
    d ← py_sub last_price first_price;
    q ← py_truediv d first_price;
    Ok (q * 100)%float.

(** One entry of the summary table, before the values are rendered as text
    ([Current Price] under [,.2f], [Price Change (%)] under [.2f], ...). *)
Record stats := {
  Cryptocurrency : string;
  Current_Price : float;
  Price_Change : float;
  Highest_Price : float;
  Lowest_Price : float;
  Average_Volume : float
}.

(** The body of the loop of [generate_summary_statistics] (and of lines
    174-192 of the dashboard's [main]) for one asset: [crypto_data] is
    [df[df['cryptocurrency'] == crypto]] and [float64] tells whether the
    price column of [df] is a float64 column. *)
Definition asset_stats (float64 : bool) (crypto : string)
    (crypto_data : list hist_row) : result (option stats) :=
  if bool_decide (crypto_data = []) then Ok None
  else
    let price_usd := h_price_usd <$> crypto_data in
    let volume_usd := h_volume_usd <$> crypto_data in
    first_price ← iloc float64 price_usd 0;
    last_price ← iloc float64 price_usd (-1);
    price_change ← price_change_of float64 last_price first_price;
    Ok (Some {| Cryptocurrency := capitalize crypto;
                Current_Price := np_float last_price;
                Price_Change := price_change;
                Highest_Price := series_max (np_float <$> price_usd);
                Lowest_Price := series_min (np_float <$> price_usd);
                Average_Volume := series_mean (np_float <$> volume_usd) |}).

Definition tracked : list string := ["bitcoin"; "ethereum"].

(** [df[df['cryptocurrency'] == crypto]]. *)
Definition asset_rows (df : list hist_row) (crypto : string) : list hist_row :=
  filter (λ r, h_cryptocurrency r = crypto) df.

(** Whether the price column of the frame [df] is a float64 column. *)
Definition float64_prices (df : list hist_row) : bool :=
  float64_column (h_price_usd <$> df).

(** The loop over the assets: one entry per tracked asset that has rows in
    [df], in the order of the loop. *)
Fixpoint summary_loop (float64 : bool) (cryptos : list string)
    (df : list hist_row) : result (list stats) :=
  match cryptos with
  | [] => Ok []
  | crypto :: rest =>
      let crypto_data := asset_rows df crypto in
      entry ← asset_stats float64 crypto crypto_data;
      summary ← summary_loop float64 rest df;
      Ok (match entry with
          | Some s => s :: summary
          | None => summary
          end)
  end.

(** The summary over a fetched DataFrame [df]. *)
Definition summary_of (df : list hist_row) : result (list stats) :=
  summary_loop (float64_prices df) tracked df.

(** ** The world of the poller *)

(** A response of the price API: its status code and its body, decoded as
    JSON where it can be ([None]: [response.json()] raises). *)
Record response := {
  status_code : nat;
  body : option pyval
}.

(** What one call of [requests.get] does: it raises one of the exceptions of
    [requests] or returns a response. *)
Inductive get_outcome :=
| GetRaises (e : request_error)
| GetResponse (r : response).

(** The state the programs act on.  [clock] and [network] are the readings
    of the wall clock and the outcomes of the requests, in the order in which
    they are asked for; [table] holds the committed rows and [pending] the
    rows inserted on the tracker's connection and not yet committed. *)
Record world := {
  clock : nat → datetime;
  network : nat → get_outcome;
  clock_reads : nat;
  requests_sent : nat;
  table : list row;
  pending : list row;
  connected : bool;
  stdout : list line;
  slept : list nat
}.

Definition M (A : Type) : Type := world → result A * world.

Global Instance M_ret : MRet M := λ A a w, (Ok a, w).
Global Instance M_bind : MBind M := λ A B k m w,
  match m w with
  | (Ok a, w') => k a w'
  | (Raise e, w') => (Raise e, w')
  end.

Definition lift {A} (r : result A) : M A := λ w, (r, w).

(** [try: body except <handled class> as e: handler e]; [handler e] is
    [None] for the exceptions the clause does not catch. *)
Definition try_except {A} (body : M A) (handler : exn → option (M A)) : M A :=
  λ w, match body w with
       | (Ok a, w') => (Ok a, w')
       | (Raise e, w') =>
           match handler e with
           | Some h => h w'
           | None => (Raise e, w')
           end
       end.

(** [try: body finally: cleanup]. *)
Definition try_finally {A} (body : M A) (cleanup : M unit) : M A :=
  λ w, match body w with
       | (r, w') =>
           match cleanup w' with
           | (Ok _, w'') => (r, w'')
           | (Raise e, w'') => (Raise e, w'')
           end
       end.

(** Updates of one field of the world. *)
Definition set_clock_reads (n : nat) (w : world) : world :=
  {| clock := clock w; network := network w; clock_reads := n;
     requests_sent := requests_sent w; table := table w; pending := pending w;
     connected := connected w; stdout := stdout w; slept := slept w |}.

Definition set_requests_sent (n : nat) (w : world) : world :=
  {| clock := clock w; network := network w; clock_reads := clock_reads w;
     requests_sent := n; table := table w; pending := pending w;
     connected := connected w; stdout := stdout w; slept := slept w |}.

Definition set_table (t : list row) (w : world) : world :=
  {| clock := clock w; network := network w; clock_reads := clock_reads w;
     requests_sent := requests_sent w; table := t; pending := pending w;
     connected := connected w; stdout := stdout w; slept := slept w |}.

Definition set_pending (p : list row) (w : world) : world :=
  {| clock := clock w; network := network w; clock_reads := clock_reads w;
     requests_sent := requests_sent w; table := table w; pending := p;
     connected := connected w; stdout := stdout w; slept := slept w |}.

Definition set_connected (c : bool) (w : world) : world :=
  {| clock := clock w; network := network w; clock_reads := clock_reads w;
     requests_sent := requests_sent w; table := table w; pending := pending w;
     connected := c; stdout := stdout w; slept := slept w |}.

Definition set_stdout (o : list line) (w : world) : world :=
  {| clock := clock w; network := network w; clock_reads := clock_reads w;
     requests_sent := requests_sent w; table := table w; pending := pending w;
     connected := connected w; stdout := o; slept := slept w |}.

Definition set_slept (l : list nat) (w : world) : world :=
  {| clock := clock w; network := network w; clock_reads := clock_reads w;
     requests_sent := requests_sent w; table := table w; pending := pending w;
     connected := connected w; stdout := stdout w; slept := l |}.

Definition print (l : line) : M unit := λ w,
  (Ok (), set_stdout (stdout w ++ [l]) w).

(** [datetime.now()]. *)
Definition datetime_now : M datetime := λ w,
  (Ok (clock w (clock_reads w)), set_clock_reads (S (clock_reads w)) w).

(** [time.sleep(interval)]. *)
Definition time_sleep (interval : nat) : M unit := λ w,
  (Ok (), set_slept (slept w ++ [interval]) w).

(** [requests.get(url, params=params)]. *)
Definition requests_get : M response := λ w,
  let w' := set_requests_sent (S (requests_sent w)) w in
  match network w (requests_sent w) with
  | GetRaises e => (Raise (RequestException e), w')
  | GetResponse r => (Ok r, w')
  end.

(** [response.raise_for_status()]: [HTTPError] on the client and server
    error statuses, 400 to 599. *)
Definition raise_for_status (r : response) : result unit :=
  if bool_decide (400 ≤ status_code r < 600)
  then Raise (RequestException (HTTPError (status_code r)))
  else Ok ().

(** [response.json()]: a body that is not JSON raises the [JSONDecodeError]
    of [requests], a [RequestException]. *)
Definition json (r : response) : result pyval :=
  match body r with
  | Some v => Ok v
  | None => Raise (RequestException JSONDecodeError)
  end.

(** The cell that a [float] becomes in a [REAL] column: a NaN is stored
    as NULL, and a negative zero is read back as zero (SQLite keeps a real
    without fraction as an integer). *)
Definition real_cell (f : float) : cell :=
  if PrimFloat.is_nan f then None
  else Some (if PrimFloat.is_zero f then 0%float else f).

(** How [sqlite3] binds a Python value to a parameter of a [REAL] column,
    and the cell that is read back: [None] is NULL, a [float] is stored as
    [real_cell] tells, an [int] of 64 bits as the nearest real, a larger
    [int] is refused and so is a list or a dict. *)
Definition sqlite_bind (v : pyval) : result cell :=
  match v with
  | PyNone => Ok None
  | PyInt z => if fits_int64 z then Ok (Some (float_of_Z z)) else Raise OverflowError
  | PyFloat f => Ok (real_cell f)
  | PyList _ | PyDict _ => Raise InterfaceError
  end.

(** The next value of the [AUTOINCREMENT] column. *)
Definition next_rowid (rows : list row) : nat :=
  S (foldr Nat.max 0 (rowid <$> rows)).

(** The cells that the three values of a quote bind to, as the INSERT
    binds them: in the order of its parameters, the first refusal being
    the exception of the statement. *)
Definition bind_quote (usd cap vol : pyval) : result (cell * cell * cell) :=
  price ← sqlite_bind usd; c ← sqlite_bind cap; v ← sqlite_bind vol;
  Ok (price, c, v).

(** [cursor.execute('INSERT INTO crypto_prices (cryptocurrency, price_usd,
    market_cap_usd, volume_usd, timestamp) VALUES (?, ?, ?, ?, ?)', ...)]:
    the row joins the open transaction. *)
Definition execute_insert (crypto : string) (usd cap vol : pyval) (ts : string)
  : M unit := λ w,
  match bind_quote usd cap vol with
  | Raise e => (Raise e, w)
  | Ok (price, c, v) =>
      let r := {| rowid := next_rowid (table w ++ pending w);
                  cryptocurrency := crypto; price_usd := price;
                  market_cap_usd := c; volume_usd := v; timestamp := ts |} in
      (Ok (), set_pending (pending w ++ [r]) w)
  end.

(** [conn.commit()]. *)
Definition commit : M unit := λ w,
  (Ok (), set_pending [] (set_table (table w ++ pending w) w)).

(** [conn.close()]: what was not committed is rolled back. *)
Definition conn_close : M unit := λ w,
  (Ok (), set_connected false (set_pending [] w)).

(** The rows the tracker's own connection sees. *)
Definition visible : M (list row) := λ w, (Ok (table w ++ pending w), w).

(** [for x in xs: body x]. *)
Fixpoint for_each {A} (xs : list A) (body : A → M unit) : M unit :=
  match xs with
  | [] => mret ()
  | x :: xs' => body x ;; for_each xs' body
  end.

(** ** [CryptoTracker] *)

Definition fetch_crypto_data : M pyval :=
  try_except
    (response ← requests_get;
     lift (raise_for_status response);;
     lift (json response))
    (λ e, match e with
          | RequestException e =>
              Some (print [Lit "Error fetching data: "; ExnText e];; mret PyNone)
          | _ => None
          end).

(** The body of the loop of [save_to_database]: the row of one asset. *)
Definition save_row (crypto_data : pyval) (timestamp : string) (crypto : string)
  : M unit :=
  data ← lift (subscript crypto_data crypto);
  usd ← lift (subscript data "usd");
  cap ← lift (subscript data "usd_market_cap");
  vol ← lift (subscript data "usd_24h_vol");
  execute_insert crypto usd cap vol timestamp.

Definition save_to_database (crypto_data : pyval) : M unit :=
  if negb (truthy crypto_data) then mret ()
  else
    now ← datetime_now;
    let timestamp := strftime now in
    let cryptos := ["bitcoin"; "ethereum"] in
    for_each cryptos (save_row crypto_data timestamp);;
    commit.

(** [f"{v:,.2f}"] on a value of the fetched JSON: an [int] is converted
    to a [float] first. *)
Definition format_value (v : pyval) : result fragment :=
  match v with
  | PyFloat f => Ok (Fixed2 f)
  | PyInt z => if fits_float z then Ok (Fixed2 (float_of_Z z)) else Raise OverflowError
  | _ => Raise TypeError
  end.

Definition display_current_prices (crypto_data : pyval) : M unit :=
  if negb (truthy crypto_data) then mret ()
  else
    now ← datetime_now;
    let current_time := strftime now in
    print [Lit (nl +:+ "Time: " +:+ current_time)];;
    for_each ["bitcoin"; "ethereum"] (λ crypto,
      data ← lift (subscript crypto_data crypto);
      print [Lit (nl +:+ capitalize crypto +:+ ":")];;
      usd ← lift (subscript data "usd" ≫= format_value);
      print [Lit "Price: $"; usd];;
      cap ← lift (subscript data "usd_market_cap" ≫= format_value);
      print [Lit "Market Cap: $"; cap];;
      vol ← lift (subscript data "usd_24h_vol" ≫= format_value);
      print [Lit "24h Volume: $"; vol]).

Definition display_latest_stored_data : M unit :=
  print [Lit (nl +:+ "Latest stored data from database:")];;
  for_each ["bitcoin"; "ethereum"] (λ crypto,
    rows ← visible;
    match latest_stored rows crypto with
    | Some (price, timestamp) =>
        p ← lift (format_2f price);
        print [Lit (capitalize crypto +:+ ": $"); p; Lit (" at " +:+ timestamp)]
    | None => mret ()
    end).

(** One turn of the [while True] loop of [run]. *)
Definition run_iteration (interval : nat) : M unit :=
  crypto_data ← fetch_crypto_data;
  (if truthy crypto_data then
     save_to_database crypto_data;;
     display_current_prices crypto_data;;
     display_latest_stored_data
   else mret ());;
  time_sleep interval.

Fixpoint run_loop (cycles : nat) (interval : nat) : M unit :=
  match cycles with
  | 0 => mret ()
  | S n => run_iteration interval;; run_loop n interval
  end.

(** [run(interval)], interrupted from the keyboard after [cycles] turns of
    the loop: the interrupt is caught, the other exceptions leave [run]
    once the connection is closed. *)
Definition run (interval : nat) (cycles : nat) : M unit :=
  print [Lit "Starting cryptocurrency price tracker..."];;
  print [Lit "Press Ctrl+C to stop"];;
  try_finally
    (run_loop cycles interval;;
     print [Lit (nl +:+ "Stopping price tracker...")])
    conn_close.

(** ** The readers: dashboard, visualizer and history query *)

(** The readers open a connection of their own and see the committed rows. *)
Definition committed : M (list row) := λ w, (Ok (table w), w).

Section Lookback.

(** [d - timedelta(hours=h)]: the calendar arithmetic of [datetime]. *)
Variable minus_hours : datetime → nat → datetime.

(** [(datetime.now() - timedelta(hours=hours)).strftime(...)]. *)
Definition time_threshold_of (hours : nat) : M string :=
  now ← datetime_now;
  mret (strftime (minus_hours now hours)).

(** [CryptoDashboard.fetch_historical_data].  The rows are those of the
    query, in its order; pandas then reads the timestamp column as dates
    ([parse_dates]). *)
Definition fetch_historical_data (hours : nat) : M (list hist_row) :=
  time_threshold ← time_threshold_of hours;
  rows ← committed;
  mret (range_query rows time_threshold).

(** [CryptoVisualizer.fetch_data]. *)
Definition fetch_data (hours : nat) : M (list hist_row) :=
  time_threshold ← time_threshold_of hours;
  rows ← committed;
  mret (range_query rows time_threshold).

(** [CryptoVisualizer.generate_summary_statistics]. *)
Definition generate_summary_statistics (hours : nat) : M (list stats) :=
  df ← fetch_data hours;
  lift (summary_of df).

(** [query_crypto_history]: for each asset the header, then the rows and
    the price change, or the notice that there is no data.  (Its [finally]
    closes the connection the function opened for itself.) *)
Definition query_crypto_history (hours : nat) : M unit :=
  time_threshold ← time_threshold_of hours;
  for_each ["bitcoin"; "ethereum"] (λ crypto,
    print [Lit (nl +:+ capitalize crypto +:+ " price history for the last ");
           Num hours; Lit " hours:"];;
    rows ← committed;
    let results := price_history rows crypto time_threshold in
    if bool_decide (results = []) then
      print [Lit "No data available for this time period"]
    else
      for_each results (λ '(timestamp, price),
        p ← lift (format_2f price);
        print [Lit (timestamp +:+ ": $"); p]);;
      price_change ← lift (percent_change results);
      print [Lit (nl +:+ "Price change: "); Plain2 price_change; Lit "%"]).

End Lookback.

(** ** Quotes *)

(** [v] is an object with the three fields of a quote, holding [usd], [cap]
    and [vol]. *)
Definition quote_with (v : pyval) (usd cap vol : pyval) : Prop :=
  ∃ q, v = PyDict q ∧ q !! "usd" = Some usd ∧
    q !! "usd_market_cap" = Some cap ∧ q !! "usd_24h_vol" = Some vol.

(** A quote of the price API: an object whose three fields hold values
    that a [REAL] column takes. *)
Definition is_quote (v : pyval) : Prop :=
  ∃ usd cap vol, quote_with v usd cap vol ∧
    is_Ok (sqlite_bind usd) ∧ is_Ok (sqlite_bind cap) ∧ is_Ok (sqlite_bind vol).

(** [v] has an entry under [key]. *)
Definition has_key (v : pyval) (key : string) : Prop :=
  ∃ d, v = PyDict d ∧ is_Some (d !! key).

(** The outcome of a request is a failure of the network, or a response
    with a client or server error status. *)
Definition request_fails (o : get_outcome) : Prop :=
  match o with
  | GetRaises _ => True
  | GetResponse r => 400 ≤ status_code r < 600
  end.

(** * Properties *)

(** ** The order of timestamps *)

Lemma text_le_iff a b : text_le a b ↔ a = b ∨ OrderedTypeEx.String_as_OT.lt a b.
Proof.
  unfold text_le, String.leb.
  rewrite <- OrderedTypeEx.String_as_OT.cmp_lt, <- OrderedTypeEx.String_as_OT.cmp_eq.
  unfold OrderedTypeEx.String_as_OT.cmp.
  destruct (String.compare a b); intuition congruence.
Qed.

Lemma text_le_refl a : text_le a a.
Proof. apply text_le_iff. by left. Qed.

Lemma text_le_trans a b c : text_le a b → text_le b c → text_le a c.
Proof.
  rewrite !text_le_iff. intros [-> | Hab] [-> | Hbc]; auto.
  right. eapply OrderedTypeEx.String_as_OT.lt_trans; eauto.
Qed.

Lemma text_le_total a b : text_le a b ∨ text_le b a.
Proof. apply String.leb_total. Qed.

Lemma text_le_antisym a b : text_le a b → text_le b a → a = b.
Proof. apply String.leb_antisym. Qed.

(** [a < b] as SQLite decides it is the failure of [b <= a]. *)
Lemma text_ltb_not_le a b : String.ltb a b = true ↔ ¬ text_le b a.
Proof.
  unfold text_le, String.leb, String.ltb.
  rewrite (String.compare_antisym a b).
  destruct (String.compare b a); simpl; split; intros H; try done;
    exfalso; by apply H.
Qed.

Global Instance by_timestamp_trans {A} (ts : A → string) : Transitive (by_timestamp ts).
Proof. intros x y z. apply text_le_trans. Qed.

Global Instance by_timestamp_total {A} (ts : A → string) : Total (by_timestamp ts).
Proof. intros x y. apply text_le_total. Qed.

Global Instance by_timestamp_refl {A} (ts : A → string) : Reflexive (by_timestamp ts).
Proof. intros x. apply text_le_refl. Qed.

Section StableSort.

Context {A} (R : relation A) `{!∀ x y, Decision (R x y)}.

Lemma insert_sorted_perm x l : insert_sorted R x l ≡ₚ x :: l.
Proof.
  induction l as [| y l IH]; simpl; [done |].
  destruct (decide (R x y)); [done |]. rewrite IH. apply Permutation_swap.
Qed.

Lemma stable_sort_perm l : stable_sort R l ≡ₚ l.
Proof.
  induction l as [| x l IH]; simpl; [done |].
  fold (stable_sort R l). by rewrite insert_sorted_perm, IH.
Qed.

Lemma insert_sorted_sorted `{!Total R} x l :
  Sorted R l → Sorted R (insert_sorted R x l).
Proof.
  induction 1 as [| y l Hs IH Hhd]; simpl; [by repeat constructor |].
  destruct (decide (R x y)) as [Hxy | Hxy].
  - by repeat constructor.
  - constructor; [done |].
    destruct Hhd as [| z l Hyz]; simpl.
    + constructor. by destruct (total R x y).
    + destruct (decide (R x z)); constructor; [| done].
      by destruct (total R x y).
Qed.

Lemma stable_sort_sorted `{!Total R} l : Sorted R (stable_sort R l).
Proof.
  induction l as [| x l IH]; simpl; [constructor |].
  by apply insert_sorted_sorted.
Qed.

End StableSort.

Lemma order_by_asc_sorted {A} (ts : A → string) l :
  Sorted (by_timestamp ts) (order_by_asc ts l).
Proof. apply stable_sort_sorted, _. Qed.

Lemma order_by_asc_perm {A} (ts : A → string) l : order_by_asc ts l ≡ₚ l.
Proof. apply stable_sort_perm. Qed.

(** In a list sorted by timestamp the head is the earliest entry and the
    last entry is the latest. *)
Lemma sorted_head_least {A} (ts : A → string) x l y :
  Sorted (by_timestamp ts) (x :: l) → y ∈ x :: l → text_le (ts x) (ts y).
Proof.
  intros Hs Hy. apply Sorted_StronglySorted in Hs; [| apply _].
  apply StronglySorted_inv in Hs as [_ Hall].
  apply elem_of_cons in Hy as [-> | Hy]; [apply text_le_refl |].
  rewrite Forall_forall in Hall. by apply Hall.
Qed.

Lemma sorted_last_greatest {A} (ts : A → string) l z y :
  Sorted (by_timestamp ts) l → last l = Some z → y ∈ l → text_le (ts y) (ts z).
Proof.
  intros Hs. apply Sorted_StronglySorted in Hs; [| apply _].
  induction Hs as [| x l Hs IH Hall]; intros Hl Hy; [done |].
  destruct l as [| x' l'].
  - simpl in Hl. injection Hl as <-.
    apply list_elem_of_singleton in Hy as ->. apply text_le_refl.
  - rewrite last_cons_cons in Hl.
    apply elem_of_cons in Hy as [-> | Hy]; [| by apply IH].
    rewrite Forall_forall in Hall. apply Hall.
    by apply last_Some_elem_of.
Qed.

(** ** The range query (C3) *)

Lemma range_query_perm db since :
  range_query db since ≡ₚ
  select_hist <$> filter (λ r, text_le since (timestamp r)) db.
Proof. unfold range_query. by rewrite order_by_asc_perm. Qed.

Lemma range_query_sorted db since :
  Sorted (by_timestamp h_timestamp) (range_query db since).
Proof.
  unfold range_query.
  eapply Sorted_fmap; [| apply (order_by_asc_sorted timestamp)].
  by intros x y Hxy.
Qed.

Lemma range_query_elem db since h :
  h ∈ range_query db since ↔
  ∃ r, r ∈ db ∧ text_le since (timestamp r) ∧ h = select_hist r.
Proof.
  rewrite range_query_perm, list_elem_of_fmap. split.
  - intros (r & -> & [Hle Hr]%list_elem_of_filter). by exists r.
  - intros (r & Hr & Hle & ->). exists r. split; [done |].
    by apply list_elem_of_filter.
Qed.

(** C3.  For every store and every threshold, the range query returns
    exactly the stored rows whose timestamp is at or after the threshold,
    whatever their asset, each once per stored row (a permutation of the
    selection), in ascending order of timestamp; when every stored
    timestamp is before the threshold the result is empty. *)
Theorem range_query_spec (db : list row) (since : string) :
  range_query db since ≡ₚ
    select_hist <$> filter (λ r, text_le since (timestamp r)) db ∧
  (∀ h, h ∈ range_query db since ↔
        ∃ r, r ∈ db ∧ text_le since (timestamp r) ∧ h = select_hist r) ∧
  Sorted (by_timestamp h_timestamp) (range_query db since) ∧
  ((∀ r, r ∈ db → String.ltb (timestamp r) since = true) →
   range_query db since = []).
Proof.
  split; [apply range_query_perm |].
  split; [apply range_query_elem | split; [apply range_query_sorted |]].
  intros Hall. apply Permutation_nil_r. rewrite range_query_perm.
  replace (filter (λ r, text_le since (timestamp r)) db) with (@nil row);
    [done |].
  symmetry. induction db as [| r db IH]; [done |].
  rewrite filter_cons_False.
  - apply IH. intros r' Hr'. apply Hall. by right.
  - apply text_ltb_not_le, Hall. by left.
Qed.

(** ** Indexing *)

Lemma py_index_first {A} (l : list A) x : head l = Some x → py_index l 0 = Ok x.
Proof.
  destruct l as [| y l]; [done |]. intros [= ->].
  unfold py_index. simpl length.
  replace (0 <? 0)%Z with false by done.
  destruct (Z.ltb_spec 0 0); [lia |].
  destruct (Z.leb_spec (Z.of_nat (S (length l))) 0); [lia |]. done.
Qed.

Lemma py_index_last {A} (l : list A) z : last l = Some z → py_index l (-1) = Ok z.
Proof.
  intros Hl. unfold py_index.
  assert (length l ≠ 0) as Hn by (by destruct l).
  replace (-1 <? 0)%Z with true by done.
  destruct (Z.ltb_spec (-1 + Z.of_nat (length l)) 0); [lia |].
  destruct (Z.leb_spec (Z.of_nat (length l)) (-1 + Z.of_nat (length l))); [lia |].
  simpl. rewrite last_lookup in Hl.
  replace (Z.to_nat (-1 + Z.of_nat (length l))) with (pred (length l)) by lia.
  by rewrite Hl.
Qed.

(** ** The price change (C1, C5) *)

(** The price change is the formula on the prices of the first and of the
    last tuple, evaluated as Python evaluates it. *)
Lemma percent_change_eval (S : list (string * cell)) first last :
  head S = Some first → list.last S = Some last →
  percent_change S =
    (d ← py_sub last.2 first.2; q ← py_truediv d first.2; Ok (q * 100)%float).
Proof.
  intros Hf Hl. unfold percent_change.
  by rewrite (py_index_first _ _ Hf), (py_index_last _ _ Hl).
Qed.

(** C1.  For every non-empty sequence [S] of [(timestamp, price)] samples
    in ascending order of time, with [first] its first and [last] its last
    entry: [first] is the earliest and [last] the latest sample of [S], and
    the price change of [S] is the evaluation of
    [(last.price - first.price) / first.price * 100]; its value is that
    number whenever the two prices are numbers and the first is not zero. *)
Theorem percent_change_first_last (S : list (string * cell)) :
  S ≠ [] → Sorted (by_timestamp fst) S →
  ∃ first last,
    head S = Some first ∧ list.last S = Some last ∧
    (∀ r, r ∈ S → text_le first.1 r.1 ∧ text_le r.1 last.1) ∧
    percent_change S =
      (d ← py_sub last.2 first.2; q ← py_truediv d first.2; Ok (q * 100)%float) ∧
    (∀ p0 pn, first.2 = Some p0 → last.2 = Some pn → PrimFloat.is_zero p0 = false →
       percent_change S = Ok (((pn - p0) / p0) * 100)%float).
Proof.
  intros Hne Hs.
  destruct S as [| first S']; [done |].
  destruct (list.last (first :: S')) as [last |] eqn:Hl;
    [| by apply last_None in Hl].
  exists first, last. split; [done |]. split; [done |].
  split; [| split].
  - intros r Hr. split.
    + by apply (sorted_head_least fst first S' r).
    + by apply (sorted_last_greatest fst (first :: S') last r).
  - by apply percent_change_eval.
  - intros p0 pn H0 Hn Hz.
    rewrite (percent_change_eval _ first last) by done.
    rewrite H0, Hn. simpl. unfold py_truediv. by rewrite Hz.
Qed.

(** C5.  The price change fails with [ZeroDivisionError] when the price of
    the first row is zero (the prices being numbers), and it fails on the
    empty sequence, with [IndexError]: it has a value on no empty input. *)
Theorem percent_change_errors :
  (∀ (S : list (string * cell)) first last p0 pn,
     head S = Some first → list.last S = Some last →
     first.2 = Some p0 → last.2 = Some pn → PrimFloat.is_zero p0 = true →
     percent_change S = Raise ZeroDivisionError) ∧
  percent_change [] = Raise IndexError.
Proof.
  split.
  - intros S first last p0 pn Hf Hl H0 Hn Hz.
    rewrite (percent_change_eval _ first last) by done.
    rewrite H0, Hn. simpl. unfold py_truediv. by rewrite Hz.
  - done.
Qed.

(** ** The order of binary64 numbers *)

(** A number that is not NaN is placed on a line by its sign class, its
    exponent and its mantissa; the comparisons of the floats are the
    lexicographic comparisons of these keys. *)
Definition sf_key (x : spec_float) : option (Z * Z * Z) :=
  match x with
  | S754_nan => None
  | S754_infinity true => Some (-2, 0, 0)%Z
  | S754_infinity false => Some (2, 0, 0)%Z
  | S754_zero _ => Some (0, 0, 0)%Z
  | S754_finite true m e => Some (-1, - e, - Z.pos m)%Z
  | S754_finite false m e => Some (1, e, Z.pos m)%Z
  end.

Definition key_le (a b : Z * Z * Z) : Prop :=
  (a.1.1 < b.1.1 ∨
   (a.1.1 = b.1.1 ∧ (a.1.2 < b.1.2 ∨ (a.1.2 = b.1.2 ∧ a.2 <= b.2))))%Z.

Definition key_lt (a b : Z * Z * Z) : Prop :=
  (a.1.1 < b.1.1 ∨
   (a.1.1 = b.1.1 ∧ (a.1.2 < b.1.2 ∨ (a.1.2 = b.1.2 ∧ a.2 < b.2))))%Z.

Definition float_key (x : float) : option (Z * Z * Z) := sf_key (Prim2SF x).

Ltac key_cases :=
  split;
  [ first [ done
          | intros _; eexists _, _; split; [reflexivity |];
            split; [reflexivity | simpl; lia] ]
  | first [ done
          | intros (a & b & Ha & Hb & Hk);
            first [ discriminate
                  | injection Ha as <-; injection Hb as <-; simpl in Hk; lia ] ] ].

Lemma SFleb_key x y :
  SFleb x y = true ↔ ∃ a b, sf_key x = Some a ∧ sf_key y = Some b ∧ key_le a b.
Proof.
  unfold SFleb, SFcompare, key_le.
  destruct x as [[]|[]| |[] m e], y as [[]|[]| |[] m' e']; simpl;
    try key_cases;
    rewrite (Pos.compare_cont_spec m m' Eq); simpl;
    destruct (Z.compare_spec e e'), (Pos.compare_spec m m'); simpl; key_cases.
Qed.

Lemma SFltb_key x y :
  SFltb x y = true ↔ ∃ a b, sf_key x = Some a ∧ sf_key y = Some b ∧ key_lt a b.
Proof.
  unfold SFltb, SFcompare, key_lt.
  destruct x as [[]|[]| |[] m e], y as [[]|[]| |[] m' e']; simpl;
    try key_cases;
    rewrite (Pos.compare_cont_spec m m' Eq); simpl;
    destruct (Z.compare_spec e e'), (Pos.compare_spec m m'); simpl; key_cases.
Qed.

Lemma SFeqb_key x : SFeqb x x = true ↔ is_Some (sf_key x).
Proof.
  unfold SFeqb, SFcompare.
  destruct x as [[]|[]| |[] m e]; simpl;
    try (split; [intros _; by eexists | done]);
    try (split; [done | by intros [? ?]]);
    rewrite (Pos.compare_cont_spec m m Eq), Z.compare_refl, Pos.compare_refl; simpl;
    (split; [intros _; by eexists | done]).
Qed.

Lemma is_nan_key x : PrimFloat.is_nan x = false ↔ is_Some (float_key x).
Proof.
  unfold PrimFloat.is_nan, float_key.
  rewrite FloatAxioms.eqb_spec, <- SFeqb_key.
  by destruct (SFeqb _ _).
Qed.

Lemma float_leb_refl x : PrimFloat.is_nan x = false → (x <=? x)%float = true.
Proof.
  intros [a Ha]%is_nan_key. rewrite FloatAxioms.leb_spec. apply SFleb_key.
  exists a, a. unfold key_le. repeat split; try done. lia.
Qed.

Lemma float_leb_trans x y z :
  (x <=? y)%float = true → (y <=? z)%float = true → (x <=? z)%float = true.
Proof.
  rewrite !FloatAxioms.leb_spec, !SFleb_key.
  intros (a & b & Ha & Hb & Hab) (b' & c & Hb' & Hc & Hbc).
  rewrite Hb in Hb'. injection Hb' as <-.
  exists a, c. repeat split; try done. unfold key_le in *. lia.
Qed.

Lemma float_ltb_false x y :
  PrimFloat.is_nan x = false → PrimFloat.is_nan y = false →
  (x <? y)%float = false → (y <=? x)%float = true.
Proof.
  intros [a Ha]%is_nan_key [b Hb]%is_nan_key Hlt.
  rewrite FloatAxioms.leb_spec. apply SFleb_key.
  exists b, a. repeat split; try done.
  assert (key_le b a ∨ key_lt a b) as [Hle | Hn]
    by (unfold key_le, key_lt; lia); [done | exfalso].
  assert ((x <? y)%float = true) as Hc; [| congruence].
  rewrite FloatAxioms.ltb_spec. apply SFltb_key. by exists a, b.
Qed.

Lemma float_ltb_leb x y : (x <? y)%float = true → (x <=? y)%float = true.
Proof.
  rewrite FloatAxioms.ltb_spec, FloatAxioms.leb_spec, SFltb_key, SFleb_key.
  intros (a & b & Ha & Hb & Hab). exists a, b. repeat split; try done.
  unfold key_le, key_lt in *. lia.
Qed.

(** ** Maximum, minimum and mean of a column *)

Definition is_maximum (m : float) (l : list float) : Prop :=
  m ∈ l ∧ ∀ x, x ∈ l → (x <=? m)%float = true.

Definition is_minimum (m : float) (l : list float) : Prop :=
  m ∈ l ∧ ∀ x, x ∈ l → (m <=? x)%float = true.

Definition numbers (l : list float) : Prop :=
  Forall (λ x, PrimFloat.is_nan x = false) l.

Lemma dropna_numbers l : numbers l → dropna l = l.
Proof.
  unfold dropna. induction 1 as [| x l Hx Hl IH]; [done |].
  by rewrite filter_cons_True, IH.
Qed.

Lemma fmax_cases a b :
  PrimFloat.is_nan a = false → PrimFloat.is_nan b = false →
  (fmax a b = a ∨ fmax a b = b) ∧
  (a <=? fmax a b)%float = true ∧ (b <=? fmax a b)%float = true.
Proof.
  intros Ha Hb. unfold fmax. destruct (a <? b)%float eqn:Hlt.
  - split; [by right |]. split; [by apply float_ltb_leb | by apply float_leb_refl].
  - split; [by left |]. split; [by apply float_leb_refl | by apply float_ltb_false].
Qed.

Lemma fmin_cases a b :
  PrimFloat.is_nan a = false → PrimFloat.is_nan b = false →
  (fmin a b = a ∨ fmin a b = b) ∧
  (fmin a b <=? a)%float = true ∧ (fmin a b <=? b)%float = true.
Proof.
  intros Ha Hb. unfold fmin. destruct (b <? a)%float eqn:Hlt.
  - split; [by right |]. split; [by apply float_ltb_leb | by apply float_leb_refl].
  - split; [by left |]. split; [by apply float_leb_refl | by apply float_ltb_false].
Qed.

Lemma foldl_fmax_maximum xs : ∀ x,
  numbers (x :: xs) → is_maximum (foldl fmax x xs) (x :: xs).
Proof.
  induction xs as [| y ys IH]; intros x Hn.
  - split; [by left |]. intros z ->%list_elem_of_singleton.
    apply float_leb_refl. by inversion Hn.
  - inversion Hn as [| ? ? Hx Hrest]; subst.
    inversion Hrest as [| ? ? Hy Hys]; subst.
    destruct (fmax_cases x y Hx Hy) as (Hcase & Hxm & Hym).
    assert (numbers (fmax x y :: ys)) as Hn'.
    { constructor; [| done]. by destruct Hcase as [-> | ->]. }
    destruct (IH _ Hn') as [Hin Hub]. simpl. split.
    + apply elem_of_cons in Hin as [-> | Hin].
      * destruct Hcase as [-> | ->]; [by left | right; by left].
      * right; by right.
    + intros z Hz.
      assert ((fmax x y <=? foldl fmax (fmax x y) ys)%float = true) as Hm
        by (apply Hub; by left).
      apply elem_of_cons in Hz as [-> | Hz]; [by eapply float_leb_trans |].
      apply elem_of_cons in Hz as [-> | Hz]; [by eapply float_leb_trans |].
      apply Hub. by right.
Qed.

Lemma foldl_fmin_minimum xs : ∀ x,
  numbers (x :: xs) → is_minimum (foldl fmin x xs) (x :: xs).
Proof.
  induction xs as [| y ys IH]; intros x Hn.
  - split; [by left |]. intros z ->%list_elem_of_singleton.
    apply float_leb_refl. by inversion Hn.
  - inversion Hn as [| ? ? Hx Hrest]; subst.
    inversion Hrest as [| ? ? Hy Hys]; subst.
    destruct (fmin_cases x y Hx Hy) as (Hcase & Hxm & Hym).
    assert (numbers (fmin x y :: ys)) as Hn'.
    { constructor; [| done]. by destruct Hcase as [-> | ->]. }
    destruct (IH _ Hn') as [Hin Hlb]. simpl. split.
    + apply elem_of_cons in Hin as [-> | Hin].
      * destruct Hcase as [-> | ->]; [by left | right; by left].
      * right; by right.
    + intros z Hz.
      assert ((foldl fmin (fmin x y) ys <=? fmin x y)%float = true) as Hm
        by (apply Hlb; by left).
      apply elem_of_cons in Hz as [-> | Hz]; [by eapply float_leb_trans |].
      apply elem_of_cons in Hz as [-> | Hz]; [by eapply float_leb_trans |].
      apply Hlb. by right.
Qed.

Lemma series_max_maximum l : l ≠ [] → numbers l → is_maximum (series_max l) l.
Proof.
  intros Hne Hn. unfold series_max. rewrite (dropna_numbers _ Hn).
  destruct l as [| x xs]; [done |]. by apply foldl_fmax_maximum.
Qed.

Lemma series_min_minimum l : l ≠ [] → numbers l → is_minimum (series_min l) l.
Proof.
  intros Hne Hn. unfold series_min. rewrite (dropna_numbers _ Hn).
  destruct l as [| x xs]; [done |]. by apply foldl_fmin_minimum.
Qed.

(** ** The sum and the mean of NumPy and pandas *)

Lemma neg_zero_add x : (neg_zero + x)%float = x.
Proof.
  apply Prim2SF_inj. rewrite FloatAxioms.add_spec.
  replace (Prim2SF neg_zero) with (S754_zero true) by (by vm_compute).
  unfold SF64add, SFadd.
  by destruct (Prim2SF x) as [[] | [] | | [] m e].
Qed.

Lemma block_sum_short a :
  length a < 8 → block_sum a = foldl PrimFloat.add neg_zero a.
Proof.
  destruct a as [| ? [| ? [| ? [| ? [| ? [| ? [| ? [| ? a]]]]]]]]; simpl;
    first [done | lia].
Qed.

Lemma pairwise_sum_upto_S fuel a :
  pairwise_sum_upto (S fuel) a =
    if bool_decide (length a ≤ 128) then block_sum a
    else
      let n2 := length a / 2 - (length a / 2) mod 8 in
      (pairwise_sum_upto fuel (take n2 a) + pairwise_sum_upto fuel (drop n2 a))%float.
Proof. done. Qed.

Lemma pairwise_sum_upto_block fuel a :
  length a ≤ 128 → pairwise_sum_upto fuel a = block_sum a.
Proof.
  intros Hl. destruct fuel; [done |].
  by rewrite pairwise_sum_upto_S, bool_decide_eq_true_2.
Qed.

(** The cut leaves two shorter parts. *)
Lemma cut_shorter (n : nat) :
  128 < n → n / 2 - (n / 2) mod 8 < n ∧ 0 < n / 2 - (n / 2) mod 8.
Proof. intros Hn. zify. Z.to_euclidean_division_equations. lia. Qed.

Lemma pairwise_sum_fuel f1 : ∀ f2 a,
  length a ≤ f1 + 128 → length a ≤ f2 + 128 →
  pairwise_sum_upto f1 a = pairwise_sum_upto f2 a.
Proof.
  induction f1 as [| f1 IH]; intros f2 a H1 H2.
  - by rewrite !pairwise_sum_upto_block by lia.
  - destruct (decide (length a ≤ 128)) as [Hs | Hl];
      [by rewrite !pairwise_sum_upto_block |].
    destruct f2 as [| f2]; [lia |].
    rewrite !pairwise_sum_upto_S, !bool_decide_eq_false_2 by done.
    destruct (cut_shorter (length a)) as [Hlt Hpos]; [lia |].
    cbv zeta. f_equal; apply IH; rewrite ?length_take, ?length_drop; lia.
Qed.

(** The sum obeys the equations of [pairwise_sum] in NumPy. *)
Lemma pairwise_sum_unfold a :
  pairwise_sum a =
    if bool_decide (length a < 8) then foldl PrimFloat.add neg_zero a
    else if bool_decide (length a ≤ 128) then block_sum a
    else
      let n2 := length a / 2 - (length a / 2) mod 8 in
      (pairwise_sum (take n2 a) + pairwise_sum (drop n2 a))%float.
Proof.
  unfold pairwise_sum. case_bool_decide as H8.
  - rewrite pairwise_sum_upto_block by lia. by apply block_sum_short.
  - case_bool_decide as H128; [by apply pairwise_sum_upto_block |].
    destruct (length a) as [| n] eqn:Hlen; [lia |].
    rewrite pairwise_sum_upto_S, bool_decide_eq_false_2 by lia.
    destruct (cut_shorter (length a)) as [Hlt Hpos]; [lia |].
    rewrite Hlen in *. cbv zeta.
    f_equal; apply pairwise_sum_fuel; rewrite ?length_take, ?length_drop; lia.
Qed.

(** Fewer than eight numbers are summed from left to right. *)
Lemma np_sum_short x xs :
  length (x :: xs) < 8 → np_sum (x :: xs) = foldl PrimFloat.add x xs.
Proof.
  intros Hl. unfold np_sum. rewrite pairwise_sum_unfold.
  rewrite bool_decide_eq_true_2 by done. simpl. by rewrite !neg_zero_add.
Qed.

Lemma fill_numbers l :
  numbers l → (λ x, if PrimFloat.is_nan x then 0%float else x) <$> l = l.
Proof.
  induction 1 as [| x l Hx Hl IH]; [done |].
  rewrite fmap_cons, IH. by rewrite Hx.
Qed.

Lemma series_mean_numbers l :
  l ≠ [] → numbers l →
  series_mean l = (np_sum l / float_of_nat (length l))%float.
Proof.
  intros Hne Hn. unfold series_mean.
  rewrite (dropna_numbers _ Hn), (fill_numbers _ Hn).
  rewrite bool_decide_eq_false_2; [done |]. by destruct l.
Qed.

(** ** The summary (C6) *)

Definition prices (rows : list hist_row) : list float :=
  np_float ∘ h_price_usd <$> rows.

Definition volumes (rows : list hist_row) : list float :=
  np_float ∘ h_volume_usd <$> rows.

(** The [(timestamp, price_usd)] tuples of the rows. *)
Definition price_tuples (rows : list hist_row) : list (string * cell) :=
  (λ r, (h_timestamp r, h_price_usd r)) <$> rows.

Lemma price_tuples_last rows last :
  list.last rows = Some last →
  list.last (price_tuples rows) = Some (h_timestamp last, h_price_usd last).
Proof. intros Hl. unfold price_tuples. by rewrite fmap_last, Hl. Qed.

Lemma float64_column_true col :
  float64_column col = true ↔ ∃ x, Some x ∈ col.
Proof.
  unfold float64_column. rewrite bool_decide_eq_true, Exists_exists. split.
  - intros (c & Hc & [x ->]). by exists x.
  - intros (x & Hx). by exists (Some x).
Qed.

Lemma float64_column_false col :
  float64_column col = false ↔ ∀ c, c ∈ col → c = None.
Proof.
  unfold float64_column. rewrite bool_decide_eq_false, Exists_exists. split.
  - intros Hno c Hc. destruct c as [x |]; [| done].
    exfalso. apply Hno. by exists (Some x).
  - intros Hall (c & Hc & [x ->]). by specialize (Hall _ Hc).
Qed.

(** The rows of an asset whose prices are numbers make the price column a
    float64 column. *)
Lemma numbers_float64 df crypto :
  asset_rows df crypto ≠ [] → numbers (prices (asset_rows df crypto)) →
  float64_prices df = true.
Proof.
  intros Hne Hn. apply float64_column_true.
  destruct (asset_rows df crypto) as [| r rows] eqn:Hrows; [done |].
  assert (r ∈ df) as Hr.
  { assert (r ∈ asset_rows df crypto) as Hin by (rewrite Hrows; by left).
    by apply list_elem_of_filter in Hin as [_ ?]. }
  apply Forall_cons in Hn as [Hp _]. simpl in Hp.
  destruct (h_price_usd r) as [x |] eqn:Hx; [| done].
  exists x. apply list_elem_of_fmap. exists r. by rewrite Hx.
Qed.

Lemma asset_stats_float64 crypto r rows :
  ∃ first last,
    head (r :: rows) = Some first ∧ list.last (r :: rows) = Some last ∧
    asset_stats true crypto (r :: rows) =
      Ok (Some {| Cryptocurrency := capitalize crypto;
                  Current_Price := np_float (h_price_usd last);
                  Price_Change :=
                    (((np_float (h_price_usd last) - np_float (h_price_usd first))
                      / np_float (h_price_usd first)) * 100)%float;
                  Highest_Price := series_max (prices (r :: rows));
                  Lowest_Price := series_min (prices (r :: rows));
                  Average_Volume := series_mean (volumes (r :: rows)) |}).
Proof.
  destruct (list.last (r :: rows)) as [last |] eqn:Hl;
    [| by apply last_None in Hl].
  exists r, last. split; [done |]. split; [done |].
  unfold asset_stats. rewrite bool_decide_eq_false_2 by done.
  unfold iloc.
  rewrite (py_index_first _ (h_price_usd r)) by done.
  rewrite (py_index_last _ (h_price_usd last)) by (by rewrite fmap_last, Hl).
  unfold prices, volumes. by rewrite !list_fmap_compose.
Qed.

Lemma asset_stats_object crypto r rows :
  (∀ x, x ∈ r :: rows → h_price_usd x = None) →
  asset_stats false crypto (r :: rows) = Raise TypeError.
Proof.
  intros Hnone.
  destruct (list.last (r :: rows)) as [last |] eqn:Hl;
    [| by apply last_None in Hl].
  unfold asset_stats. rewrite bool_decide_eq_false_2 by done.
  unfold iloc.
  rewrite (py_index_first _ (h_price_usd r)) by done.
  rewrite (py_index_last _ (h_price_usd last)) by (by rewrite fmap_last, Hl).
  rewrite (Hnone r) by (by left).
  by rewrite (Hnone last) by (by apply last_Some_elem_of).
Qed.

Lemma asset_stats_empty float64 crypto : asset_stats float64 crypto [] = Ok None.
Proof. done. Qed.

Lemma summary_loop_float64 cryptos df :
  ∃ l, summary_loop true cryptos df = Ok l ∧
    ∀ s, s ∈ l ↔
      ∃ crypto, crypto ∈ cryptos ∧
        asset_stats true crypto (asset_rows df crypto) = Ok (Some s).
Proof.
  induction cryptos as [| c cs (l & Hl & IH)].
  - exists []. split; [done |]. intros s. split; [by intros ?%elem_of_nil |].
    by intros (? & ?%elem_of_nil & _).
  - assert (∃ o, asset_stats true c (asset_rows df c) = Ok o) as (o & Ho).
    { destruct (asset_rows df c) as [| r rows]; [by eexists |].
      destruct (asset_stats_float64 c r rows) as (? & ? & _ & _ & ->). by eexists. }
    simpl. rewrite Ho, Hl. simpl.
    destruct o as [s0 |]; eexists; (split; [done |]); intros s.
    + rewrite elem_of_cons, IH. split.
      * intros [-> | (c' & Hc' & Hs)]; [exists c | exists c'];
          (split; [| done]); [by left | by right].
      * intros (c' & [-> | Hc']%elem_of_cons & Hs).
        -- left. congruence.
        -- right. by exists c'.
    + rewrite IH. split.
      * intros (c' & Hc' & Hs). exists c'. split; [by right | done].
      * intros (c' & [-> | Hc']%elem_of_cons & Hs); [congruence |].
        by exists c'.
Qed.

Lemma summary_loop_object cryptos df :
  (∀ r, r ∈ df → h_price_usd r = None) →
  ((∀ c, c ∈ cryptos → asset_rows df c = []) ∧ summary_loop false cryptos df = Ok []) ∨
  ((∃ c, c ∈ cryptos ∧ asset_rows df c ≠ []) ∧
   summary_loop false cryptos df = Raise TypeError).
Proof.
  intros Hnone. induction cryptos as [| c cs IH].
  - left. split; [by intros c ?%elem_of_nil | done].
  - simpl. destruct (asset_rows df c) as [| r rows] eqn:Hrows.
    + rewrite asset_stats_empty. simpl.
      destruct IH as [[Hall ->] | [(c' & Hc' & Hne) ->]].
      * left. split; [| done].
        intros c' [-> | Hc']%elem_of_cons; [done | by apply Hall].
      * right. split; [| done]. exists c'. split; [by right | done].
    + right. split; [exists c; split; [by left | by rewrite Hrows] |].
      rewrite asset_stats_object; [done |].
      intros x Hx. apply Hnone.
      assert (x ∈ asset_rows df c) as Hin by (by rewrite Hrows).
      by apply list_elem_of_filter in Hin as [_ ?].
Qed.

Lemma float64_prices_false df :
  float64_prices df = false → ∀ r, r ∈ df → h_price_usd r = None.
Proof.
  intros Hf r Hr. apply (proj1 (float64_column_false _) Hf).
  apply list_elem_of_fmap. by exists r.
Qed.

(** Which entries a summary has, when there is one. *)
Lemma summary_of_entries df l :
  summary_of df = Ok l →
  ∀ s, s ∈ l ↔
    ∃ c, c ∈ tracked ∧
      asset_stats (float64_prices df) c (asset_rows df c) = Ok (Some s).
Proof.
  unfold summary_of. destruct (float64_prices df) eqn:Hf.
  - destruct (summary_loop_float64 tracked df) as (l' & Hl' & Hchar).
    rewrite Hl'. by intros [= <-].
  - destruct (summary_loop_object tracked df (float64_prices_false df Hf))
      as [[Hall ->] | [_ ->]]; [| done].
    intros [= <-] s. split; [by intros ?%elem_of_nil |].
    intros (c & Hc & Hs). by rewrite (Hall c Hc) in Hs.
Qed.

(** When the summary is computed and when it fails. *)
Lemma summary_of_outcome df :
  (float64_prices df = true ∨ (∀ c, c ∈ tracked → asset_rows df c = []) →
   ∃ l, summary_of df = Ok l) ∧
  (float64_prices df = false → (∃ c, c ∈ tracked ∧ asset_rows df c ≠ []) →
   summary_of df = Raise TypeError).
Proof.
  unfold summary_of. destruct (float64_prices df) eqn:Hf.
  - split; [| done]. intros _.
    destruct (summary_loop_float64 tracked df) as (l & Hl & _). by exists l.
  - destruct (summary_loop_object tracked df (float64_prices_false df Hf))
      as [[Hall ->] | [(c & Hc & Hne) ->]].
    + split; [by exists [] |]. intros _ (c & Hc & Hne). by specialize (Hall c Hc).
    + split; [| done]. intros [[=] | Hall]. by specialize (Hall c Hc).
Qed.


(** ** Stepping through the effects *)

Lemma bind_ok {A B} (m : M A) (k : A → M B) w a w' :
  m w = (Ok a, w') → (m ≫= k) w = k a w'.
Proof. intros H. unfold mbind, M_bind. by rewrite H. Qed.

Lemma bind_raise {A B} (m : M A) (k : A → M B) w e w' :
  m w = (Raise e, w') → (m ≫= k) w = (Raise e, w').
Proof. intros H. unfold mbind, M_bind. by rewrite H. Qed.

Lemma bind_inv {A B} (m : M A) (k : A → M B) w r w2 :
  (m ≫= k) w = (r, w2) →
  (∃ a w1, m w = (Ok a, w1) ∧ k a w1 = (r, w2)) ∨
  (∃ e, m w = (Raise e, w2) ∧ r = Raise e).
Proof.
  unfold mbind, M_bind. destruct (m w) as [[a | e] w1]; intros H.
  - left. by exists a, w1.
  - right. exists e. by injection H as <- <-.
Qed.

(** What a step leaves alone. *)
Definition same_store (w w' : world) : Prop :=
  table w' = table w ∧ pending w' = pending w.

Definition same_inputs (w w' : world) : Prop :=
  clock w' = clock w ∧ network w' = network w.

(** ** Fetching (C8) *)

(** The line [fetch_crypto_data] prints for the exception [e]. *)
Definition error_line (e : request_error) : line :=
  [Lit "Error fetching data: "; ExnText e].

(** The exception a failing request ends in. *)
Definition failure_of (o : get_outcome) : request_error :=
  match o with
  | GetRaises e => e
  | GetResponse r => HTTPError (status_code r)
  end.

Lemma fetch_failed w :
  request_fails (network w (requests_sent w)) →
  fetch_crypto_data w =
    (Ok PyNone,
     set_stdout (stdout w ++ [error_line (failure_of (network w (requests_sent w)))])
       (set_requests_sent (S (requests_sent w)) w)).
Proof.
  intros Hf. unfold fetch_crypto_data, try_except, mbind, M_bind, requests_get.
  destruct (network w (requests_sent w)) as [e | r]; simpl in *.
  - done.
  - unfold lift, raise_for_status. by rewrite bool_decide_eq_true_2.
Qed.

Lemma fetch_same_store w r w' :
  fetch_crypto_data w = (r, w') → same_store w w' ∧ same_inputs w w'.
Proof.
  unfold fetch_crypto_data, try_except, mbind, M_bind, requests_get, lift.
  destruct (network w (requests_sent w)) as [e | resp]; simpl.
  - by intros [= <- <-].
  - destruct (raise_for_status resp) as [[] | [| | | | | | e]] eqn:Hs; simpl;
      try (by intros [= <- <-]).
    destruct (json resp) as [v | [| | | | | | e]]; simpl; by intros [= <- <-].
Qed.

(** ** Concrete worlds *)

Definition quote_of (usd cap vol : float) : pyval :=
  PyDict (<["usd" := PyFloat usd]>
         (<["usd_market_cap" := PyFloat cap]>
         (<["usd_24h_vol" := PyFloat vol]> ∅))).

Definition both_quotes : pyval :=
  PyDict (<["bitcoin" := quote_of 67187 1320000000000 25000000000]>
         (<["ethereum" := quote_of 3500.5 420000000000 12000000000]> ∅)).

Definition bitcoin_only : pyval :=
  PyDict (<["bitcoin" := quote_of 67187 1320000000000 25000000000]> ∅).

(** A clock that advances by one second at every reading, from
    2024-01-01 00:00:00.000250. *)
Definition ticking (n : nat) : datetime :=
  {| year := 2024; month := 1; day := 1; hour := 0;
     minute := n / 60 `mod` 60; second := n `mod` 60; microsecond := 250 |}.

(** The world at the start: an empty table, nothing printed, the network
    behaving as [net]. *)
Definition fresh (net : nat → get_outcome) : world :=
  {| clock := ticking; network := net; clock_reads := 0; requests_sent := 0;
     table := []; pending := []; connected := true; stdout := []; slept := [] |}.

Definition answers (status : nat) (v : pyval) : nat → get_outcome :=
  λ _, GetResponse {| status_code := status; body := Some v |}.

Definition unreachable : nat → get_outcome := λ _, GetRaises ConnectionError.

(** C8, as amended.  When the request fails on the network, or is answered
    with a client or server error status (400 to 599), [fetch_crypto_data]
    returns [None], a falsy value, to its caller without raising, prints the
    error, and leaves the store alone. *)
Theorem fetch_failure_is_none (w : world) :
  request_fails (network w (requests_sent w)) →
  ∃ w', fetch_crypto_data w = (Ok PyNone, w') ∧
    truthy PyNone = false ∧
    stdout w' =
      stdout w ++ [error_line (failure_of (network w (requests_sent w)))] ∧
    same_store w w'.
Proof.
  intros Hf. eexists. split; [by apply fetch_failed |]. by repeat split.
Qed.

Lemma fetch_failure_is_none_witness :
  request_fails (network (fresh unreachable) 0) ∧
  request_fails (network (fresh (answers 503 both_quotes)) 0) ∧
  (∃ w', fetch_crypto_data (fresh unreachable) = (Ok PyNone, w') ∧
     truthy PyNone = false ∧
     stdout w' = [error_line ConnectionError] ∧
     same_store (fresh unreachable) w').
Proof.
  split; [exact I |]. split; [simpl; lia |].
  exact (fetch_failure_is_none (fresh unreachable) I).
Defined.

(** C8, the claim as stated fails: a response with status 300, which is not
    a 2xx status, and a JSON body is returned to the caller as a result, and
    nothing is printed. *)
Lemma fetch_accepts_status_300 :
  ¬ (200 ≤ 300 < 300) ∧
  network (fresh (answers 300 both_quotes)) 0 =
    GetResponse {| status_code := 300; body := Some both_quotes |} ∧
  fetch_crypto_data (fresh (answers 300 both_quotes)) =
    (Ok both_quotes, set_requests_sent 1 (fresh (answers 300 both_quotes))) ∧
  truthy both_quotes = true ∧
  stdout (set_requests_sent 1 (fresh (answers 300 both_quotes))) = [].
Proof.
  split; [lia |]. split; [done |]. split; [done |]. split; [| done].
  by vm_compute.
Qed.

(** ** A failed fetch (C4) *)

Lemma save_falsy v w : truthy v = false → save_to_database v w = (Ok (), w).
Proof. intros Hv. unfold save_to_database. by rewrite Hv. Qed.

Lemma run_iteration_falsy interval w v w1 :
  fetch_crypto_data w = (Ok v, w1) → truthy v = false →
  run_iteration interval w = (Ok (), set_slept (slept w1 ++ [interval]) w1).
Proof.
  intros Hf Hv. unfold run_iteration.
  rewrite (bind_ok _ _ _ _ _ Hf), Hv. done.
Qed.

(** A turn of the loop whose request fails. *)
Definition after_failed_turn (interval : nat) (w : world) : world :=
  set_slept (slept w ++ [interval])
    (set_stdout (stdout w ++ [error_line (failure_of (network w (requests_sent w)))])
       (set_requests_sent (S (requests_sent w)) w)).

Lemma run_iteration_failed interval w :
  request_fails (network w (requests_sent w)) →
  run_iteration interval w = (Ok (), after_failed_turn interval w).
Proof.
  intros Hf. by rewrite (run_iteration_falsy interval w PyNone _ (fetch_failed w Hf)).
Qed.

Lemma run_loop_failed interval cycles : ∀ w,
  (∀ i, i < cycles → request_fails (network w (requests_sent w + i))) →
  ∃ w', run_loop cycles interval w = (Ok (), w') ∧
    same_store w w' ∧ connected w' = connected w.
Proof.
  induction cycles as [| n IH]; intros w Hall.
  - by exists w.
  - assert (request_fails (network w (requests_sent w))) as H0.
    { specialize (Hall 0). rewrite Nat.add_0_r in Hall. apply Hall. lia. }
    destruct (IH (after_failed_turn interval w)) as (w' & Hrun & [Ht Hp] & Hc).
    { intros i Hi. simpl. replace (S (requests_sent w + i)) with
        (requests_sent w + S i) by lia. apply Hall. lia. }
    exists w'. split; [| done].
    simpl. by rewrite (bind_ok _ _ _ _ _ (run_iteration_failed interval w H0)).
Qed.

(** C4.  When the fetch of a turn of the loop fails, that is returns a
    falsy result [v], persisting [v] changes nothing, the turn ends without
    an exception and the committed and the pending rows are those from
    before the turn.  And when each of the requests of a run fails, [run]
    returns without an exception, with the table unchanged. *)
Theorem failed_fetch_leaves_store (interval : nat) (w w1 : world) (v : pyval) :
  fetch_crypto_data w = (Ok v, w1) → truthy v = false →
  save_to_database v w1 = (Ok (), w1) ∧
  (∃ w', run_iteration interval w = (Ok (), w') ∧ same_store w w') ∧
  (∀ cycles w0,
     (∀ i, i < cycles → request_fails (network w0 (requests_sent w0 + i))) →
     ∃ w', run interval cycles w0 = (Ok (), w') ∧ table w' = table w0).
Proof.
  intros Hf Hv. split; [by apply save_falsy |]. split.
  - eexists. split; [by eapply run_iteration_falsy |].
    by destruct (fetch_same_store _ _ _ Hf) as [[? ?] _].
  - intros cycles w0 Hall. unfold run.
    set (wA := set_stdout
                 (stdout w0 ++ [[Lit "Starting cryptocurrency price tracker..."]]) w0).
    set (wB := set_stdout (stdout wA ++ [[Lit "Press Ctrl+C to stop"]]) wA).
    destruct (run_loop_failed interval cycles wB) as (w' & Hrun & [Ht Hp] & Hc);
      [done |].
    rewrite (bind_ok (print _) _ w0 () wA eq_refl).
    rewrite (bind_ok (print _) _ wA () wB eq_refl).
    unfold try_finally. rewrite (bind_ok _ _ _ _ _ Hrun). simpl.
    eexists. split; [done |]. simpl. by rewrite Ht.
Qed.

Lemma failed_fetch_leaves_store_witness :
  fetch_crypto_data (fresh unreachable) =
    (Ok PyNone,
     set_stdout [error_line ConnectionError]
       (set_requests_sent 1 (fresh unreachable))) ∧
  truthy PyNone = false ∧
  (∃ w', run_iteration 60 (fresh unreachable) = (Ok (), w') ∧
         same_store (fresh unreachable) w').
Proof.
  split; [done |]. split; [done |].
  exact (proj1 (proj2 (failed_fetch_leaves_store 60 (fresh unreachable) _ PyNone
                         eq_refl eq_refl))).
Defined.

(** ** Persisting a fetch result (C9, C10) *)

Lemma save_row_inv crypto_data ts crypto w r w' :
  save_row crypto_data ts crypto w = (r, w') →
  (r = Ok () ∧ has_key crypto_data crypto ∧
   ∃ x, w' = set_pending (pending w ++ [x]) w ∧
        cryptocurrency x = crypto ∧ timestamp x = ts) ∨
  (∃ e, r = Raise e ∧ w' = w).
Proof.
  unfold save_row, mbind, M_bind, lift, execute_insert, bind_quote.
  destruct crypto_data as [| f | l | d | z]; simpl;
    try (intros [= <- <-]; right; by eexists).
  destruct (d !! crypto) as [data |] eqn:Hd;
    [| intros [= <- <-]; right; by eexists].
  destruct (subscript data "usd") as [usd | e]; simpl;
    [| intros [= <- <-]; right; by eexists].
  destruct (subscript data "usd_market_cap") as [cap | e]; simpl;
    [| intros [= <- <-]; right; by eexists].
  destruct (subscript data "usd_24h_vol") as [vol | e]; simpl;
    [| intros [= <- <-]; right; by eexists].
  destruct (sqlite_bind usd) as [p | e]; simpl;
    [| intros [= <- <-]; right; by eexists].
  destruct (sqlite_bind cap) as [c | e]; simpl;
    [| intros [= <- <-]; right; by eexists].
  destruct (sqlite_bind vol) as [v | e]; simpl;
    [| intros [= <- <-]; right; by eexists].
  intros [= <- <-]. left. split; [done |]. split.
  - exists d. split; [done |]. by rewrite Hd.
  - by eexists.
Qed.

Lemma save_row_missing d ts crypto w :
  d !! crypto = None →
  save_row (PyDict d) ts crypto w = (Raise (KeyError crypto), w).
Proof.
  intros Hd. unfold save_row, mbind, M_bind, lift. simpl. by rewrite Hd.
Qed.

(** The row written for an asset whose quote holds values that bind to
    the cells [cu], [cc] and [cv]. *)
Lemma save_row_cells d ts crypto q u c v cu cc cv w :
  d !! crypto = Some q → quote_with q u c v →
  sqlite_bind u = Ok cu → sqlite_bind c = Ok cc → sqlite_bind v = Ok cv →
  save_row (PyDict d) ts crypto w =
    (Ok (),
     set_pending
       (pending w ++
          [{| rowid := next_rowid (table w ++ pending w);
              cryptocurrency := crypto; price_usd := cu;
              market_cap_usd := cc; volume_usd := cv; timestamp := ts |}]) w).
Proof.
  intros Hd (m & -> & Hu & Hc & Hv) Hbu Hbc Hbv.
  unfold save_row, mbind, M_bind, lift, execute_insert, bind_quote. simpl.
  rewrite Hd. simpl. rewrite Hu, Hc, Hv. by rewrite Hbu, Hbc, Hbv.
Qed.

Lemma save_row_quote d ts crypto q w :
  d !! crypto = Some q → is_quote q →
  ∃ x, save_row (PyDict d) ts crypto w = (Ok (), set_pending (pending w ++ [x]) w).
Proof.
  intros Hd (usd & cap & vol & Hq & [cu Hu] & [cc Hc] & [cv Hv]).
  eexists. by eapply save_row_cells.
Qed.

Lemma save_row_not_dict v ts crypto w :
  (∀ d, v ≠ PyDict d) → save_row v ts crypto w = (Raise TypeError, w).
Proof.
  intros Hv. destruct v as [| f | l | d | z]; try done. by destruct (Hv d).
Qed.

(** C9.  A call of [save_to_database] on a truthy result that returns has
    read the clock once and has added to the table, after the rows that
    were pending, one row for bitcoin and one row for ethereum, both with
    the formatted reading of the clock at the start of the call as their
    timestamp. *)
Theorem save_shares_timestamp (crypto_data : pyval) (w w' : world) :
  truthy crypto_data = true →
  save_to_database crypto_data w = (Ok (), w') →
  ∃ r1 r2,
    table w' = table w ++ pending w ++ [r1; r2] ∧ pending w' = [] ∧
    cryptocurrency r1 = "bitcoin" ∧ cryptocurrency r2 = "ethereum" ∧
    timestamp r1 = strftime (clock w (clock_reads w)) ∧
    timestamp r2 = strftime (clock w (clock_reads w)) ∧
    clock_reads w' = S (clock_reads w).
Proof.
  intros Ht Hs. unfold save_to_database in Hs. rewrite Ht in Hs. simpl in Hs.
  rewrite (bind_ok datetime_now _ w _ _ eq_refl) in Hs.
  set (w1 := set_clock_reads (S (clock_reads w)) w) in Hs.
  set (ts := strftime (clock w (clock_reads w))) in *.
  apply bind_inv in Hs as [(u & w4 & Hloop & Hcommit) | (e & _ & [=])].
  simpl in Hloop.
  apply bind_inv in Hloop as [(u1 & w2 & Hb & Hrest) | (e & _ & [=])].
  apply bind_inv in Hrest as [(u2 & w3 & He & Hnil) | (e & _ & [=])].
  injection Hnil as _ <-.
  apply save_row_inv in Hb as [(_ & _ & r1 & -> & Hc1 & Ht1) | (e & [=] & _)].
  apply save_row_inv in He as [(_ & _ & r2 & -> & Hc2 & Ht2) | (e & [=] & _)].
  injection Hcommit as <-.
  exists r1, r2. simpl. rewrite <- !app_assoc. by repeat split.
Qed.

Lemma save_shares_timestamp_witness :
  truthy both_quotes = true ∧
  ∃ r1 r2,
    table (save_to_database both_quotes (fresh unreachable)).2 =
      table (fresh unreachable) ++ pending (fresh unreachable) ++ [r1; r2] ∧
    pending (save_to_database both_quotes (fresh unreachable)).2 = [] ∧
    cryptocurrency r1 = "bitcoin" ∧ cryptocurrency r2 = "ethereum" ∧
    timestamp r1 = strftime (ticking 0) ∧
    timestamp r2 = strftime (ticking 0) ∧
    clock_reads (save_to_database both_quotes (fresh unreachable)).2 = 1.
Proof.
  split; [vm_compute; reflexivity |].
  apply (save_shares_timestamp both_quotes (fresh unreachable));
    vm_compute; reflexivity.
Defined.

Lemma save_truthy crypto_data w :
  truthy crypto_data = true →
  save_to_database crypto_data w =
    ((for_each ["bitcoin"; "ethereum"]
        (save_row crypto_data (strftime (clock w (clock_reads w))));;
      commit)
       (set_clock_reads (S (clock_reads w)) w)).
Proof.
  intros Ht. unfold save_to_database. rewrite Ht. simpl.
  by rewrite (bind_ok datetime_now _ w _ _ eq_refl).
Qed.

Lemma save_returns_keys w v w' :
  save_to_database v w = (Ok (), w') →
  truthy v = false ∨ (has_key v "bitcoin" ∧ has_key v "ethereum").
Proof.
  intros Hs. destruct (truthy v) eqn:Ht; [right | by left].
  rewrite (save_truthy _ _ Ht) in Hs.
  apply bind_inv in Hs as [(u & w4 & Hloop & _) | (e & _ & [=])].
  simpl in Hloop.
  apply bind_inv in Hloop as [(u1 & w2 & Hb & Hrest) | (e & _ & [=])].
  apply bind_inv in Hrest as [(u2 & w3 & He & _) | (e & _ & [=])].
  apply save_row_inv in Hb as [(_ & Hkb & _) | (e & [=] & _)].
  apply save_row_inv in He as [(_ & Hke & _) | (e & [=] & _)].
  done.
Qed.

Lemma save_raise_state v w e w' :
  save_to_database v w = (Raise e, w') →
  table w' = table w ∧ length (pending w') ≤ length (pending w) + 1.
Proof.
  intros Hs. destruct (truthy v) eqn:Ht;
    [| by rewrite (save_falsy _ _ Ht) in Hs].
  rewrite (save_truthy _ _ Ht) in Hs.
  apply bind_inv in Hs as [(u & w4 & _ & [=]) | (e' & Hloop & _)].
  simpl in Hloop.
  apply bind_inv in Hloop as [(u1 & w2 & Hb & Hrest) | (e1 & Hb & _)].
  - apply save_row_inv in Hb as [(_ & _ & x & -> & _) | (? & [=] & _)].
    apply bind_inv in Hrest as [(u2 & w3 & _ & [=]) | (e2 & He & _)].
    apply save_row_inv in He as [([=] & _) | (? & _ & ->)].
    simpl. rewrite length_app. simpl. split; [done | lia].
  - apply save_row_inv in Hb as [([=] & _) | (? & _ & ->)].
    simpl. split; [done | lia].
Qed.

(** C10, as amended.  On a truthy result that lacks the key "bitcoin" or
    the key "ethereum", [save_to_database] raises before it commits: the
    table is as before and at most one row, that of bitcoin, has joined the
    open transaction.  The exception is a [TypeError] when the result is
    not a dict, the [KeyError] of "bitcoin" when a dict lacks that key, and
    the [KeyError] of "ethereum" when the entry of bitcoin is a quote and
    its row was written.  A call that returns was made on a falsy result
    or on a result with entries for both assets. *)
Theorem save_missing_key (v : pyval) (w : world) :
  truthy v = true → ¬ (has_key v "bitcoin" ∧ has_key v "ethereum") →
  ∃ e w', save_to_database v w = (Raise e, w') ∧
    table w' = table w ∧ length (pending w') ≤ length (pending w) + 1 ∧
    ((∀ d, v ≠ PyDict d) → e = TypeError ∧ pending w' = pending w) ∧
    (∀ d, v = PyDict d → d !! "bitcoin" = None →
       e = KeyError "bitcoin" ∧ pending w' = pending w) ∧
    (∀ d q, v = PyDict d → d !! "bitcoin" = Some q → is_quote q →
       e = KeyError "ethereum" ∧ d !! "ethereum" = None ∧
       ∃ x, pending w' = pending w ++ [x] ∧ cryptocurrency x = "bitcoin") ∧
    (∀ v0 w0 w0', save_to_database v0 w0 = (Ok (), w0') →
       truthy v0 = false ∨ (has_key v0 "bitcoin" ∧ has_key v0 "ethereum")).
Proof.
  intros Ht Hk.
  destruct (save_to_database v w) as [[[] | e] w'] eqn:Hs.
  { destruct (save_returns_keys w v w' Hs) as [? | ?]; [congruence | done]. }
  exists e, w'. split; [done |].
  destruct (save_raise_state v w e w' Hs) as [Htab Hlen].
  split; [done |]. split; [done |].
  rewrite (save_truthy _ _ Ht) in Hs.
  set (w1 := set_clock_reads (S (clock_reads w)) w) in Hs.
  set (ts := strftime (clock w (clock_reads w))) in Hs.
  split; [| split; [| split; [| intros v0 w0 w0'; apply save_returns_keys]]].
  - intros Hnd.
    assert ((for_each ["bitcoin"; "ethereum"] (save_row v ts);; commit) w1
            = (Raise TypeError, w1)) as Heq.
    { apply bind_raise. simpl. apply bind_raise. by apply save_row_not_dict. }
    rewrite Heq in Hs. by injection Hs as <- <-.
  - intros d -> Hb.
    assert ((for_each ["bitcoin"; "ethereum"] (save_row (PyDict d) ts);; commit) w1
            = (Raise (KeyError "bitcoin"), w1)) as Heq.
    { apply bind_raise. simpl. apply bind_raise. by apply save_row_missing. }
    rewrite Heq in Hs. by injection Hs as <- <-.
  - intros d q -> Hb Hq.
    assert (d !! "ethereum" = None) as He.
    { destruct (d !! "ethereum") as [qe |] eqn:He; [| done].
      exfalso. apply Hk. split; exists d; (split; [done |]); by eexists. }
    destruct (save_row_quote d ts "bitcoin" q w1 Hb Hq) as [x Hx].
    assert (cryptocurrency x = "bitcoin") as Hcx.
    { apply save_row_inv in Hx as [(_ & _ & x' & Hw & Hc' & _) | (? & [=] & _)].
      assert (pending (set_pending (pending w1 ++ [x]) w1)
              = pending (set_pending (pending w1 ++ [x']) w1)) as Hp
        by (by rewrite Hw).
      simpl in Hp. apply app_inj_tail in Hp as [_ ->]. done. }
    assert ((for_each ["bitcoin"; "ethereum"] (save_row (PyDict d) ts);; commit) w1
            = (Raise (KeyError "ethereum"), set_pending (pending w1 ++ [x]) w1))
      as Heq.
    { apply bind_raise. simpl. rewrite (bind_ok _ _ _ _ _ Hx).
      apply bind_raise. by apply save_row_missing. }
    rewrite Heq in Hs. injection Hs as <- <-.
    split; [done |]. split; [done |]. by exists x.
Qed.

(** An object whose entry for bitcoin is [null]. *)
Definition bitcoin_null : pyval :=
  PyDict (<["bitcoin" := PyNone]> ∅).

Lemma bitcoin_only_lacks_ethereum :
  ¬ (has_key bitcoin_only "bitcoin" ∧ has_key bitcoin_only "ethereum").
Proof.
  intros [_ (d & Hd & [x Hx])]. unfold bitcoin_only in Hd.
  injection Hd as <-. by vm_compute in Hx.
Qed.

Lemma save_missing_key_witness :
  truthy bitcoin_only = true ∧
  ∃ e w', save_to_database bitcoin_only (fresh unreachable) = (Raise e, w') ∧
    e = KeyError "ethereum" ∧ table w' = [] ∧
    ∃ x, pending w' = [x] ∧ cryptocurrency x = "bitcoin".
Proof.
  split; [vm_compute; reflexivity |].
  destruct (save_missing_key bitcoin_only (fresh unreachable) eq_refl
              bitcoin_only_lacks_ethereum)
    as (e & w' & Hs & Ht & _ & _ & _ & Hq & _).
  destruct (Hq _ (quote_of 67187 1320000000000 25000000000) eq_refl eq_refl)
    as (He & _ & x & Hp & Hx).
  { eexists _, _, _. split; [eexists; split; [reflexivity |];
      repeat split; vm_compute; reflexivity |].
    repeat split; by eexists. }
  exists e, w'. split; [exact Hs |]. split; [exact He |].
  split; [exact Ht |]. exists x. by split.
Defined.

(** C10, the claim as stated fails: on a list, on a number and on an
    object whose entry for bitcoin is [null], all truthy and without the
    key "ethereum", [save_to_database] raises [TypeError], which is not a
    lookup error. *)
Lemma save_raises_type_error :
  is_lookup_error TypeError = false ∧
  (truthy (PyList [PyFloat 1]) = true ∧
   save_to_database (PyList [PyFloat 1]) (fresh unreachable) =
     (Raise TypeError, set_clock_reads 1 (fresh unreachable))) ∧
  (truthy (PyFloat 5) = true ∧
   save_to_database (PyFloat 5) (fresh unreachable) =
     (Raise TypeError, set_clock_reads 1 (fresh unreachable))) ∧
  (truthy bitcoin_null = true ∧
   subscript bitcoin_null "ethereum" = Raise (KeyError "ethereum") ∧
   save_to_database bitcoin_null (fresh unreachable) =
     (Raise TypeError, set_clock_reads 1 (fresh unreachable))).
Proof. repeat split; vm_compute; reflexivity. Qed.

(** ** Timestamps to the second *)

Lemma digit_eq a b : digit a = digit b → a `mod` 10 = b `mod` 10.
Proof.
  unfold digit. intros H.
  apply (f_equal nat_of_ascii) in H.
  assert (a `mod` 10 < 10) by (apply Nat.mod_upper_bound; lia).
  assert (b `mod` 10 < 10) by (apply Nat.mod_upper_bound; lia).
  rewrite !nat_ascii_embedding in H by lia. lia.
Qed.

Lemma two_digits a b :
  a < 100 → b < 100 →
  (a `div` 10) `mod` 10 = (b `div` 10) `mod` 10 → a `mod` 10 = b `mod` 10 →
  a = b.
Proof. intros. zify. Z.to_euclidean_division_equations. lia. Qed.

Lemma four_digits a b :
  a < 100 * 100 → b < 100 * 100 →
  (a `div` 1000) `mod` 10 = (b `div` 1000) `mod` 10 →
  (a `div` 100) `mod` 10 = (b `div` 100) `mod` 10 →
  (a `div` 10) `mod` 10 = (b `div` 10) `mod` 10 → a `mod` 10 = b `mod` 10 →
  a = b.
Proof. intros. zify. Z.to_euclidean_division_equations. lia. Qed.

Lemma String_inj c1 s1 c2 s2 : String c1 s1 = String c2 s2 → c1 = c2 ∧ s1 = s2.
Proof. by intros [= -> ->]. Qed.

Ltac digits H :=
  repeat (let Hd := fresh "Hd" in
          apply String_inj in H as [Hd H]; try apply digit_eq in Hd).

(** The formatted time does not depend on the microseconds, and two times
    with the same text are the same time to the second. *)
Lemma strftime_to_second d : strftime (to_second d) = strftime d.
Proof. done. Qed.

Lemma strftime_inj d1 d2 :
  in_range d1 → in_range d2 → strftime d1 = strftime d2 →
  to_second d1 = to_second d2.
Proof.
  intros ([_ Hy1] & Hm1 & Hd1 & Hh1 & Hi1 & Hs1)
         ([_ Hy2] & Hm2 & Hd2 & Hh2 & Hi2 & Hs2) H.
  unfold strftime, pad4, pad2 in H. cbn [String.append] in H.
  digits H. unfold to_second.
  rewrite (four_digits (year d1) (year d2)) by done.
  rewrite (two_digits (month d1) (month d2)) by done.
  rewrite (two_digits (day d1) (day d2)) by done.
  rewrite (two_digits (hour d1) (hour d2)) by done.
  rewrite (two_digits (minute d1) (minute d2)) by done.
  by rewrite (two_digits (second d1) (second d2)) by done.
Qed.

(** *** The order of the texts is the order of the times *)

Lemma compare_digit a b :
  Ascii.compare (digit a) (digit b) = (a `mod` 10 ?= b `mod` 10).
Proof.
  unfold Ascii.compare, digit, ascii_of_nat.
  assert (a `mod` 10 < 10) by (apply Nat.mod_upper_bound; lia).
  assert (b `mod` 10 < 10) by (apply Nat.mod_upper_bound; lia).
  rewrite !N_ascii_embedding by lia.
  rewrite <- Nat2N.inj_compare.
  destruct (Nat.compare_spec (48 + a `mod` 10) (48 + b `mod` 10)),
    (Nat.compare_spec (a `mod` 10) (b `mod` 10)); try done; lia.
Qed.

Lemma append_cons c s t : String c s +:+ t = String c (s +:+ t).
Proof. done. Qed.

Lemma append_nil t : "" +:+ t = t.
Proof. done. Qed.

Lemma append_assoc (a b c : string) : (a +:+ b) +:+ c = a +:+ (b +:+ c).
Proof. induction a as [| x a IH]; [done |]. by rewrite !append_cons, IH. Qed.

Lemma compare_cons c1 s1 c2 s2 :
  String.compare (String c1 s1) (String c2 s2) =
    match Ascii.compare c1 c2 with Eq => String.compare s1 s2 | c => c end.
Proof. done. Qed.

Lemma compare_same c s t :
  String.compare (String c s) (String c t) = String.compare s t.
Proof.
  rewrite compare_cons. assert (Ascii.compare c c = Eq) as ->; [| done].
  unfold Ascii.compare. apply N.compare_refl.
Qed.

Lemma compare_pad2 n m s t :
  n < 100 → m < 100 →
  String.compare (pad2 n +:+ s) (pad2 m +:+ t) =
    match n ?= m with Eq => String.compare s t | c => c end.
Proof.
  intros Hn Hm. unfold pad2.
  rewrite !append_cons, !append_nil, !compare_cons, !compare_digit.
  destruct (Nat.compare_spec ((n `div` 10) `mod` 10) ((m `div` 10) `mod` 10)),
    (Nat.compare_spec (n `mod` 10) (m `mod` 10)), (Nat.compare_spec n m);
    try reflexivity; exfalso; zify; Z.to_euclidean_division_equations; lia.
Qed.

Lemma digit_mod a b : a `mod` 10 = b `mod` 10 → digit a = digit b.
Proof. unfold digit. by intros ->. Qed.

Lemma String_eq c1 s1 c2 s2 : c1 = c2 → s1 = s2 → String c1 s1 = String c2 s2.
Proof. by intros -> ->. Qed.

Lemma pad4_split n : pad4 n = pad2 (n `div` 100) +:+ pad2 (n `mod` 100).
Proof.
  unfold pad4, pad2. rewrite !append_cons, !append_nil.
  repeat (apply String_eq;
          [apply digit_mod; zify; Z.to_euclidean_division_equations; lia |]).
  done.
Qed.

Lemma compare_pad4 n m s t :
  n < 100 * 100 → m < 100 * 100 →
  String.compare (pad4 n +:+ s) (pad4 m +:+ t) =
    match n ?= m with Eq => String.compare s t | c => c end.
Proof.
  intros Hn Hm. rewrite !pad4_split, !append_assoc.
  rewrite compare_pad2 by (zify; Z.to_euclidean_division_equations; lia).
  rewrite compare_pad2 by (zify; Z.to_euclidean_division_equations; lia).
  destruct (Nat.compare_spec (n `div` 100) (m `div` 100)),
    (Nat.compare_spec (n `mod` 100) (m `mod` 100)), (Nat.compare_spec n m);
    try reflexivity; exfalso; zify; Z.to_euclidean_division_equations; lia.
Qed.

Lemma compare_strftime d1 d2 :
  in_range d1 → in_range d2 →
  String.compare (strftime d1) (strftime d2) = compare_to_second d1 d2.
Proof.
  intros ([_ Hy1] & Hm1 & Hd1 & Hh1 & Hi1 & Hs1)
         ([_ Hy2] & Hm2 & Hd2 & Hh2 & Hi2 & Hs2).
  unfold strftime, compare_to_second.
  rewrite compare_pad4 by done. rewrite !append_cons, !append_nil, compare_same.
  rewrite compare_pad2 by done. rewrite compare_same.
  rewrite compare_pad2 by done. rewrite compare_same.
  rewrite compare_pad2 by done. rewrite compare_same.
  rewrite compare_pad2 by done. rewrite compare_same.
  change (pad2 (second d1)) with (pad2 (second d1) +:+ "").
  change (pad2 (second d2)) with (pad2 (second d2) +:+ "").
  rewrite compare_pad2 by done.
  by destruct (second d1 ?= second d2).
Qed.

(** SQLite's order on the timestamps the tracker writes is the order of the
    times they stand for. *)
Lemma strftime_order d1 d2 :
  in_range d1 → in_range d2 →
  text_le (strftime d1) (strftime d2) ↔ not_after d1 d2.
Proof.
  intros H1 H2. unfold text_le, String.leb, not_after.
  rewrite (compare_strftime d1 d2 H1 H2).
  by destruct (compare_to_second d1 d2).
Qed.

(** ** Writing a poll and reading it back (C7) *)

(** A price sample as the poller captures it: the asset, the three numbers
    of its quote and the time of capture. *)
Record PriceSample := {
  asset : string;
  price : float;
  market_cap : float;
  volume : float;
  captured : datetime
}.

(** The fetched result [d] quotes the three numbers of the sample [s] for
    its asset. *)
Definition quoted (d : gmap string pyval) (s : PriceSample) : Prop :=
  ∃ q, d !! asset s = Some q ∧
    quote_with q (PyFloat (price s)) (PyFloat (market_cap s)) (PyFloat (volume s)).

(** The cell [c] holds the number [x]: a number equal to [x], and [x]
    itself unless [x] is the negative zero. *)
Definition holds (c : cell) (x : float) : Prop :=
  ∃ y, c = Some y ∧ (x =? y)%float = true ∧ (x ≠ neg_zero → y = x).

Lemma is_zero_cases x : PrimFloat.is_zero x = true → x = 0%float ∨ x = neg_zero.
Proof.
  unfold PrimFloat.is_zero. rewrite FloatAxioms.eqb_spec.
  replace (Prim2SF PrimFloat.zero) with (S754_zero false) by (by vm_compute).
  intros H. rewrite <- (SF2Prim_Prim2SF x).
  destruct (Prim2SF x) as [[] | [] | | [] m e]; try discriminate H;
    [by right | by left].
Qed.

Lemma real_cell_holds x : PrimFloat.is_nan x = false → holds (real_cell x) x.
Proof.
  intros Hn. unfold real_cell. rewrite Hn.
  destruct (PrimFloat.is_zero x) eqn:Hz.
  - exists 0%float. split; [done |]. split; [exact Hz |].
    intros Hneg. by destruct (is_zero_cases x Hz).
  - exists x. split; [done |]. split; [| done].
    unfold PrimFloat.is_nan in Hn. by destruct (x =? x)%float.
Qed.

(** A number above zero is stored as it is. *)
Lemma real_cell_positive x : (0 <? x)%float = true → real_cell x = Some x.
Proof.
  rewrite FloatAxioms.ltb_spec. intros (a & b & Ha & Hb & Hlt)%SFltb_key.
  unfold real_cell.
  rewrite (proj2 (is_nan_key x)) by (by exists b).
  unfold PrimFloat.is_zero. rewrite FloatAxioms.eqb_spec.
  replace (Prim2SF PrimFloat.zero) with (S754_zero false) in * by (by vm_compute).
  injection Ha as <-. unfold float_key in Hb.
  destruct (Prim2SF x) as [[] | [] | | [] m e]; try done;
    injection Hb as <-; unfold key_lt in Hlt; simpl in Hlt; lia.
Qed.

Lemma dict_truthy d k v : d !! k = Some v → truthy (PyDict d) = true.
Proof.
  intros Hk. simpl. apply negb_true_iff, bool_decide_eq_false.
  intros Hdom. assert (k ∈ dom d) as Hin by (apply elem_of_dom; eauto).
  rewrite Hdom in Hin. by apply not_elem_of_empty in Hin.
Qed.

Lemma foldr_max_app l1 l2 :
  foldr Nat.max 0 (l1 ++ l2) = Nat.max (foldr Nat.max 0 l1) (foldr Nat.max 0 l2).
Proof. induction l1 as [| x l1 IH]; simpl; [done | rewrite IH; lia]. Qed.

Lemma next_rowid_snoc rows r :
  rowid r = next_rowid rows → next_rowid (rows ++ [r]) = S (next_rowid rows).
Proof.
  unfold next_rowid. intros Hr. rewrite fmap_app, foldr_max_app. simpl.
  rewrite Hr. lia.
Qed.

(** What [save_to_database] commits for a result that quotes values which
    a [REAL] column takes, for both assets. *)
Lemma save_cells d w qb qe ub cb vb ue ce ve cub ccb cvb cue cce cve :
  d !! "bitcoin" = Some qb → quote_with qb ub cb vb →
  d !! "ethereum" = Some qe → quote_with qe ue ce ve →
  sqlite_bind ub = Ok cub → sqlite_bind cb = Ok ccb → sqlite_bind vb = Ok cvb →
  sqlite_bind ue = Ok cue → sqlite_bind ce = Ok cce → sqlite_bind ve = Ok cve →
  ∃ w', save_to_database (PyDict d) w = (Ok (), w') ∧
    table w' = table w ++ pending w ++
      [ {| rowid := next_rowid (table w ++ pending w);
           cryptocurrency := "bitcoin"; price_usd := cub;
           market_cap_usd := ccb; volume_usd := cvb;
           timestamp := strftime (clock w (clock_reads w)) |};
        {| rowid := S (next_rowid (table w ++ pending w));
           cryptocurrency := "ethereum"; price_usd := cue;
           market_cap_usd := cce; volume_usd := cve;
           timestamp := strftime (clock w (clock_reads w)) |} ] ∧
    pending w' = [] ∧ clock_reads w' = S (clock_reads w) ∧
    clock w' = clock w ∧ stdout w' = stdout w ∧ slept w' = slept w ∧
    requests_sent w' = requests_sent w ∧ connected w' = connected w ∧
    network w' = network w.
Proof.
  intros Hb Hqb He Hqe Hub Hcb Hvb Hue Hce Hve.
  assert (truthy (PyDict d) = true) as Ht.
  { simpl. apply negb_true_iff, bool_decide_eq_false.
    intros Hdom. assert ("bitcoin" ∈ dom d) as Hin by (apply elem_of_dom; eauto).
    rewrite Hdom in Hin. by apply not_elem_of_empty in Hin. }
  rewrite (save_truthy _ _ Ht).
  set (ts := strftime (clock w (clock_reads w))).
  set (w1 := set_clock_reads (S (clock_reads w)) w).
  pose proof (save_row_cells d ts "bitcoin" qb _ _ _ _ _ _ w1 Hb Hqb Hub Hcb Hvb)
    as H1.
  set (w2 := set_pending _ w1) in H1.
  pose proof (save_row_cells d ts "ethereum" qe _ _ _ _ _ _ w2 He Hqe Hue Hce Hve)
    as H2.
  set (w3 := set_pending _ w2) in H2.
  assert (for_each ["bitcoin"; "ethereum"] (save_row (PyDict d) ts) w1
          = (Ok (), w3)) as Hloop.
  { simpl. by rewrite (bind_ok _ _ _ _ _ H1), (bind_ok _ _ _ _ _ H2). }
  rewrite (bind_ok _ _ _ _ _ Hloop). eexists. split; [done |].
  split; [| done]. simpl. rewrite <- !app_assoc. do 3 f_equal.
  rewrite app_assoc. by rewrite (next_rowid_snoc (table w ++ pending w)).
Qed.

(** C7.  A poll whose result quotes numbers for both assets is saved, and
    each of its two samples is read back by every range query whose
    threshold is at or before the formatted time of capture: the result
    has a row with the asset of the sample, with its formatted time, and
    with its price, market cap and volume as numbers equal to those of the
    sample, identical to them but for a negative zero, which is read back
    as zero; a price above zero is read back as it is.  Every time that has
    the text of the row is the time of capture to the second. *)
Theorem save_round_trip (d : gmap string pyval) (w : world)
    (sb se s : PriceSample) (since : string) :
  asset sb = "bitcoin" → asset se = "ethereum" →
  quoted d sb → quoted d se →
  captured sb = clock w (clock_reads w) →
  captured se = clock w (clock_reads w) →
  s ∈ [sb; se] → numbers [price s; market_cap s; volume s] →
  text_le since (strftime (captured s)) →
  ∃ w' h,
    save_to_database (PyDict d) w = (Ok (), w') ∧
    h ∈ range_query (table w') since ∧
    h_cryptocurrency h = asset s ∧
    holds (h_price_usd h) (price s) ∧
    holds (h_market_cap_usd h) (market_cap s) ∧
    holds (h_volume_usd h) (volume s) ∧
    ((0 <? price s)%float = true → h_price_usd h = Some (price s)) ∧
    h_timestamp h = strftime (captured s) ∧
    (in_range (captured s) →
     ∀ t, in_range t → strftime t = h_timestamp h →
          to_second t = to_second (captured s)).
Proof.
  intros Hab Hae (qb & Hb & Hqb) (qe & He & Hqe) Hcb Hce Hs Hn Hle.
  rewrite Hab in Hb. rewrite Hae in He.
  destruct (save_cells d w qb qe _ _ _ _ _ _ _ _ _ _ _ _ Hb Hqb He Hqe
              eq_refl eq_refl eq_refl eq_refl eq_refl eq_refl)
    as (w' & Hsave & Htab & _).
  apply Forall_cons in Hn as [Hnp Hn]. apply Forall_cons in Hn as [Hnc Hn].
  apply Forall_cons in Hn as [Hnv _].
  exists w'.
  apply elem_of_cons in Hs as [-> | Hs];
    [| apply list_elem_of_singleton in Hs as ->].
  - eexists (select_hist _). split; [exact Hsave |].
    split; [apply range_query_elem; eexists; split; [| split; [| done]] |].
    + rewrite Htab, !elem_of_app. right. right. by left.
    + simpl. by rewrite <- Hcb.
    + simpl. split; [done |].
      split; [by apply real_cell_holds |]. split; [by apply real_cell_holds |].
      split; [by apply real_cell_holds |]. split; [apply real_cell_positive |].
      split; [by rewrite Hcb |]. intros Hr t Ht Heq.
      apply strftime_inj; [done | done |]. by rewrite Heq, Hcb.
  - eexists (select_hist _). split; [exact Hsave |].
    split; [apply range_query_elem; eexists; split; [| split; [| done]] |].
    + rewrite Htab, !elem_of_app. right. right. right. by left.
    + simpl. by rewrite <- Hce.
    + simpl. split; [done |].
      split; [by apply real_cell_holds |]. split; [by apply real_cell_holds |].
      split; [by apply real_cell_holds |]. split; [apply real_cell_positive |].
      split; [by rewrite Hce |]. intros Hr t Ht Heq.
      apply strftime_inj; [done | done |]. by rewrite Heq, Hce.
Qed.

(** The two samples of a poll at the first reading of the clock. *)
Definition sample_bitcoin : PriceSample :=
  {| asset := "bitcoin"; price := 67187; market_cap := 1320000000000;
     volume := 25000000000; captured := ticking 0 |}.

Definition sample_ethereum : PriceSample :=
  {| asset := "ethereum"; price := 3500.5; market_cap := 420000000000;
     volume := 12000000000; captured := ticking 0 |}.

Definition quotes_dict : gmap string pyval :=
  <["bitcoin" := quote_of 67187 1320000000000 25000000000]>
    (<["ethereum" := quote_of 3500.5 420000000000 12000000000]> ∅).

Lemma quote_of_with usd cap vol :
  quote_with (quote_of usd cap vol) (PyFloat usd) (PyFloat cap) (PyFloat vol).
Proof. eexists. split; [reflexivity |]. repeat split; vm_compute; reflexivity. Qed.

Lemma save_round_trip_witness :
  text_le "2024-01-01 00:00:00" (strftime (captured sample_ethereum)) ∧
  ∃ w' h,
    save_to_database (PyDict quotes_dict) (fresh unreachable) = (Ok (), w') ∧
    h ∈ range_query (table w') "2024-01-01 00:00:00" ∧
    h_cryptocurrency h = "ethereum" ∧
    holds (h_price_usd h) 3500.5 ∧
    holds (h_market_cap_usd h) 420000000000 ∧
    holds (h_volume_usd h) 12000000000 ∧
    ((0 <? 3500.5)%float = true → h_price_usd h = Some 3500.5%float) ∧
    h_timestamp h = "2024-01-01 00:00:00" ∧
    (in_range (ticking 0) →
     ∀ t, in_range t → strftime t = h_timestamp h →
          to_second t = to_second (ticking 0)).
Proof.
  split; [vm_compute; reflexivity |].
  apply (save_round_trip quotes_dict (fresh unreachable)
           sample_bitcoin sample_ethereum sample_ethereum "2024-01-01 00:00:00");
    try reflexivity.
  - eexists. split; [vm_compute; reflexivity | apply quote_of_with].
  - eexists. split; [vm_compute; reflexivity | apply quote_of_with].
  - right. by left.
  - repeat (apply Forall_cons; split; [reflexivity |]). apply Forall_nil_2.
Defined.

(** A market cap of negative zero is read back as zero, and a NaN as
    NULL. *)
Example scenario_negative_zero :
  sqlite_bind (PyFloat neg_zero) = Ok (Some 0%float) ∧
  sqlite_bind (PyFloat nan) = Ok None ∧
  sqlite_bind (PyInt (2 ^ 63)) = Raise OverflowError ∧
  sqlite_bind (PyInt (2 ^ 53 + 1)) = Ok (Some 9007199254740992%float).
Proof. repeat split; vm_compute; reflexivity. Qed.

(** ** The latest row of each asset (C2) *)

Lemma max_text_cases a b :
  (max_text a b = a ∨ max_text a b = b) ∧
  text_le a (max_text a b) ∧ text_le b (max_text a b).
Proof.
  unfold max_text. destruct (String.ltb a b) eqn:Hlt.
  - split; [by right |]. split; [| apply text_le_refl].
    apply text_ltb_not_le in Hlt. by destruct (text_le_total a b).
  - split; [by left |]. split; [apply text_le_refl |].
    destruct (text_le_total b a) as [| Hab]; [done |].
    destruct (decide (text_le b a)) as [| Hn]; [done |].
    apply text_ltb_not_le in Hn. congruence.
Qed.

Lemma foldl_max_text l : ∀ t,
  foldl max_text t l ∈ t :: l ∧ ∀ x, x ∈ t :: l → text_le x (foldl max_text t l).
Proof.
  induction l as [| y l IH]; intros t; simpl.
  - split; [by left |]. intros x ->%list_elem_of_singleton. apply text_le_refl.
  - destruct (max_text_cases t y) as (Hcase & Ht & Hy).
    destruct (IH (max_text t y)) as [Hin Hub]. split.
    + apply elem_of_cons in Hin as [-> | Hin].
      * destruct Hcase as [-> | ->]; [by left | right; by left].
      * right; by right.
    + intros x Hx.
      assert (text_le (max_text t y) (foldl max_text (max_text t y) l)) as Hm
        by (apply Hub; by left).
      apply elem_of_cons in Hx as [-> | Hx]; [by eapply text_le_trans |].
      apply elem_of_cons in Hx as [-> | Hx]; [by eapply text_le_trans |].
      apply Hub. by right.
Qed.

Lemma max_timestamp_spec l m :
  max_timestamp l = Some m ↔ m ∈ l ∧ ∀ x, x ∈ l → text_le x m.
Proof.
  destruct l as [| t l]; simpl.
  - split; [done | by intros [?%elem_of_nil _]].
  - destruct (foldl_max_text l t) as [Hin Hub]. split.
    + by intros [= <-].
    + intros [Hm Hle]. f_equal. apply text_le_antisym; [by apply Hle | by apply Hub].
Qed.

Lemma group_max_spec db c m :
  (c, m) ∈ group_max db ↔
  (∃ r, r ∈ db ∧ cryptocurrency r = c ∧ timestamp r = m) ∧
  ∀ r, r ∈ db → cryptocurrency r = c → text_le (timestamp r) m.
Proof.
  unfold group_max. rewrite list_elem_of_omap. split.
  - intros (c' & Hc' & Hm).
    destruct (max_timestamp _) as [m' |] eqn:Hmax; [| done].
    injection Hm as <- <-.
    apply max_timestamp_spec in Hmax as [Hin Hub]. split.
    + apply list_elem_of_fmap in Hin as (r & -> & [Hc Hr]%list_elem_of_filter).
      by exists r.
    + intros r Hr Hc. apply Hub, list_elem_of_fmap. exists r.
      split; [done |]. by apply list_elem_of_filter.
  - intros [(r & Hr & Hc & Hm) Hub]. exists c. split.
    + apply elem_of_remove_dups, list_elem_of_fmap. by exists r.
    + assert (max_timestamp
                (timestamp <$> filter (λ r, cryptocurrency r = c) db) = Some m)
        as ->; [| done].
      apply max_timestamp_spec. split.
      * apply list_elem_of_fmap. exists r. split; [done |].
        by apply list_elem_of_filter.
      * intros x Hx.
        apply list_elem_of_fmap in Hx as (r' & -> & [Hc' Hr']%list_elem_of_filter).
        by apply Hub.
Qed.

(** What [fetch_latest_prices] does guarantee: on the empty store it returns
    nothing; every row it returns is a stored row whose timestamp is at or
    after that of every stored row of the same asset; and every asset with
    a stored row has a row in the result. *)
Lemma fetch_latest_prices_latest db :
  fetch_latest_prices [] = [] ∧
  (∀ c p t, (c, p, t) ∈ fetch_latest_prices db →
     (∃ r, r ∈ db ∧ cryptocurrency r = c ∧ price_usd r = p ∧ timestamp r = t) ∧
     ∀ r, r ∈ db → cryptocurrency r = c → text_le (timestamp r) t) ∧
  (∀ r, r ∈ db → ∃ p t, (cryptocurrency r, p, t) ∈ fetch_latest_prices db).
Proof.
  split; [done |]. unfold fetch_latest_prices. split.
  - intros c p t Hin.
    apply list_elem_of_fmap in Hin as (r & [= -> -> ->] & [Hg Hr]%list_elem_of_filter).
    apply group_max_spec in Hg as [_ Hub]. split; [by exists r | done].
  - intros r Hr.
    destruct (max_timestamp
                (timestamp <$> filter (λ x, cryptocurrency x = cryptocurrency r) db))
      as [m |] eqn:Hmax.
    + apply max_timestamp_spec in Hmax as [Hin Hub].
      apply list_elem_of_fmap in Hin as (r' & -> & [Hc' Hr']%list_elem_of_filter).
      exists (price_usd r'), (timestamp r'). apply list_elem_of_fmap.
      exists r'. split; [by rewrite Hc' |].
      apply list_elem_of_filter. split; [| done].
      apply group_max_spec. split; [by exists r' |].
      intros x Hx Hcx. apply Hub, list_elem_of_fmap. exists x.
      split; [done |]. apply list_elem_of_filter. split; [congruence | done].
    + exfalso.
      destruct (filter (λ x, cryptocurrency x = cryptocurrency r) db)
        as [| x xs] eqn:Hf; [| by simpl in Hmax].
      by apply (filter_nil_not_elem_of _ _ r Hf).
Qed.

(** Two rows of one asset written within the same second. *)
Definition tied_store : list row :=
  [ {| rowid := 1; cryptocurrency := "bitcoin"; price_usd := Some 100%float;
       market_cap_usd := Some 1900000000000%float;
       volume_usd := Some 25000000000%float;
       timestamp := "2024-01-01 00:00:00" |};
    {| rowid := 2; cryptocurrency := "bitcoin"; price_usd := Some 101%float;
       market_cap_usd := Some 1900000000000%float;
       volume_usd := Some 25000000000%float;
       timestamp := "2024-01-01 00:00:00" |} ].

(** C2, where the code departs from the claim: with two rows of an asset
    that share the greatest timestamp, [fetch_latest_prices] returns both,
    two rows for one asset. *)
Theorem fetch_latest_prices_tie :
  fetch_latest_prices tied_store =
    [ ("bitcoin", Some 100%float, "2024-01-01 00:00:00");
      ("bitcoin", Some 101%float, "2024-01-01 00:00:00") ].
Proof. vm_compute. reflexivity. Qed.

(** A clock read twice within a second, and the poller run for two turns
    without a pause on an API that answers: the table then holds two rows
    of bitcoin with the same timestamp. *)
Definition within_a_second (n : nat) : datetime :=
  {| year := 2024; month := 1; day := 1; hour := 0; minute := 0; second := 0;
     microsecond := 100 * n |}.

Definition quick_world : world :=
  {| clock := within_a_second; network := answers 200 both_quotes;
     clock_reads := 0; requests_sent := 0; table := []; pending := [];
     connected := true; stdout := []; slept := [] |}.

Lemma tie_is_reachable :
  (run 0 2 quick_world).1 = Ok () ∧
  (λ r, (cryptocurrency r, timestamp r)) <$> table (run 0 2 quick_world).2 =
    [ ("bitcoin", "2024-01-01 00:00:00"); ("ethereum", "2024-01-01 00:00:00");
      ("bitcoin", "2024-01-01 00:00:00"); ("ethereum", "2024-01-01 00:00:00") ] ∧
  length (fetch_latest_prices (table (run 0 2 quick_world).2)) = 4.
Proof. repeat split; vm_compute; reflexivity. Qed.

(** ** The claims at concrete inputs *)

(** Bitcoin at $100 at T0 and at $110 one minute later. *)
Definition two_samples : list (string * cell) :=
  [ ("2024-01-01 00:00:00", Some 100%float);
    ("2024-01-01 00:01:00", Some 110%float) ].

Lemma two_samples_sorted : Sorted (by_timestamp fst) two_samples.
Proof. repeat constructor. Qed.

Lemma percent_change_first_last_witness :
  two_samples ≠ [] ∧ Sorted (by_timestamp fst) two_samples ∧
  percent_change two_samples = Ok 10%float.
Proof.
  split; [done |]. split; [exact two_samples_sorted |].
  destruct (percent_change_first_last two_samples) as (f & l & Hf & Hl & _ & _ & Hv);
    [done | exact two_samples_sorted |].
  injection Hf as <-. injection Hl as <-.
  exact (Hv 100%float 110%float eq_refl eq_refl eq_refl).
Defined.

(** The first price is zero. *)
Definition from_zero : list (string * cell) :=
  [ ("2024-01-01 00:00:00", Some 0%float);
    ("2024-01-01 00:01:00", Some 110%float) ].

Lemma percent_change_errors_witness :
  PrimFloat.is_zero 0 = true ∧
  percent_change from_zero = Raise ZeroDivisionError.
Proof.
  split; [reflexivity |].
  exact (proj1 percent_change_errors from_zero _ _ 0%float 110%float
           eq_refl eq_refl eq_refl eq_refl eq_refl).
Defined.

Lemma range_query_spec_witness :
  (∀ r, r ∈ tied_store → String.ltb (timestamp r) "2024-01-01 00:00:01" = true) ∧
  range_query tied_store "2024-01-01 00:00:01" = [] ∧
  length (range_query tied_store "2024-01-01 00:00:00") = 2.
Proof.
  assert (∀ r, r ∈ tied_store →
               String.ltb (timestamp r) "2024-01-01 00:00:01" = true) as Hall.
  { intros r Hr. unfold tied_store in Hr.
    apply elem_of_cons in Hr as [-> | Hr]; [reflexivity |].
    apply list_elem_of_singleton in Hr as ->. reflexivity. }
  split; [exact Hall |]. split; [| reflexivity].
  exact (proj2 (proj2 (proj2 (range_query_spec tied_store "2024-01-01 00:00:01")))
           Hall).
Defined.

(** The rows of the scenario as the historical query returns them. *)
Definition two_rows : list hist_row :=
  [ {| h_cryptocurrency := "bitcoin"; h_timestamp := "2024-01-01 00:00:00";
       h_price_usd := Some 100%float; h_market_cap_usd := Some 1900000000000%float;
       h_volume_usd := Some 20000000000%float |};
    {| h_cryptocurrency := "bitcoin"; h_timestamp := "2024-01-01 00:01:00";
       h_price_usd := Some 110%float; h_market_cap_usd := Some 2090000000000%float;
       h_volume_usd := Some 30000000000%float |} ].

(** Nine rows of bitcoin, a second apart: the first volume is 1e16, the
    others are 1. *)
Definition bitcoin_at (k : nat) (p v : float) : hist_row :=
  {| h_cryptocurrency := "bitcoin"; h_timestamp := strftime (ticking k);
     h_price_usd := Some p; h_market_cap_usd := Some 1900000000000%float;
     h_volume_usd := Some v |}.

Definition nine_rows : list hist_row :=
  [ bitcoin_at 0 100 1e16; bitcoin_at 1 101 1; bitcoin_at 2 102 1;
    bitcoin_at 3 103 1; bitcoin_at 4 104 1; bitcoin_at 5 105 1;
    bitcoin_at 6 106 1; bitcoin_at 7 107 1; bitcoin_at 8 110 1 ].

Lemma nine_rows_numbers : numbers (prices nine_rows) ∧ numbers (volumes nine_rows).
Proof.
  split; unfold numbers, prices, volumes; simpl;
    repeat (apply Forall_cons; split; [reflexivity |]); apply Forall_nil_2.
Qed.


(** The scenario of the specification: change 10, highest 110, lowest 100,
    current 110 (and the mean volume, 25 billion). *)
Example scenario_summary :
  percent_change (price_tuples two_rows) = Ok 10%float ∧
  summary_of two_rows =
    Ok [ {| Cryptocurrency := "Bitcoin"; Current_Price := 110;
            Price_Change := 10; Highest_Price := 110; Lowest_Price := 100;
            Average_Volume := 25000000000 |} ] ∧
  summary_of [] = Ok [].
Proof. repeat split; vm_compute; reflexivity. Qed.

(** On a first price of zero the summary of the dashboard does not fail as
    the price change of the history query does: in float64 arithmetic the
    division yields an infinity. *)
Definition zero_rows : list hist_row :=
  [ {| h_cryptocurrency := "bitcoin"; h_timestamp := "2024-01-01 00:00:00";
       h_price_usd := Some 0%float; h_market_cap_usd := Some 0%float;
       h_volume_usd := Some 20000000000%float |};
    {| h_cryptocurrency := "bitcoin"; h_timestamp := "2024-01-01 00:01:00";
       h_price_usd := Some 110%float; h_market_cap_usd := Some 2090000000000%float;
       h_volume_usd := Some 30000000000%float |} ].

Example scenario_zero_price :
  percent_change (price_tuples zero_rows) = Raise ZeroDivisionError ∧
  summary_of zero_rows =
    Ok [ {| Cryptocurrency := "Bitcoin"; Current_Price := 110;
            Price_Change := infinity; Highest_Price := 110;
            Lowest_Price := 0; Average_Volume := 25000000000 |} ].
Proof. split; vm_compute; reflexivity. Qed.

(** A frame without a price: the column holds [None] and the subtraction
    raises.  With one price in the frame the column is float64, and the
    asset without a price gets an entry of NaNs. *)
Definition null_rows : list hist_row :=
  [ {| h_cryptocurrency := "bitcoin"; h_timestamp := "2024-01-01 00:00:00";
       h_price_usd := None; h_market_cap_usd := Some 1900000000000%float;
       h_volume_usd := Some 20000000000%float |} ].

Definition ethereum_row : hist_row :=
  {| h_cryptocurrency := "ethereum"; h_timestamp := "2024-01-01 00:00:00";
     h_price_usd := Some 3500%float; h_market_cap_usd := Some 420000000000%float;
     h_volume_usd := Some 12000000000%float |}.

Example scenario_null_prices :
  summary_of null_rows = Raise TypeError ∧
  summary_of (null_rows ++ [ethereum_row]) =
    Ok [ {| Cryptocurrency := "Bitcoin"; Current_Price := nan;
            Price_Change := nan; Highest_Price := nan;
            Lowest_Price := nan; Average_Volume := 20000000000 |};
         {| Cryptocurrency := "Ethereum"; Current_Price := 3500;
            Price_Change := 0; Highest_Price := 3500;
            Lowest_Price := 3500; Average_Volume := 12000000000 |} ].
Proof. split; vm_compute; reflexivity. Qed.

(** * Further properties of the programs *)

(** ** Frames: what a computation leaves as it is *)

(** The clock itself is never changed and its readings are consumed in
    order. *)
Definition moves_on (w w' : world) : Prop :=
  clock w' = clock w ∧ clock_reads w ≤ clock_reads w'.

Global Instance same_store_refl : Reflexive same_store.
Proof. by intros w. Qed.

Global Instance same_store_trans : Transitive same_store.
Proof. intros w1 w2 w3 [H1 H2] [H3 H4]. split; congruence. Qed.

Global Instance moves_on_refl : Reflexive moves_on.
Proof. by intros w. Qed.

Global Instance moves_on_trans : Transitive moves_on.
Proof. intros w1 w2 w3 [H1 H2] [H3 H4]. split; [congruence | lia]. Qed.

(** Every outcome of [m], a return or a raise, is related by [R] to the
    world [m] started in. *)
Definition frames {A} (R : relation world) (m : M A) : Prop :=
  ∀ w r w', m w = (r, w') → R w w'.

Section Frames.

Context (R : relation world) `{!Reflexive R, !Transitive R}.

Lemma frames_ret {A} (a : A) : frames R (mret a).
Proof. by intros w r w' [= <- <-]. Qed.

Lemma frames_lift {A} (x : result A) : frames R (lift x).
Proof. by intros w r w' [= <- <-]. Qed.

Lemma frames_bind {A B} (m : M A) (k : A → M B) :
  frames R m → (∀ a, frames R (k a)) → frames R (m ≫= k).
Proof.
  intros Hm Hk w r w' [(a & w1 & H1 & H2) | (e & H1 & _)]%bind_inv.
  - transitivity w1; [by eapply Hm | by eapply Hk].
  - by eapply Hm.
Qed.

Lemma frames_for_each {A} (xs : list A) (body : A → M unit) :
  (∀ x, frames R (body x)) → frames R (for_each xs body).
Proof.
  intros Hb. induction xs as [| x xs IH]; simpl.
  - apply frames_ret.
  - apply frames_bind; [apply Hb | by intros _].
Qed.

Lemma frames_try_except {A} (body : M A) (handler : exn → option (M A)) :
  frames R body → (∀ e h, handler e = Some h → frames R h) →
  frames R (try_except body handler).
Proof.
  intros Hb Hh w r w'. unfold try_except.
  destruct (body w) as [[a | e] w1] eqn:H1.
  - intros [= <- <-]. by eapply Hb.
  - destruct (handler e) as [h |] eqn:He.
    + intros H2. transitivity w1; [by eapply Hb | by eapply Hh].
    + intros [= <- <-]. by eapply Hb.
Qed.

Lemma frames_if {A} (b : bool) (m1 m2 : M A) :
  frames R m1 → frames R m2 → frames R (if b then m1 else m2).
Proof. by destruct b. Qed.

End Frames.

Lemma print_same_store l : frames same_store (print l).
Proof. by intros w r w' [= <- <-]. Qed.

Lemma print_moves_on l : frames moves_on (print l).
Proof. by intros w r w' [= <- <-]. Qed.

Lemma now_same_store : frames same_store datetime_now.
Proof. by intros w r w' [= <- <-]. Qed.

Lemma now_moves_on : frames moves_on datetime_now.
Proof. intros w r w' [= <- <-]. split; [done | simpl; lia]. Qed.

Lemma sleep_same_store n : frames same_store (time_sleep n).
Proof. by intros w r w' [= <- <-]. Qed.

Lemma sleep_moves_on n : frames moves_on (time_sleep n).
Proof. by intros w r w' [= <- <-]. Qed.

Lemma visible_same_store : frames same_store visible.
Proof. by intros w r w' [= <- <-]. Qed.

Lemma visible_moves_on : frames moves_on visible.
Proof. by intros w r w' [= <- <-]. Qed.

Lemma committed_same_store : frames same_store committed.
Proof. by intros w r w' [= <- <-]. Qed.

Lemma requests_get_same_store : frames same_store requests_get.
Proof.
  intros w r w'. unfold requests_get.
  destruct (network w (requests_sent w)); by intros [= <- <-].
Qed.

Lemma requests_get_moves_on : frames moves_on requests_get.
Proof.
  intros w r w'. unfold requests_get.
  destruct (network w (requests_sent w)); by intros [= <- <-].
Qed.

Lemma execute_insert_moves_on c usd cap vol ts :
  frames moves_on (execute_insert c usd cap vol ts).
Proof.
  intros w r w'. unfold execute_insert.
  destruct (bind_quote _ _ _) as [[[p c'] v] | e]; by intros [= <- <-].
Qed.

Lemma commit_moves_on : frames moves_on commit.
Proof. by intros w r w' [= <- <-]. Qed.

Create HintDb frames discriminated.

#[export] Hint Resolve frames_ret frames_lift frames_for_each frames_if
  print_same_store print_moves_on now_same_store now_moves_on
  sleep_same_store sleep_moves_on visible_same_store visible_moves_on
  committed_same_store requests_get_same_store requests_get_moves_on
  execute_insert_moves_on commit_moves_on
  same_store_refl same_store_trans moves_on_refl moves_on_trans : frames.

Ltac frame :=
  repeat first
    [ apply frames_bind; try apply _; [| intros ?]
    | apply frames_for_each; try apply _; intros ?
    | apply frames_if
    | progress eauto with frames typeclass_instances
    | match goal with |- frames _ (match ?x with _ => _ end) => destruct x end
    | match goal with |- frames _ (let '(_, _) := ?x in _) => destruct x end ].

Lemma fetch_moves_on : frames moves_on fetch_crypto_data.
Proof.
  unfold fetch_crypto_data. apply frames_try_except; [apply _ | frame |].
  intros e h He. destruct e as [| | | | | | re]; try discriminate He.
  assert (h = (print [Lit "Error fetching data: "; ExnText re];; mret PyNone))
    as -> by congruence.
  frame.
Qed.

Lemma display_current_same_store v : frames same_store (display_current_prices v).
Proof. unfold display_current_prices. frame. Qed.

Lemma display_current_moves_on v : frames moves_on (display_current_prices v).
Proof. unfold display_current_prices. frame. Qed.

Lemma display_latest_same_store : frames same_store display_latest_stored_data.
Proof. unfold display_latest_stored_data. frame. Qed.

Lemma display_latest_moves_on : frames moves_on display_latest_stored_data.
Proof. unfold display_latest_stored_data. frame. Qed.

Lemma save_moves_on v : frames moves_on (save_to_database v).
Proof. unfold save_to_database, save_row. frame. Qed.

(** ** Fetching: every outcome *)

Lemma fetch_cases w :
  ∃ v w', fetch_crypto_data w = (Ok v, w') ∧
    requests_sent w' = S (requests_sent w) ∧ same_store w w' ∧
    clock w' = clock w ∧ clock_reads w' = clock_reads w ∧
    ((∃ e, v = PyNone ∧ stdout w' = stdout w ++ [error_line e]) ∨
     (∃ r, network w (requests_sent w) = GetResponse r ∧
           ¬ (400 ≤ status_code r < 600) ∧ body r = Some v ∧
           stdout w' = stdout w)).
Proof.
  unfold fetch_crypto_data, try_except, mbind, M_bind, requests_get, lift.
  destruct (network w (requests_sent w)) as [e | r] eqn:Hn; simpl.
  - eexists _, _. split; [done |]. repeat split. left. by exists e.
  - unfold raise_for_status. case_bool_decide as Hs; simpl.
    + eexists _, _. split; [done |]. repeat split. left. by eexists.
    + unfold json. destruct (body r) as [v |] eqn:Hb; simpl.
      * eexists _, _. split; [done |]. repeat split. right. by exists r.
      * eexists _, _. split; [done |]. repeat split. left. by eexists.
Qed.

(** X1.  [fetch_crypto_data] never raises and sends exactly one request.
    It leaves the store alone and does not read the clock.  Either it
    returns [None] and has printed one error line, or the request was
    answered with a status outside 400-599 and a JSON body, which is the
    value returned, and nothing was printed. *)
Theorem fetch_never_raises (w : world) :
  ∃ v w', fetch_crypto_data w = (Ok v, w') ∧
    requests_sent w' = S (requests_sent w) ∧ same_store w w' ∧
    clock_reads w' = clock_reads w ∧
    ((∃ e, v = PyNone ∧ stdout w' = stdout w ++ [error_line e]) ∨
     (∃ r, network w (requests_sent w) = GetResponse r ∧
           ¬ (400 ≤ status_code r < 600) ∧ body r = Some v ∧
           stdout w' = stdout w)).
Proof.
  destruct (fetch_cases w) as (v & w' & H & Hr & Hs & _ & Hc & Hd).
  by exists v, w'.
Qed.

(** ** Persisting: the rows written *)

(** The row [save_to_database] writes for a quote of three [float]s. *)
Definition quote_row (n : nat) (crypto : string) (usd cap vol : float)
    (ts : string) : row :=
  {| rowid := n; cryptocurrency := crypto; price_usd := real_cell usd;
     market_cap_usd := real_cell cap; volume_usd := real_cell vol;
     timestamp := ts |}.

Lemma bind_quote_ok u c v cu cc cv :
  bind_quote u c v = Ok (cu, cc, cv) →
  sqlite_bind u = Ok cu ∧ sqlite_bind c = Ok cc ∧ sqlite_bind v = Ok cv.
Proof.
  unfold bind_quote.
  destruct (sqlite_bind u) as [x |]; [| done].
  destruct (sqlite_bind c) as [y |]; [| done].
  destruct (sqlite_bind v) as [z |]; [| done].
  by intros [= <- <- <-].
Qed.

Lemma save_row_refused d ts crypto q u c v e w :
  d !! crypto = Some q → quote_with q u c v → bind_quote u c v = Raise e →
  save_row (PyDict d) ts crypto w = (Raise e, w).
Proof.
  intros Hd (m & -> & Hu & Hc & Hv) Hbind.
  unfold save_row, mbind, M_bind, lift, execute_insert, bind_quote. simpl.
  rewrite Hd. simpl. rewrite Hu, Hc, Hv. simpl.
  unfold bind_quote in Hbind. by destruct (_ ≫= _) as [[[? ?] ?] |]; [| injection Hbind as ->].
Qed.

Lemma save_ok_rows crypto_data w w' :
  truthy crypto_data = true →
  save_to_database crypto_data w = (Ok (), w') →
  ∃ r1 r2,
    table w' = table w ++ pending w ++ [r1; r2] ∧ pending w' = [] ∧
    cryptocurrency r1 = "bitcoin" ∧ cryptocurrency r2 = "ethereum" ∧
    timestamp r1 = strftime (clock w (clock_reads w)) ∧
    timestamp r2 = strftime (clock w (clock_reads w)) ∧
    clock_reads w' = S (clock_reads w).
Proof.
  intros Ht Hs. rewrite (save_truthy _ _ Ht) in Hs.
  apply bind_inv in Hs as [(u & w4 & Hloop & Hcommit) | (e & _ & [=])].
  simpl in Hloop.
  apply bind_inv in Hloop as [(u1 & w2 & Hb & Hrest) | (e & _ & [=])].
  apply bind_inv in Hrest as [(u2 & w3 & He & Hnil) | (e & _ & [=])].
  injection Hnil as _ <-.
  apply save_row_inv in Hb as [(_ & _ & r1 & -> & Hc1 & Ht1) | (e & [=] & _)].
  apply save_row_inv in He as [(_ & _ & r2 & -> & Hc2 & Ht2) | (e & [=] & _)].
  injection Hcommit as <-.
  exists r1, r2. simpl. rewrite <- !app_assoc. by repeat split.
Qed.

(** X2.  On a result that holds a quote for bitcoin: when its three
    values and those of a quote for ethereum bind to cells,
    [save_to_database] returns and has committed, after the rows that were
    pending, the row of bitcoin and then the row of ethereum, each with the
    cells of its quote, both with the formatted reading of the clock, with
    fresh consecutive ids.  When a value of the quote for bitcoin is
    refused, an [int] outside 64 bits or a list, the call raises the
    exception of the refusal and nothing is written. *)
Theorem save_quotes (d : gmap string pyval) (w : world)
    (qb ub cb vb : pyval) :
  d !! "bitcoin" = Some qb → quote_with qb ub cb vb →
  (∀ qe ue ce ve cub ccb cvb cue cce cve,
     d !! "ethereum" = Some qe → quote_with qe ue ce ve →
     bind_quote ub cb vb = Ok (cub, ccb, cvb) →
     bind_quote ue ce ve = Ok (cue, cce, cve) →
     ∃ w', save_to_database (PyDict d) w = (Ok (), w') ∧
       table w' = table w ++ pending w ++
         [ {| rowid := next_rowid (table w ++ pending w);
              cryptocurrency := "bitcoin"; price_usd := cub;
              market_cap_usd := ccb; volume_usd := cvb;
              timestamp := strftime (clock w (clock_reads w)) |};
           {| rowid := S (next_rowid (table w ++ pending w));
              cryptocurrency := "ethereum"; price_usd := cue;
              market_cap_usd := cce; volume_usd := cve;
              timestamp := strftime (clock w (clock_reads w)) |} ] ∧
       pending w' = []) ∧
  (∀ e, bind_quote ub cb vb = Raise e →
     ∃ w', save_to_database (PyDict d) w = (Raise e, w') ∧
       table w' = table w ∧ pending w' = pending w).
Proof.
  intros Hb Hqb. split.
  - intros qe ue ce ve cub ccb cvb cue cce cve He Hqe Hbb Hbe.
    apply bind_quote_ok in Hbb as (? & ? & ?).
    apply bind_quote_ok in Hbe as (? & ? & ?).
    destruct (save_cells d w qb qe ub cb vb ue ce ve cub ccb cvb cue cce cve)
      as (w' & Hs & Ht & Hp & _); try done.
    by exists w'.
  - intros e Hbind.
    rewrite (save_truthy _ _ (dict_truthy d _ _ Hb)).
    eexists. split.
    + apply bind_raise. simpl. apply bind_raise.
      by eapply save_row_refused.
    + done.
Qed.

Lemma save_quotes_witness :
  ∃ w', save_to_database (PyDict quotes_dict) (fresh unreachable) = (Ok (), w') ∧
    table w' =
      [] ++ [] ++
      [quote_row 1 "bitcoin" 67187 1320000000000 25000000000 "2024-01-01 00:00:00";
       quote_row 2 "ethereum" 3500.5 420000000000 12000000000 "2024-01-01 00:00:00"] ∧
    pending w' = [].
Proof.
  apply (proj1 (save_quotes quotes_dict (fresh unreachable)
                  (quote_of 67187 1320000000000 25000000000) _ _ _
                  eq_refl (quote_of_with _ _ _))
           (quote_of 3500.5 420000000000 12000000000) _ _ _ _ _ _ _ _ _
           eq_refl (quote_of_with _ _ _) eq_refl eq_refl).
Defined.

(** A price that is an integer of more than 64 bits is refused, and so is
    a list. *)
Example scenario_refused :
  bind_quote (PyInt (2 ^ 63)) (PyFloat 1) (PyFloat 1) = Raise OverflowError ∧
  bind_quote (PyInt 67187) (PyFloat neg_zero) (PyFloat nan) =
    Ok (Some 67187%float, Some 0%float, None) ∧
  bind_quote (PyList []) (PyInt (2 ^ 63)) (PyFloat 1) = Raise InterfaceError.
Proof. repeat split; vm_compute; reflexivity. Qed.

(** ** The poller: what a run does to the table *)

(** Complete polls: each a row of bitcoin followed by a row of ethereum,
    both stamped with the reading number [k] of the clock, the readings
    taken in order from number [n] on and before number [m]. *)
Inductive polls (clk : nat → datetime) : nat → list row → nat → Prop :=
| polls_nil n m : n ≤ m → polls clk n [] m
| polls_cons n k m r1 r2 l :
    n ≤ k →
    cryptocurrency r1 = "bitcoin" → cryptocurrency r2 = "ethereum" →
    timestamp r1 = strftime (clk k) → timestamp r2 = strftime (clk k) →
    polls clk (S k) l m →
    polls clk n (r1 :: r2 :: l) m.

Lemma polls_le clk n l m : polls clk n l m → n ≤ m.
Proof.
  induction 1 as [n m Hnm | n k m r1 r2 l Hk ? ? ? ? Hl IH]; [done |].
  etransitivity; [exact Hk |]. etransitivity; [| exact IH]. apply Nat.le_succ_diag_r.
Qed.

Lemma polls_weaken clk n n' l m m' :
  polls clk n l m → n' ≤ n → m ≤ m' → polls clk n' l m'.
Proof.
  intros H. revert n'. induction H as [n m Hnm | n k m r1 r2 l Hk ? ? ? ? Hl IH];
    intros n' Hn Hm.
  - constructor. lia.
  - apply (polls_cons clk n' k m' r1 r2 l); try done; [lia | apply IH; lia].
Qed.

Lemma polls_app clk n l1 k l2 m :
  polls clk n l1 k → polls clk k l2 m → polls clk n (l1 ++ l2) m.
Proof.
  induction 1 as [n k Hnk | n j k r1 r2 l Hj ? ? ? ? Hl IH]; intros Hl2; simpl.
  - eapply polls_weaken; [done | done | done].
  - apply (polls_cons clk n j m r1 r2 (l ++ l2)); try done. by apply IH.
Qed.

(** What one turn of the loop does, started with nothing pending. *)
Lemma run_iteration_polls interval w r w' :
  pending w = [] →
  run_iteration interval w = (r, w') →
  ∃ l, table w' = table w ++ l ∧
       polls (clock w) (clock_reads w) l (clock_reads w') ∧
       clock w' = clock w ∧
       (r = Ok () → pending w' = []).
Proof.
  intros Hp Hrun. unfold run_iteration in Hrun.
  destruct (fetch_cases w) as (v & w1 & Hf & _ & [Ht1 Hp1] & Hc1 & Hr1 & _).
  rewrite (bind_ok _ _ _ _ _ Hf) in Hrun.
  destruct (truthy v) eqn:Hv.
  - apply bind_inv in Hrun as [(u & w5 & Hbody & Hsleep) | (e & Hbody & Hr)].
    + injection Hsleep as <- <-.
      apply bind_inv in Hbody as [(u2 & w2 & Hsave & Hdisp) | (e & _ & [=])].
      destruct u2.
      destruct (save_ok_rows v w1 w2 Hv Hsave)
        as (r1 & r2 & Ht2 & Hp2 & Hb & He & Hs1 & Hs2 & Hr2).
      assert (same_store w2 w5 ∧ moves_on w2 w5) as [[Ht5 Hp5] [Hc5 Hr5]].
      { split.
        - eapply (frames_bind same_store); [apply display_current_same_store | |
            exact Hdisp]. intros ?. apply display_latest_same_store.
        - eapply (frames_bind moves_on); [apply display_current_moves_on | |
            exact Hdisp]. intros ?. apply display_latest_moves_on. }
      destruct (save_moves_on v w1 _ w2 Hsave) as [Hc2 _].
      exists [r1; r2]. simpl.
      split; [rewrite Ht5, Ht2, Ht1, Hp1, Hp; by simpl |].
      split; [| split; [congruence | intros _; congruence]].
      rewrite <- Hc1, <- Hr1.
      apply (polls_cons _ _ (clock_reads w1) _ r1 r2 []); try done.
      constructor. lia.
    + apply bind_inv in Hbody as [(u2 & w2 & Hsave & Hdisp) | (e' & Hsave & _)].
      * destruct u2.
        destruct (save_ok_rows v w1 w2 Hv Hsave)
          as (r1 & r2 & Ht2 & Hp2 & Hb & He & Hs1 & Hs2 & Hr2).
        assert (same_store w2 w' ∧ moves_on w2 w') as [[Ht5 Hp5] [Hc5 Hr5]].
        { split.
          - eapply (frames_bind same_store); [apply display_current_same_store | |
              exact Hdisp]. intros ?. apply display_latest_same_store.
          - eapply (frames_bind moves_on); [apply display_current_moves_on | |
              exact Hdisp]. intros ?. apply display_latest_moves_on. }
        destruct (save_moves_on v w1 _ w2 Hsave) as [Hc2 _].
        exists [r1; r2].
        split; [rewrite Ht5, Ht2, Ht1, Hp1, Hp; by simpl |].
        split; [| split; [congruence | intros ?; congruence]].
        rewrite <- Hc1, <- Hr1.
        apply (polls_cons _ _ (clock_reads w1) _ r1 r2 []); try done.
        constructor. lia.
      * destruct (save_raise_state v w1 e' w' Hsave) as [Ht2 _].
        destruct (save_moves_on v w1 _ w' Hsave) as [Hc2 Hr2].
        exists []. rewrite app_nil_r.
        split; [congruence |].
        split; [| split; [congruence | intros ?; congruence]].
        constructor. lia.
  - simpl in Hrun. injection Hrun as <- <-. exists []. rewrite app_nil_r. simpl.
    split; [done |]. split; [constructor; lia |]. split; [done |]. congruence.
Qed.

Lemma run_loop_polls interval cycles : ∀ w r w',
  pending w = [] →
  run_loop cycles interval w = (r, w') →
  ∃ l, table w' = table w ++ l ∧
       polls (clock w) (clock_reads w) l (clock_reads w') ∧
       clock w' = clock w.
Proof.
  induction cycles as [| n IH]; intros w r w' Hp Hrun; simpl in Hrun.
  - injection Hrun as <- <-. exists []. rewrite app_nil_r.
    split; [done |]. split; [by constructor | done].
  - apply bind_inv in Hrun as [([] & w1 & Hit & Hrest) | (e & Hit & _)].
    + destruct (run_iteration_polls _ _ _ _ Hp Hit) as (l1 & Ht1 & Hl1 & Hc1 & Hp1).
      destruct (IH w1 r w' (Hp1 eq_refl) Hrest) as (l2 & Ht2 & Hl2 & Hc2).
      exists (l1 ++ l2). split; [by rewrite Ht2, Ht1, app_assoc |].
      split; [| congruence]. rewrite Hc1 in Hl2. by eapply polls_app.
    + destruct (run_iteration_polls _ _ _ _ Hp Hit) as (l1 & Ht1 & Hl1 & Hc1 & _).
      by exists l1.
Qed.

(** The world in which the loop of [run] starts: the two lines of the
    banner are printed. *)
Definition banner (w : world) : world :=
  set_stdout
    ((stdout w ++ [[Lit "Starting cryptocurrency price tracker..."]])
       ++ [[Lit "Press Ctrl+C to stop"]])
    w.

Lemma run_table interval cycles w r w' :
  run interval cycles w = (r, w') →
  ∃ r0 w0, run_loop cycles interval (banner w) = (r0, w0) ∧
    table w' = table w0 ∧ clock_reads w' = clock_reads w0 ∧
    pending w' = [] ∧ connected w' = false.
Proof.
  intros Hrun. unfold run in Hrun.
  set (wA := set_stdout
               (stdout w ++ [[Lit "Starting cryptocurrency price tracker..."]]) w).
  rewrite (bind_ok (print _) _ w () wA eq_refl) in Hrun.
  rewrite (bind_ok (print _) _ wA () (banner w) eq_refl) in Hrun.
  unfold try_finally in Hrun.
  destruct ((run_loop cycles interval ;; print _) (banner w)) as [r1 w1] eqn:Hbody.
  simpl in Hrun. injection Hrun as <- <-. simpl.
  apply bind_inv in Hbody as [([] & w0 & Hloop & Hpr) | (e & Hloop & _)].
  - injection Hpr as <- <-. by exists (Ok ()), w0.
  - by exists (Raise e), w1.
Qed.

(** X3.  A run of the tracker that starts with nothing pending only ever
    appends to the table, and what it appends are complete polls: a row of
    bitcoin followed by a row of ethereum, both with the same formatted
    reading of the clock, the readings taken in order.  This holds however
    the run ends, by the interrupt or by an exception: a poll that fails
    half way leaves no row in the table, nothing is pending afterwards and
    the connection is closed. *)
Theorem run_appends_complete_polls (interval cycles : nat) (w w' : world)
    (r : result ()) :
  pending w = [] →
  run interval cycles w = (r, w') →
  ∃ l, table w' = table w ++ l ∧
       polls (clock w) (clock_reads w) l (clock_reads w') ∧
       pending w' = [] ∧ connected w' = false.
Proof.
  intros Hp Hrun.
  destruct (run_table _ _ _ _ _ Hrun) as (r0 & w0 & Hloop & Ht & Hr & Hp' & Hc).
  destruct (run_loop_polls _ _ (banner w) _ _ Hp Hloop) as (l & Htl & Hl & _).
  exists l. rewrite Ht, Hr. by repeat split.
Qed.

(** The API answers the first request with both quotes, the second with
    the quote of bitcoin alone, then fails. *)
Definition degrading : nat → get_outcome :=
  λ n, match n with
       | 0 => GetResponse {| status_code := 200; body := Some both_quotes |}
       | 1 => GetResponse {| status_code := 200; body := Some bitcoin_only |}
       | _ => GetRaises Timeout
       end.

Lemma run_appends_complete_polls_witness :
  pending (fresh degrading) = [] ∧
  (run 60 3 (fresh degrading)).1 = Raise (KeyError "ethereum") ∧
  ∃ l, table (run 60 3 (fresh degrading)).2 = table (fresh degrading) ++ l ∧
       polls ticking 0 l (clock_reads (run 60 3 (fresh degrading)).2) ∧
       pending (run 60 3 (fresh degrading)).2 = [] ∧
       connected (run 60 3 (fresh degrading)).2 = false.
Proof.
  split; [done |]. split; [vm_compute; reflexivity |].
  apply (run_appends_complete_polls 60 3 (fresh degrading) _
           (run 60 3 (fresh degrading)).1); [done |].
  by destruct (run 60 3 (fresh degrading)).
Defined.

(** ** The poller: the order of the table *)

Lemma polls_stamp clk n l m x :
  polls clk n l m → x ∈ l → ∃ k, n ≤ k ∧ timestamp x = strftime (clk k).
Proof.
  induction 1 as [n m Hnm | n k m r1 r2 l Hk ? ? H1 H2 Hl IH]; intros Hx.
  - by apply elem_of_nil in Hx.
  - apply elem_of_cons in Hx as [-> | Hx]; [by exists k |].
    apply elem_of_cons in Hx as [-> | Hx]; [by exists k |].
    destruct (IH Hx) as (k' & Hk' & Hs). exists k'. split; [lia | done].
Qed.

(** The readings of the clock never go back, and are well-formed times. *)
Definition steady (clk : nat → datetime) : Prop :=
  (∀ i j, i ≤ j → not_after (clk i) (clk j)) ∧ ∀ i, in_range (clk i).

Lemma steady_stamps clk i j :
  steady clk → i ≤ j → text_le (strftime (clk i)) (strftime (clk j)).
Proof. intros [Hm Hr] Hij. apply strftime_order; auto. Qed.

Lemma polls_sorted clk n l m :
  steady clk → polls clk n l m → StronglySorted (by_timestamp timestamp) l.
Proof.
  intros Hc. induction 1 as [n m Hnm | n k m r1 r2 l Hk ? ? H1 H2 Hl IH].
  - constructor.
  - assert (∀ x, x ∈ l → text_le (strftime (clk k)) (timestamp x)) as Hlater.
    { intros x Hx. destruct (polls_stamp _ _ _ _ _ Hl Hx) as (k' & Hk' & ->).
      apply steady_stamps; [done | lia]. }
    constructor; [constructor; [done |] |]; apply Forall_forall; intros x Hx;
      unfold by_timestamp.
    + rewrite H2. by apply Hlater.
    + rewrite H1. apply elem_of_cons in Hx as [-> | Hx];
        [rewrite H2; apply text_le_refl | by apply Hlater].
Qed.

(** X4.  When the readings of the clock never go back, a run of the
    tracker keeps the table in the order of its timestamps: started with
    nothing pending on a table that is in that order and holds no row later
    than the clock, it ends, however it ends, with the table in that
    order. *)
Theorem run_keeps_time_order (interval cycles : nat) (w w' : world)
    (r : result ()) :
  pending w = [] → steady (clock w) →
  Sorted (by_timestamp timestamp) (table w) →
  (∀ x, x ∈ table w →
        text_le (timestamp x) (strftime (clock w (clock_reads w)))) →
  run interval cycles w = (r, w') →
  Sorted (by_timestamp timestamp) (table w').
Proof.
  intros Hp Hc Hs Hold Hrun.
  destruct (run_table _ _ _ _ _ Hrun) as (r0 & w0 & Hloop & -> & _).
  destruct (run_loop_polls _ _ (banner w) _ _ Hp Hloop) as (l & -> & Hl & _).
  apply StronglySorted_Sorted, StronglySorted_app_2.
  - intros x1 x2 H1 H2. unfold by_timestamp.
    destruct (polls_stamp _ _ _ _ _ Hl H2) as (k & Hk & ->).
    eapply text_le_trans; [by apply Hold |]. by apply (steady_stamps (clock w)).
  - apply Sorted_StronglySorted; [apply _ | done].
  - by eapply (polls_sorted (clock w)).
Qed.

Lemma within_a_second_steady : steady within_a_second.
Proof.
  split.
  - intros i j _. by unfold not_after.
  - intros i. unfold in_range. simpl. lia.
Qed.

Lemma run_keeps_time_order_witness :
  pending quick_world = [] ∧ steady (clock quick_world) ∧
  Sorted (by_timestamp timestamp) (table quick_world) ∧
  length (table (run 0 2 quick_world).2) = 4 ∧
  Sorted (by_timestamp timestamp) (table (run 0 2 quick_world).2).
Proof.
  split; [done |]. split; [exact within_a_second_steady |].
  split; [constructor |]. split; [vm_compute; reflexivity |].
  apply (run_keeps_time_order 0 2 quick_world _ (run 0 2 quick_world).1);
    [done | exact within_a_second_steady | constructor | | ].
  - intros x Hx. by apply elem_of_nil in Hx.
  - by destruct (run 0 2 quick_world).
Defined.

(** ** The latest stored row of an asset *)

Global Instance by_timestamp_flip_trans {A} (ts : A → string) :
  Transitive (flip (by_timestamp ts)).
Proof. intros x y z Hxy Hyz. by apply (text_le_trans _ (ts y)). Qed.

Global Instance by_timestamp_flip_total {A} (ts : A → string) :
  Total (flip (by_timestamp ts)).
Proof. intros x y. destruct (text_le_total (ts y) (ts x)); [by left | by right]. Qed.

Lemma order_by_desc_head {A} (ts : A → string) l x :
  head (order_by_desc ts l) = Some x →
  x ∈ l ∧ ∀ y, y ∈ l → text_le (ts y) (ts x).
Proof.
  intros Hh. apply head_Some in Hh as [l' Hl].
  assert (Sorted (flip (by_timestamp ts)) (x :: l')) as Hs.
  { rewrite <- Hl. apply stable_sort_sorted, _. }
  assert (order_by_desc ts l ≡ₚ l) as Hperm by apply stable_sort_perm.
  rewrite Hl in Hperm. split.
  - rewrite <- Hperm. by left.
  - intros y Hy. rewrite <- Hperm in Hy.
    apply Sorted_StronglySorted in Hs; [| apply _].
    apply StronglySorted_inv in Hs as [_ Hall].
    apply elem_of_cons in Hy as [-> | Hy]; [apply text_le_refl |].
    rewrite Forall_forall in Hall. by apply Hall.
Qed.

Lemma order_by_desc_nil {A} (ts : A → string) l :
  order_by_desc ts l = [] ↔ l = [].
Proof.
  split; [| by intros ->].
  intros Hn. apply Permutation_nil_r. rewrite <- Hn.
  symmetry. apply stable_sort_perm.
Qed.

Lemma head_fmap_eq {A B} (f : A → B) (l : list A) : head (f <$> l) = f <$> head l.
Proof. by destruct l. Qed.

Lemma latest_stored_some db crypto p t :
  latest_stored db crypto = Some (p, t) →
  (∃ r, r ∈ db ∧ cryptocurrency r = crypto ∧ price_usd r = p ∧ timestamp r = t) ∧
  ∀ r, r ∈ db → cryptocurrency r = crypto → text_le (timestamp r) t.
Proof.
  unfold latest_stored. rewrite head_fmap_eq.
  destruct (head (order_by_desc timestamp _)) as [x |] eqn:Hh; [| done].
  intros [= <- <-].
  apply order_by_desc_head in Hh as [[Hc Hx]%list_elem_of_filter Hmax].
  split; [by exists x |].
  intros r Hr Hcr. apply Hmax. by apply list_elem_of_filter.
Qed.

Lemma latest_stored_none db crypto :
  latest_stored db crypto = None ↔ ∀ r, r ∈ db → cryptocurrency r ≠ crypto.
Proof.
  unfold latest_stored. rewrite head_fmap_eq, fmap_None, head_None, order_by_desc_nil.
  split.
  - intros Hf r Hr Hc. by apply (filter_nil_not_elem_of _ _ r Hf).
  - intros Hall. induction db as [| r db IH]; [done |].
    rewrite filter_cons_False; [| apply Hall; by left].
    apply IH. intros r' Hr'. apply Hall. by right.
Qed.

(** X5.  The query of [display_latest_stored_data] returns nothing exactly
    when the store has no row of the asset; otherwise it returns the price
    and the timestamp of one stored row of the asset, and no row of the
    asset has a later timestamp. *)
Theorem latest_stored_spec (db : list row) (crypto : string) :
  (latest_stored db crypto = None ↔ ∀ r, r ∈ db → cryptocurrency r ≠ crypto) ∧
  (∀ p t, latest_stored db crypto = Some (p, t) →
     (∃ r, r ∈ db ∧ cryptocurrency r = crypto ∧ price_usd r = p ∧
           timestamp r = t) ∧
     ∀ r, r ∈ db → cryptocurrency r = crypto → text_le (timestamp r) t).
Proof.
  split; [apply latest_stored_none |]. intros p t. apply latest_stored_some.
Qed.

(** ** A poll, then the latest prices *)

Lemma filter_none {A} (P : A → Prop) `{!∀ x, Decision (P x)} (l : list A) :
  (∀ x, x ∈ l → ¬ P x) → filter P l = [].
Proof.
  induction l as [| x l IH]; intros Hall; [done |].
  rewrite filter_cons_False; [| apply Hall; by left].
  apply IH. intros y Hy. apply Hall. by right.
Qed.

Lemma text_ltb_le a b : String.ltb a b = true → text_le a b.
Proof.
  intros Hlt%text_ltb_not_le. by destruct (text_le_total a b).
Qed.

(** X6.  After a poll has been saved on a table that holds only rows of the
    two tracked assets with timestamps before the reading of the clock, the
    dashboard's latest prices are exactly two rows, the row of bitcoin and
    the row of ethereum that were just written, and the tracker's own
    latest-row query returns the same two rows. *)
Theorem poll_then_latest (v : pyval) (w w' : world) :
  truthy v = true → pending w = [] →
  (∀ r, r ∈ table w →
     cryptocurrency r ∈ tracked ∧
     String.ltb (timestamp r) (strftime (clock w (clock_reads w))) = true) →
  save_to_database v w = (Ok (), w') →
  ∃ r1 r2,
    table w' = table w ++ [r1; r2] ∧
    fetch_latest_prices (table w') =
      [ ("bitcoin", price_usd r1, strftime (clock w (clock_reads w)));
        ("ethereum", price_usd r2, strftime (clock w (clock_reads w))) ] ∧
    latest_stored (table w') "bitcoin" =
      Some (price_usd r1, strftime (clock w (clock_reads w))) ∧
    latest_stored (table w') "ethereum" =
      Some (price_usd r2, strftime (clock w (clock_reads w))).
Proof.
  intros Hv Hp Hold Hs.
  destruct (save_ok_rows v w w' Hv Hs)
    as (r1 & r2 & Ht & _ & Hc1 & Hc2 & Ht1 & Ht2 & _).
  rewrite Hp in Ht. simpl in Ht.
  set (ts := strftime (clock w (clock_reads w))) in *.
  exists r1, r2. split; [done |]. rewrite Ht.
  set (db := table w ++ [r1; r2]).
  assert (r1 ∈ db) as Hin1 by (apply elem_of_app; right; by left).
  assert (r2 ∈ db) as Hin2 by (apply elem_of_app; right; right; by left).
  assert (∀ r, r ∈ db → text_le (timestamp r) ts) as Hmax.
  { intros r [Hr | Hr]%elem_of_app.
    - by apply text_ltb_le, Hold.
    - apply elem_of_cons in Hr as [-> | Hr]; [rewrite Ht1; apply text_le_refl |].
      apply list_elem_of_singleton in Hr as ->. rewrite Ht2. apply text_le_refl. }
  assert (∀ r, r ∈ table w →
            ¬ (cryptocurrency r, timestamp r) ∈ group_max db) as Hnot.
  { intros r Hr [_ Hub]%group_max_spec.
    destruct (Hold r Hr) as [Htr Hlt]. apply text_ltb_not_le in Hlt. apply Hlt.
    unfold tracked in Htr. apply elem_of_cons in Htr as [Hb | Htr].
    - rewrite <- Ht1. by apply Hub; [| rewrite Hb].
    - apply list_elem_of_singleton in Htr.
      rewrite <- Ht2. by apply Hub; [| rewrite Htr]. }
  split; [| split].
  - unfold fetch_latest_prices.
    transitivity
      ((λ r, (cryptocurrency r, price_usd r, timestamp r)) <$>
         filter (λ r, (cryptocurrency r, timestamp r) ∈ group_max db)
           (table w ++ [r1; r2])); [done |].
    rewrite filter_app, (filter_none _ (table w)) by done. simpl.
    rewrite filter_cons_True, filter_cons_True, filter_nil.
    + simpl. by rewrite Hc1, Hc2, Ht1, Ht2.
    + apply group_max_spec. split; [by exists r2 |].
      intros r Hr _. rewrite Ht2. by apply Hmax.
    + apply group_max_spec. split; [by exists r1 |].
      intros r Hr _. rewrite Ht1. by apply Hmax.
  - destruct (latest_stored db "bitcoin") as [[p t] |] eqn:Hl.
    + apply latest_stored_some in Hl as [(r & Hr & Hc & <- & <-) Hub].
      apply elem_of_app in Hr as [Hr | Hr].
      * destruct (Hold r Hr) as [_ Hlt]. apply text_ltb_not_le in Hlt.
        exfalso. apply Hlt. rewrite <- Ht1. by apply Hub.
      * apply elem_of_cons in Hr as [-> | Hr]; [by rewrite Ht1 |].
        apply list_elem_of_singleton in Hr as ->. congruence.
    + exfalso. by apply (proj1 (latest_stored_none db "bitcoin") Hl r1).
  - destruct (latest_stored db "ethereum") as [[p t] |] eqn:Hl.
    + apply latest_stored_some in Hl as [(r & Hr & Hc & <- & <-) Hub].
      apply elem_of_app in Hr as [Hr | Hr].
      * destruct (Hold r Hr) as [_ Hlt]. apply text_ltb_not_le in Hlt.
        exfalso. apply Hlt. rewrite <- Ht2. by apply Hub.
      * apply elem_of_cons in Hr as [-> | Hr]; [congruence |].
        apply list_elem_of_singleton in Hr as ->. by rewrite Ht2.
    + exfalso. by apply (proj1 (latest_stored_none db "ethereum") Hl r2).
Qed.

(** A tracker that has run before: two older rows in the table, the clock
    at its sixth reading. *)
Definition later_world : world :=
  {| clock := ticking; network := unreachable; clock_reads := 5;
     requests_sent := 0; table := tied_store; pending := []; connected := true;
     stdout := []; slept := [] |}.

Lemma tied_store_older r :
  r ∈ tied_store →
  cryptocurrency r ∈ tracked ∧
  String.ltb (timestamp r) (strftime (ticking 5)) = true.
Proof.
  unfold tied_store. intros [-> | Hr]%elem_of_cons;
    [| apply list_elem_of_singleton in Hr as ->];
    (split; [by left | vm_compute; reflexivity]).
Qed.

Lemma poll_then_latest_witness :
  truthy both_quotes = true ∧ pending later_world = [] ∧
  ∃ r1 r2,
    table (save_to_database both_quotes later_world).2 = tied_store ++ [r1; r2] ∧
    fetch_latest_prices (table (save_to_database both_quotes later_world).2) =
      [ ("bitcoin", price_usd r1, strftime (ticking 5));
        ("ethereum", price_usd r2, strftime (ticking 5)) ] ∧
    latest_stored (table (save_to_database both_quotes later_world).2) "bitcoin" =
      Some (price_usd r1, strftime (ticking 5)) ∧
    latest_stored (table (save_to_database both_quotes later_world).2) "ethereum" =
      Some (price_usd r2, strftime (ticking 5)).
Proof.
  split; [vm_compute; reflexivity |]. split; [done |].
  apply (poll_then_latest both_quotes later_world).
  - vm_compute; reflexivity.
  - done.
  - exact tied_store_older.
  - vm_compute; reflexivity.
Defined.

(** ** The exceptions a computation can end in *)

Definition raises_in {A} (P : exn → Prop) (m : M A) : Prop :=
  ∀ w e w', m w = (Raise e, w') → P e.

Lemma raises_ret {A} P (a : A) : raises_in P (mret a).
Proof. by intros w e w' [=]. Qed.

Lemma raises_print P l : raises_in P (print l).
Proof. by intros w e w' [=]. Qed.

Lemma raises_now P : raises_in P datetime_now.
Proof. by intros w e w' [=]. Qed.

Lemma raises_committed P : raises_in P committed.
Proof. by intros w e w' [=]. Qed.

Lemma raises_lift {A} (P : exn → Prop) (x : result A) :
  (∀ e, x = Raise e → P e) → raises_in P (lift x).
Proof. intros Hx w e w' [= -> <-]. by apply Hx. Qed.

Lemma raises_bind {A B} P (m : M A) (k : A → M B) :
  raises_in P m → (∀ a, raises_in P (k a)) → raises_in P (m ≫= k).
Proof.
  intros Hm Hk w e w' [(a & w1 & H1 & H2) | (e' & H1 & [= <-])]%bind_inv.
  - by eapply Hk.
  - by eapply Hm.
Qed.

Lemma raises_for_each {A} P (xs : list A) (body : A → M unit) :
  (∀ x, x ∈ xs → raises_in P (body x)) → raises_in P (for_each xs body).
Proof.
  induction xs as [| x xs IH]; intros Hb; simpl.
  - apply raises_ret.
  - apply raises_bind; [apply Hb; by left |].
    intros _. apply IH. intros y Hy. apply Hb. by right.
Qed.

(** ** The history query of [query_data.py] *)

Lemma price_history_perm db crypto th :
  price_history db crypto th ≡ₚ
  (λ r, (timestamp r, price_usd r)) <$>
    filter (λ r, cryptocurrency r = crypto ∧ text_le th (timestamp r)) db.
Proof. unfold price_history. by rewrite order_by_asc_perm. Qed.

Lemma price_history_elem db crypto th t p :
  (t, p) ∈ price_history db crypto th ↔
  ∃ r, r ∈ db ∧ cryptocurrency r = crypto ∧ text_le th (timestamp r) ∧
       t = timestamp r ∧ p = price_usd r.
Proof.
  rewrite price_history_perm, list_elem_of_fmap. split.
  - intros (r & [= -> ->] & [[Hc Hle] Hr]%list_elem_of_filter). by exists r.
  - intros (r & Hr & Hc & Hle & -> & ->). exists r. split; [done |].
    by apply list_elem_of_filter.
Qed.

Lemma price_history_sorted db crypto th :
  Sorted (by_timestamp fst) (price_history db crypto th).
Proof.
  unfold price_history.
  eapply Sorted_fmap; [| apply (order_by_asc_sorted timestamp)].
  by intros x y Hxy.
Qed.

(** X7.  The query of [query_crypto_history] returns, for an asset and a
    threshold, the [(timestamp, price)] tuples of exactly the stored rows of
    that asset at or after the threshold, one per row, in ascending order of
    timestamp; it returns nothing exactly when no such row is stored. *)
Theorem price_history_spec (db : list row) (crypto th : string) :
  price_history db crypto th ≡ₚ
    (λ r, (timestamp r, price_usd r)) <$>
      filter (λ r, cryptocurrency r = crypto ∧ text_le th (timestamp r)) db ∧
  Sorted (by_timestamp fst) (price_history db crypto th) ∧
  (price_history db crypto th = [] ↔
   ∀ r, r ∈ db → cryptocurrency r = crypto → ¬ text_le th (timestamp r)).
Proof.
  split; [apply price_history_perm |]. split; [apply price_history_sorted |].
  split.
  - intros Hnil r Hr Hc Hle.
    assert ((timestamp r, price_usd r) ∈ price_history db crypto th) as Hin
      by (apply price_history_elem; by exists r).
    rewrite Hnil in Hin. by apply elem_of_nil in Hin.
  - intros Hall. destruct (price_history db crypto th) as [| [t p] l] eqn:Hph;
      [done | exfalso].
    assert ((t, p) ∈ price_history db crypto th) as Hin by (rewrite Hph; by left).
    apply price_history_elem in Hin as (r & Hr & Hc & Hle & _). by eapply Hall.
Qed.

(** A step that only prints: the store and the clock are as before. *)
Definition only_prints (w w' : world) : Prop :=
  same_store w w' ∧ clock w' = clock w ∧ clock_reads w' = clock_reads w.

Global Instance only_prints_refl : Reflexive only_prints.
Proof. by intros w. Qed.

Global Instance only_prints_trans : Transitive only_prints.
Proof.
  intros w1 w2 w3 (Hs1 & Hc1 & Hr1) (Hs2 & Hc2 & Hr2).
  split; [by transitivity w2 | split; congruence].
Qed.

Lemma print_only_prints l : frames only_prints (print l).
Proof. by intros w r w' [= <- <-]. Qed.

Lemma committed_only_prints : frames only_prints committed.
Proof. by intros w r w' [= <- <-]. Qed.

#[export] Hint Resolve print_only_prints committed_only_prints
  only_prints_refl only_prints_trans : frames.

(** The part of [query_crypto_history] for one asset. *)
Definition history_block (hours : nat) (time_threshold crypto : string) : M unit :=
  print [Lit (nl +:+ capitalize crypto +:+ " price history for the last ");
         Num hours; Lit " hours:"];;
  rows ← committed;
  let results := price_history rows crypto time_threshold in
  if bool_decide (results = []) then
    print [Lit "No data available for this time period"]
  else
    for_each results (λ '(timestamp, price),
      p ← lift (format_2f price);
      print [Lit (timestamp +:+ ": $"); p]);;
    price_change ← lift (percent_change results);
    print [Lit (nl +:+ "Price change: "); Plain2 price_change; Lit "%"].

Lemma query_crypto_history_blocks minus_hours hours w :
  query_crypto_history minus_hours hours w =
    for_each ["bitcoin"; "ethereum"]
      (history_block hours (strftime (minus_hours (clock w (clock_reads w)) hours)))
      (set_clock_reads (S (clock_reads w)) w).
Proof. done. Qed.

Lemma history_block_only_prints hours th crypto :
  frames only_prints (history_block hours th crypto).
Proof. unfold history_block. frame. Qed.

Lemma percent_change_raises results e :
  results ≠ [] → percent_change results = Raise e →
  e = TypeError ∨ e = ZeroDivisionError.
Proof.
  intros Hne. destruct results as [| first rest]; [done |].
  destruct (list.last (first :: rest)) as [last |] eqn:Hl;
    [| by apply last_None in Hl].
  rewrite (percent_change_eval _ first last) by done.
  destruct (last.2) as [pn |], (first.2) as [p0 |]; simpl;
    try (intros [= <-]; by left).
  unfold py_truediv. destruct (PrimFloat.is_zero p0); simpl; [| done].
  intros [= <-]. by right.
Qed.

Lemma history_block_raises hours th crypto :
  raises_in (λ e, e = TypeError ∨ e = ZeroDivisionError)
    (history_block hours th crypto).
Proof.
  unfold history_block.
  apply raises_bind; [apply raises_print | intros _].
  apply raises_bind; [apply raises_committed | intros rows].
  case_bool_decide as Hres; [apply raises_print |].
  apply raises_bind.
  - apply raises_for_each. intros [t p] _.
    apply raises_bind; [| intros ?; apply raises_print].
    apply raises_lift. intros e. destruct p; [done |]. intros [= <-]. by left.
  - intros _. apply raises_bind; [| intros ?; apply raises_print].
    apply raises_lift. intros e. by apply percent_change_raises.
Qed.

(** Every stored price is a number other than zero. *)
Definition priced (db : list row) : Prop :=
  ∀ r, r ∈ db → ∃ p, price_usd r = Some p ∧ PrimFloat.is_zero p = false.

Lemma print_rows_ok (results : list (string * cell)) : ∀ w,
  (∀ t p, (t, p) ∈ results → is_Some p) →
  ∃ w', for_each results (λ '(timestamp, price),
          p ← lift (format_2f price);
          print [Lit (timestamp +:+ ": $"); p]) w = (Ok (), w') ∧
        only_prints w w'.
Proof.
  induction results as [| [t p] results IH]; intros w Hall.
  - by exists w.
  - destruct (Hall t p) as [f ->]; [by left |].
    set (w1 := set_stdout (stdout w ++ [[Lit (t +:+ ": $"); Fixed2 f]]) w).
    destruct (IH w1) as (w' & Hrest & Hq).
    { intros t' p' Hin. apply (Hall t' p'). by right. }
    exists w'. split; [| by transitivity w1].
    rewrite <- Hrest. reflexivity.
Qed.

Lemma percent_change_priced db crypto th :
  priced db → price_history db crypto th ≠ [] →
  ∃ c, percent_change (price_history db crypto th) = Ok c.
Proof.
  intros Hpr Hne.
  destruct (price_history db crypto th) as [| [t0 c0] rest] eqn:Hph; [done |].
  destruct (list.last ((t0, c0) :: rest)) as [[tn cn] |] eqn:Hl;
    [| by apply last_None in Hl].
  assert (∀ t p, (t, p) ∈ price_history db crypto th →
            ∃ f, p = Some f ∧ PrimFloat.is_zero f = false) as Hall.
  { intros t p (r & Hr & _ & _ & _ & ->)%price_history_elem. by apply Hpr. }
  rewrite Hph in Hall.
  destruct (Hall t0 c0) as (p0 & -> & Hz); [by left |].
  destruct (Hall tn cn) as (pn & -> & _); [by apply last_Some_elem_of |].
  rewrite (percent_change_eval _ (t0, Some p0) (tn, Some pn)) by done.
  simpl. unfold py_truediv. rewrite Hz. by eexists.
Qed.

Lemma history_block_ok hours th crypto w :
  priced (table w) →
  ∃ w', history_block hours th crypto w = (Ok (), w') ∧ only_prints w w'.
Proof.
  intros Hpr.
  destruct (history_block hours th crypto w) as [[[] | e] w'] eqn:Hb.
  - exists w'. split; [done |]. by eapply history_block_only_prints.
  - exfalso. revert Hb. unfold history_block.
    set (w1 := set_stdout
                 (stdout w ++
                    [[Lit (nl +:+ capitalize crypto +:+ " price history for the last ");
                      Num hours; Lit " hours:"]]) w).
    rewrite (bind_ok (print _) _ w () w1 eq_refl).
    rewrite (bind_ok committed _ w1 (table w) w1 eq_refl).
    case_bool_decide as Hres; [done |].
    destruct (print_rows_ok (price_history (table w) crypto th) w1)
      as (w2 & Hrows & _).
    { intros t p (r & Hr & _ & _ & _ & ->)%price_history_elem.
      destruct (Hpr r Hr) as (f & -> & _). by eexists. }
    rewrite (bind_ok _ _ _ _ _ Hrows).
    destruct (percent_change_priced (table w) crypto th Hpr Hres) as [c Hc].
    change (table w1) with (table w). by rewrite Hc.
Qed.

(** X8.  [query_crypto_history] reads the clock once and writes nothing to
    the store, however it ends.  It never fails on an index: the only
    exceptions it can end in are [TypeError] (a NULL price) and
    [ZeroDivisionError] (a first price of zero).  When every stored price
    is a number other than zero it returns normally. *)
Theorem history_query_outcomes (minus_hours : datetime → nat → datetime)
    (hours : nat) (w : world) :
  same_store w (query_crypto_history minus_hours hours w).2 ∧
  clock_reads (query_crypto_history minus_hours hours w).2 = S (clock_reads w) ∧
  (∀ e, (query_crypto_history minus_hours hours w).1 = Raise e →
        e = TypeError ∨ e = ZeroDivisionError) ∧
  (priced (table w) → (query_crypto_history minus_hours hours w).1 = Ok ()).
Proof.
  rewrite query_crypto_history_blocks.
  set (th := strftime _). set (w1 := set_clock_reads _ w).
  destruct (for_each _ _ w1) as [r w'] eqn:Hq. simpl.
  assert (only_prints w1 w') as ([Ht Hp] & _ & Hr).
  { eapply (frames_for_each only_prints); [| exact Hq].
    intros c. apply history_block_only_prints. }
  split; [done |]. split; [done |]. split.
  - intros e ->.
    eapply (raises_for_each (λ e, e = TypeError ∨ e = ZeroDivisionError));
      [| exact Hq].
    intros c _. apply history_block_raises.
  - intros Hpr.
    destruct (history_block_ok hours th "bitcoin" w1 Hpr) as (w2 & Hb & [Ht2 _] & _).
    destruct (history_block_ok hours th "ethereum" w2) as (w3 & He & _);
      [by rewrite Ht2 |].
    simpl in Hq. rewrite (bind_ok _ _ _ _ _ Hb), (bind_ok _ _ _ _ _ He) in Hq.
    by injection Hq as <- _.
Qed.

(** ** The visualizer: the normalized comparison and the summary *)

(** One curve handed to [plt.plot]: its label, its abscissas (the
    timestamps) and its ordinates. *)
Record curve := {
  label : string;
  xs : list string;
  ys : list float
}.

(** [(crypto_data['price_usd'] / initial_price) * 100], with
    [initial_price = crypto_data['price_usd'].iloc[0]], on the prices of an
    asset in a float64 column: the division is that of float64 numbers. *)
Definition normalized_prices (price_usd : list float) : result (list float) :=
  initial_price ← py_index price_usd 0;
  Ok ((λ p, ((p / initial_price) * 100)%float) <$> price_usd).

(** The loop of [plot_price_comparison] over a fetched DataFrame [df] whose
    price column is a float64 column: the curves that are plotted, in
    order. *)
Fixpoint comparison_curves (cryptos : list string) (df : list hist_row)
  : result (list curve) :=
  match cryptos with
  | [] => Ok []
  | crypto :: rest =>
      let crypto_data := asset_rows df crypto in
      normalized ← normalized_prices (prices crypto_data);
      curves ← comparison_curves rest df;
      Ok ({| label := capitalize crypto;
             xs := h_timestamp <$> crypto_data;
             ys := normalized |} :: curves)
  end.

Lemma normalized_prices_cases crypto_data :
  (crypto_data = [] ∧ normalized_prices (prices crypto_data) = Raise IndexError) ∨
  (∃ r rows, crypto_data = r :: rows ∧
     normalized_prices (prices crypto_data) =
       Ok ((λ p, ((p / np_float (h_price_usd r)) * 100)%float)
             <$> prices crypto_data)).
Proof.
  destruct crypto_data as [| r rows]; [by left |]. right. exists r, rows.
  split; [done |]. unfold normalized_prices.
  by rewrite (py_index_first _ (np_float (h_price_usd r))) by done.
Qed.

(** X9.  [plot_price_comparison] does not check that an asset has rows.
    On a frame without a row of bitcoin the loop raises [IndexError] at
    once.  On a frame that holds a price, so that its price column is a
    float64 column: without a row of bitcoin or without a row of ethereum
    the loop raises [IndexError] and no figure results, while the summary
    of the same frame is computed; when both assets have rows the figure
    has two curves, "Bitcoin" and "Ethereum", each with one point per row
    of its asset, at the timestamp of the row, the price of the row
    divided by the first price of the asset and multiplied by 100. *)
Theorem comparison_needs_both_assets (df : list hist_row) :
  (asset_rows df "bitcoin" = [] →
   comparison_curves ["bitcoin"; "ethereum"] df = Raise IndexError) ∧
  (float64_prices df = true →
   asset_rows df "bitcoin" = [] ∨ asset_rows df "ethereum" = [] →
   comparison_curves ["bitcoin"; "ethereum"] df = Raise IndexError ∧
   ∃ l, summary_of df = Ok l) ∧
  (float64_prices df = true →
   ∀ b rb e re,
     asset_rows df "bitcoin" = b :: rb → asset_rows df "ethereum" = e :: re →
     comparison_curves ["bitcoin"; "ethereum"] df =
       Ok [ {| label := "Bitcoin"; xs := h_timestamp <$> b :: rb;
               ys := (λ p, ((p / np_float (h_price_usd b)) * 100)%float)
                       <$> prices (b :: rb) |};
            {| label := "Ethereum"; xs := h_timestamp <$> e :: re;
               ys := (λ p, ((p / np_float (h_price_usd e)) * 100)%float)
                       <$> prices (e :: re) |} ]).
Proof.
  split; [| split].
  - intros Hb. simpl. by rewrite Hb.
  - intros Hf Hmiss. split.
    + simpl.
      destruct (normalized_prices_cases (asset_rows df "bitcoin"))
        as [[_ ->] | (b & rb & Hb & ->)]; [done |].
      destruct Hmiss as [Hb' | He]; [congruence |].
      simpl. by rewrite He.
    + apply (proj1 (summary_of_outcome df)). by left.
  - intros Hf b rb e re Hb He. simpl.
    destruct (normalized_prices_cases (asset_rows df "bitcoin"))
      as [[Hb' _] | (b' & rb' & Hb' & ->)]; [congruence |].
    destruct (normalized_prices_cases (asset_rows df "ethereum"))
      as [[He' _] | (e' & re' & He' & ->)]; [congruence |].
    simpl. rewrite Hb, He in *. by injection Hb' as <- <-; injection He' as <- <-.
Qed.

Lemma comparison_needs_both_assets_witness :
  float64_prices two_rows = true ∧
  asset_rows two_rows "ethereum" = [] ∧
  comparison_curves ["bitcoin"; "ethereum"] two_rows = Raise IndexError ∧
  ∃ l, summary_of two_rows = Ok l.
Proof.
  split; [vm_compute; reflexivity |]. split; [vm_compute; reflexivity |].
  apply (proj1 (proj2 (comparison_needs_both_assets two_rows))).
  - vm_compute; reflexivity.
  - right. vm_compute; reflexivity.
Defined.

Lemma asset_stats_float64_total crypto rows :
  ∃ o, asset_stats true crypto rows = Ok o ∧ (o = None ↔ rows = []).
Proof.
  destruct rows as [| r rows]; [by exists None |].
  destruct (asset_stats_float64 crypto r rows) as (f & l & _ & _ & ->).
  eexists; split; [done |]. split; intros; done.
Qed.


(** ** The time window of the queries *)

(** Every timestamp of the store was written by the tracker: it is the
    formatted form of a well-formed time. *)
Definition stamped (db : list row) : Prop :=
  ∀ r, r ∈ db → ∃ d, in_range d ∧ timestamp r = strftime d.

(** X11.  The comparison [timestamp >= ?] of the queries, made by SQLite on
    the stored text, is the comparison of the times: on a store whose
    timestamps were written by the tracker, the range query for the
    formatted threshold [since] returns the rows captured not before
    [since], to the second, and only those. *)
Theorem range_query_window (db : list row) (since : datetime) :
  stamped db → in_range since →
  ∀ h, h ∈ range_query db (strftime since) ↔
       ∃ r d, r ∈ db ∧ h = select_hist r ∧
              in_range d ∧ timestamp r = strftime d ∧ not_after since d.
Proof.
  intros Hst Hsince h. rewrite range_query_elem. split.
  - intros (r & Hr & Hle & ->). destruct (Hst r Hr) as (d & Hd & Hts).
    exists r, d. split; [done |]. split; [done |]. split; [done |].
    split; [done |].
    apply (strftime_order since d Hsince Hd). by rewrite <- Hts.
  - intros (r & d & Hr & -> & Hd & Hts & Hna). exists r.
    split; [done |]. split; [| done].
    rewrite Hts. by apply (strftime_order since d Hsince Hd).
Qed.

Definition noon : datetime :=
  {| year := 2023; month := 12; day := 31; hour := 12; minute := 0;
     second := 0; microsecond := 0 |}.

Lemma tied_store_stamped : stamped tied_store.
Proof.
  intros r Hr. exists (ticking 0). split; [unfold in_range; simpl; lia |].
  unfold tied_store in Hr. apply elem_of_cons in Hr as [-> | Hr]; [done |].
  by apply list_elem_of_singleton in Hr as ->.
Qed.

Lemma range_query_window_witness :
  stamped tied_store ∧ in_range noon ∧
  ∀ h, h ∈ range_query tied_store (strftime noon) ↔
       ∃ r d, r ∈ tied_store ∧ h = select_hist r ∧
              in_range d ∧ timestamp r = strftime d ∧ not_after noon d.
Proof.
  split; [exact tied_store_stamped |].
  assert (in_range noon) as Hn by (unfold in_range; simpl; lia).
  split; [exact Hn |].
  exact (range_query_window tied_store noon tied_store_stamped Hn).
Defined.

(** X12.  The timestamp that the tracker writes has the precision of a
    second: two well-formed times are formatted to the same text exactly
    when they agree in every field but the microseconds. *)
Theorem timestamp_to_the_second (d1 d2 : datetime) :
  in_range d1 → in_range d2 →
  strftime d1 = strftime d2 ↔ to_second d1 = to_second d2.
Proof.
  intros H1 H2. split; [by apply strftime_inj |].
  intros Heq. by rewrite <- (strftime_to_second d1), Heq, strftime_to_second.
Qed.

Lemma timestamp_to_the_second_witness :
  in_range (within_a_second 0) ∧ in_range (within_a_second 7) ∧
  within_a_second 0 ≠ within_a_second 7 ∧
  (strftime (within_a_second 0) = strftime (within_a_second 7) ↔
   to_second (within_a_second 0) = to_second (within_a_second 7)).
Proof.
  assert (∀ n, in_range (within_a_second n)) as Hr
    by (intros n; unfold in_range; simpl; lia).
  split; [apply Hr |]. split; [apply Hr |]. split; [done |].
  exact (timestamp_to_the_second _ _ (Hr 0) (Hr 7)).
Defined.

(** ** A quote without a price *)

Lemma fetch_ok w r v :
  network w (requests_sent w) = GetResponse r →
  ¬ (400 ≤ status_code r < 600) → body r = Some v →
  fetch_crypto_data w = (Ok v, set_requests_sent (S (requests_sent w)) w).
Proof.
  intros Hn Hs Hb.
  unfold fetch_crypto_data, try_except, mbind, M_bind, requests_get, lift.
  rewrite Hn. simpl. unfold raise_for_status.
  rewrite bool_decide_eq_false_2 by done. simpl. unfold json. by rewrite Hb.
Qed.

(** The rows of a poll: that of bitcoin, then that of ethereum, with the
    cells of their quotes. *)
Definition poll_rows (n : nat) (ts : string) (bitcoin ethereum : cell * cell * cell)
  : list row :=
  [ {| rowid := n; cryptocurrency := "bitcoin"; price_usd := bitcoin.1.1;
       market_cap_usd := bitcoin.1.2; volume_usd := bitcoin.2; timestamp := ts |};
    {| rowid := S n; cryptocurrency := "ethereum"; price_usd := ethereum.1.1;
       market_cap_usd := ethereum.1.2; volume_usd := ethereum.2;
       timestamp := ts |} ].

Lemma unpriced_iteration interval w r d qb cap vol qe ue ce ve cb ce' :
  pending w = [] →
  network w (requests_sent w) = GetResponse r →
  ¬ (400 ≤ status_code r < 600) → body r = Some (PyDict d) →
  d !! "bitcoin" = Some qb → quote_with qb PyNone cap vol →
  d !! "ethereum" = Some qe → quote_with qe ue ce ve →
  bind_quote PyNone cap vol = Ok cb → bind_quote ue ce ve = Ok ce' →
  ∃ w', run_iteration interval w = (Raise TypeError, w') ∧
    table w' = table w ++
      poll_rows (next_rowid (table w)) (strftime (clock w (clock_reads w))) cb ce' ∧
    cb.1.1 = None ∧
    pending w' = [] ∧ slept w' = slept w ∧ connected w' = connected w ∧
    requests_sent w' = S (requests_sent w).
Proof.
  intros Hp Hn Hs Hbody Hb Hqb He Hqe Hbb Hbe.
  destruct cb as [[cub ccb] cvb]. destruct ce' as [[cue cce] cve].
  pose proof (dict_truthy d _ _ Hb) as Ht.
  assert (cub = None) as ->.
  { apply bind_quote_ok in Hbb as (Hu & _). by injection Hu as <-. }
  apply bind_quote_ok in Hbb as (Hbu & Hbc & Hbv).
  apply bind_quote_ok in Hbe as (Heu & Hec & Hev).
  unfold run_iteration.
  rewrite (bind_ok _ _ _ _ _ (fetch_ok w r _ Hn Hs Hbody)). rewrite Ht.
  set (w0 := set_requests_sent _ w).
  destruct (save_cells d w0 qb qe _ _ _ _ _ _ _ _ _ _ _ _ Hb Hqb He Hqe
              Hbu Hbc Hbv Heu Hec Hev)
    as (w4 & Hsave & Ht4 & Hp4 & _ & _ & _ & Hs4 & Hr4 & Hc4 & _).
  assert (∃ w5, display_current_prices (PyDict d) w4 = (Raise TypeError, w5) ∧
                same_store w4 w5 ∧ slept w5 = slept w4 ∧
                connected w5 = connected w4 ∧
                requests_sent w5 = requests_sent w4)
    as (w5 & Hdisp & [Ht5 Hp5] & Hs5 & Hc5 & Hr5).
  { destruct Hqb as (m & -> & Hu & _).
    unfold display_current_prices. rewrite Ht. simpl.
    unfold mbind, M_bind, datetime_now, print, lift. simpl.
    rewrite Hb. simpl. rewrite Hu. simpl. eexists. split; [reflexivity |].
    by repeat split. }
  exists w5.
  assert ((save_to_database (PyDict d);;
           display_current_prices (PyDict d);;
           display_latest_stored_data) w0 = (Raise TypeError, w5)) as Hbody'.
  { rewrite (bind_ok _ _ _ _ _ Hsave). by rewrite (bind_raise _ _ _ _ _ Hdisp). }
  rewrite (bind_raise _ _ _ _ _ Hbody'). split; [done |].
  rewrite Ht5, Hp5, Hs5, Hc5, Hr5, Ht4, Hp4, Hs4, Hr4, Hc4. simpl.
  rewrite Hp. simpl. rewrite !app_nil_r. by repeat split.
Qed.

(** X13.  A quote whose price is [null] stops the tracker after the rows
    were stored.  When the service answers the first request of a run with
    a bitcoin entry whose ["usd"] is [null], the other values of the two
    quotes being values that the store takes, the two rows of the poll are
    committed, the row of bitcoin with NULL as its price; formatting the
    price then raises [TypeError], which [run] does not handle: it leaves
    [run], the connection closed, without a pause and without another
    request. *)
Theorem null_price_stops_the_tracker (interval cycles : nat) (w : world)
    (r : response) (d : gmap string pyval) (qb cap vol qe ue ce ve : pyval)
    (bitcoin ethereum : cell * cell * cell) :
  pending w = [] →
  network w (requests_sent w) = GetResponse r →
  ¬ (400 ≤ status_code r < 600) → body r = Some (PyDict d) →
  d !! "bitcoin" = Some qb → quote_with qb PyNone cap vol →
  d !! "ethereum" = Some qe → quote_with qe ue ce ve →
  bind_quote PyNone cap vol = Ok bitcoin → bind_quote ue ce ve = Ok ethereum →
  ∃ w', run interval (S cycles) w = (Raise TypeError, w') ∧
    table w' = table w ++
      poll_rows (next_rowid (table w)) (strftime (clock w (clock_reads w)))
        bitcoin ethereum ∧
    bitcoin.1.1 = None ∧
    connected w' = false ∧ slept w' = slept w ∧
    requests_sent w' = S (requests_sent w).
Proof.
  intros Hp Hn Hs Hbody Hb Hqb He Hqe Hbb Hbe.
  unfold run.
  set (wA := set_stdout (stdout w ++ [[Lit "Starting cryptocurrency price tracker..."]]) w).
  set (wB := set_stdout (stdout wA ++ [[Lit "Press Ctrl+C to stop"]]) wA).
  rewrite (bind_ok (print _) _ w () wA eq_refl).
  rewrite (bind_ok (print _) _ wA () wB eq_refl).
  destruct (unpriced_iteration interval wB r d qb cap vol qe ue ce ve
              bitcoin ethereum)
    as (w' & Hit & Ht' & Hnull & Hp' & Hs' & Hc' & Hreq); try done.
  exists (set_connected false (set_pending [] w')).
  unfold try_finally.
  assert ((run_loop (S cycles) interval;;
           print [Lit (nl +:+ "Stopping price tracker...")]) wB
          = (Raise TypeError, w')) as Hloop.
  { apply bind_raise. simpl. by apply bind_raise. }
  rewrite Hloop. simpl. by rewrite Ht', Hs'.
Qed.

Definition unpriced_quote : gmap string pyval :=
  <["usd" := PyNone]>
    (<["usd_market_cap" := PyInt 1320000000000]>
    (<["usd_24h_vol" := PyFloat 25000000000]> ∅)).

Definition unpriced_bitcoin : gmap string pyval :=
  <["bitcoin" := PyDict unpriced_quote]>
    (<["ethereum" := quote_of 3500.5 420000000000 12000000000]> ∅).

Lemma null_price_stops_the_tracker_witness :
  ∃ w', run 60 3 (fresh (answers 200 (PyDict unpriced_bitcoin)))
          = (Raise TypeError, w') ∧
    table w' =
      [] ++
      poll_rows 1 "2024-01-01 00:00:00"
        (None, Some 1320000000000%float, Some 25000000000%float)
        (Some 3500.5%float, Some 420000000000%float, Some 12000000000%float) ∧
    (None : cell) = None ∧
    connected w' = false ∧ slept w' = [] ∧ requests_sent w' = 1.
Proof.
  apply (null_price_stops_the_tracker 60 2
           (fresh (answers 200 (PyDict unpriced_bitcoin)))
           {| status_code := 200; body := Some (PyDict unpriced_bitcoin) |}
           unpriced_bitcoin (PyDict unpriced_quote)
           (PyInt 1320000000000) (PyFloat 25000000000)
           (quote_of 3500.5 420000000000 12000000000)
           (PyFloat 3500.5) (PyFloat 420000000000) (PyFloat 12000000000));
    first [ apply quote_of_with | simpl; lia
          | eexists; split; [reflexivity |]; repeat split; vm_compute; reflexivity
          | vm_compute; reflexivity ].
Defined.

(** ** The latest prices when no two rows of an asset share a timestamp *)

Lemma NoDup_fmap_filter {A B C} (f : A → B) (g : A → C) (P : A → Prop)
    `{!∀ x, Decision (P x)} (l : list A) :
  NoDup (g <$> l) →
  (∀ x y, x ∈ l → y ∈ l → P x → P y → f x = f y → g x = g y) →
  NoDup (f <$> filter P l).
Proof.
  induction l as [| a l IH]; intros Hnd Hfg; [constructor |].
  rewrite fmap_cons in Hnd. apply NoDup_cons in Hnd as [Ha Hnd].
  assert (NoDup (f <$> filter P l)) as IH'.
  { apply IH; [done |]. intros x y Hx Hy. apply Hfg; by right. }
  rewrite filter_cons. destruct (decide (P a)) as [HPa |]; [| done].
  rewrite fmap_cons. apply NoDup_cons. split; [| done].
  intros (y & Hfy & [HPy Hy]%list_elem_of_filter)%list_elem_of_fmap.
  apply Ha, list_elem_of_fmap. exists y. split; [| done].
  apply Hfg; [by left | by right | done | done | done].
Qed.

(** The key under which the inner query of [fetch_latest_prices] selects. *)
Definition asset_and_time (r : row) : string * string :=
  (cryptocurrency r, timestamp r).

(** The assets of the rows [fetch_latest_prices] returns. *)
Definition latest_assets (db : list row) : list string :=
  (λ x, x.1.1) <$> fetch_latest_prices db.

(** X14.  On a store in which no two rows of an asset carry the same
    timestamp, [fetch_latest_prices] returns one row for each stored asset
    and no other: no asset appears twice, the assets returned are the
    assets stored, and the rows returned are exactly the stored rows whose
    timestamp is at or after that of every stored row of their asset. *)
Theorem fetch_latest_prices_one_per_asset (db : list row) :
  NoDup (asset_and_time <$> db) →
  NoDup (latest_assets db) ∧
  (∀ c, c ∈ latest_assets db ↔ c ∈ cryptocurrency <$> db) ∧
  (∀ c p t, (c, p, t) ∈ fetch_latest_prices db ↔
     ∃ r, r ∈ db ∧ cryptocurrency r = c ∧ price_usd r = p ∧ timestamp r = t ∧
          ∀ r', r' ∈ db → cryptocurrency r' = c → text_le (timestamp r') t).
Proof.
  intros Hnd.
  assert (∀ c p t, (c, p, t) ∈ fetch_latest_prices db ↔
     ∃ r, r ∈ db ∧ cryptocurrency r = c ∧ price_usd r = p ∧ timestamp r = t ∧
          ∀ r', r' ∈ db → cryptocurrency r' = c → text_le (timestamp r') t)
    as Hchar.
  { intros c p t. unfold fetch_latest_prices. rewrite list_elem_of_fmap. split.
    - intros (r & [= -> -> ->] & [Hg Hr]%list_elem_of_filter).
      apply group_max_spec in Hg as [_ Hub]. by exists r.
    - intros (r & Hr & <- & <- & <- & Hub). exists r. split; [done |].
      apply list_elem_of_filter. split; [| done].
      apply group_max_spec. split; [by exists r | done]. }
  split; [| split; [| exact Hchar]].
  - unfold latest_assets, fetch_latest_prices. rewrite <- list_fmap_compose.
    apply (NoDup_fmap_filter _ asset_and_time); [done |].
    intros x y Hx Hy [_ Hubx]%group_max_spec [_ Huby]%group_max_spec Hc.
    simpl in Hc. unfold asset_and_time. f_equal; [done |].
    apply text_le_antisym; [by apply Huby | by apply Hubx].
  - intros c. unfold latest_assets. rewrite !list_elem_of_fmap. split.
    + intros ([[c' p] t] & -> & Hin). simpl.
      apply Hchar in Hin as (r & Hr & Hc & _). by exists r.
    + intros (r & -> & Hr).
      destruct (max_timestamp
                  (timestamp <$> filter (λ x, cryptocurrency x = cryptocurrency r) db))
        as [m |] eqn:Hmax.
      * apply max_timestamp_spec in Hmax as [Hin Hub].
        apply list_elem_of_fmap in Hin as (r' & -> & [Hc' Hr']%list_elem_of_filter).
        exists (cryptocurrency r, price_usd r', timestamp r'). split; [done |].
        apply Hchar. exists r'. repeat split; try done.
        intros x Hx Hcx. apply Hub, list_elem_of_fmap. exists x.
        split; [done |]. by apply list_elem_of_filter.
      * exfalso.
        destruct (filter (λ x, cryptocurrency x = cryptocurrency r) db)
          as [| x xs] eqn:Hf; [| by simpl in Hmax].
        by apply (filter_nil_not_elem_of _ _ r Hf).
Qed.

(** A store after two polls, a minute apart. *)
Definition two_polls : list row :=
  [ quote_row 1 "bitcoin" 100 1900000000000 20000000000 "2024-01-01 00:00:00";
    quote_row 2 "ethereum" 3500 420000000000 12000000000 "2024-01-01 00:00:00";
    quote_row 3 "bitcoin" 110 2090000000000 30000000000 "2024-01-01 00:01:00";
    quote_row 4 "ethereum" 3400 410000000000 11000000000 "2024-01-01 00:01:00" ].

Lemma two_polls_keys : NoDup (asset_and_time <$> two_polls).
Proof. apply (bool_decide_unpack _). vm_compute. exact I. Qed.

Lemma fetch_latest_prices_one_per_asset_witness :
  fetch_latest_prices two_polls =
    [("bitcoin", Some 110%float, "2024-01-01 00:01:00");
     ("ethereum", Some 3400%float, "2024-01-01 00:01:00")] ∧
  NoDup (latest_assets two_polls) ∧
  (∀ c, c ∈ latest_assets two_polls ↔ c ∈ cryptocurrency <$> two_polls) ∧
  (∀ c p t, (c, p, t) ∈ fetch_latest_prices two_polls ↔
     ∃ r, r ∈ two_polls ∧ cryptocurrency r = c ∧ price_usd r = p ∧
          timestamp r = t ∧
          ∀ r', r' ∈ two_polls → cryptocurrency r' = c → text_le (timestamp r') t).
Proof.
  split; [vm_compute; reflexivity |].
  exact (fetch_latest_prices_one_per_asset two_polls two_polls_keys).
Defined.

(** ** The pace of the poller *)

(** A step that does not pause, and a step that sends no request. *)
Definition no_pause (w w' : world) : Prop := slept w' = slept w.

Definition no_request (w w' : world) : Prop := requests_sent w' = requests_sent w.

Global Instance no_pause_refl : Reflexive no_pause.
Proof. by intros w. Qed.

Global Instance no_pause_trans : Transitive no_pause.
Proof. unfold no_pause. intros w1 w2 w3 H1 H2. congruence. Qed.

Global Instance no_request_refl : Reflexive no_request.
Proof. by intros w. Qed.

Global Instance no_request_trans : Transitive no_request.
Proof. unfold no_request. intros w1 w2 w3 H1 H2. congruence. Qed.

Lemma print_no_pause l : frames no_pause (print l).
Proof. by intros w r w' [= <- <-]. Qed.

Lemma print_no_request l : frames no_request (print l).
Proof. by intros w r w' [= <- <-]. Qed.

Lemma now_no_pause : frames no_pause datetime_now.
Proof. by intros w r w' [= <- <-]. Qed.

Lemma now_no_request : frames no_request datetime_now.
Proof. by intros w r w' [= <- <-]. Qed.

Lemma visible_no_pause : frames no_pause visible.
Proof. by intros w r w' [= <- <-]. Qed.

Lemma visible_no_request : frames no_request visible.
Proof. by intros w r w' [= <- <-]. Qed.

Lemma commit_no_pause : frames no_pause commit.
Proof. by intros w r w' [= <- <-]. Qed.

Lemma commit_no_request : frames no_request commit.
Proof. by intros w r w' [= <- <-]. Qed.

Lemma requests_get_no_pause : frames no_pause requests_get.
Proof.
  intros w r w'. unfold requests_get.
  destruct (network w (requests_sent w)); by intros [= <- <-].
Qed.

Lemma execute_insert_no_pause c usd cap vol ts :
  frames no_pause (execute_insert c usd cap vol ts).
Proof.
  intros w r w'. unfold execute_insert.
  destruct (bind_quote _ _ _) as [[[p c'] v] | e]; by intros [= <- <-].
Qed.

Lemma execute_insert_no_request c usd cap vol ts :
  frames no_request (execute_insert c usd cap vol ts).
Proof.
  intros w r w'. unfold execute_insert.
  destruct (bind_quote _ _ _) as [[[p c'] v] | e]; by intros [= <- <-].
Qed.

#[export] Hint Resolve print_no_pause print_no_request now_no_pause
  now_no_request visible_no_pause visible_no_request commit_no_pause
  commit_no_request requests_get_no_pause execute_insert_no_pause
  execute_insert_no_request : frames.

Lemma fetch_no_pause : frames no_pause fetch_crypto_data.
Proof.
  unfold fetch_crypto_data. apply frames_try_except; [apply _ | frame |].
  intros e h He. destruct e as [| | | | | | re]; try discriminate He.
  assert (h = (print [Lit "Error fetching data: "; ExnText re];; mret PyNone))
    as -> by congruence.
  frame.
Qed.

(** What follows the fetch in a turn of the loop, up to the pause. *)
Definition handle (crypto_data : pyval) : M unit :=
  if truthy crypto_data then
    save_to_database crypto_data;;
    display_current_prices crypto_data;;
    display_latest_stored_data
  else mret ().

Lemma handle_no_pause v : frames no_pause (handle v).
Proof.
  unfold handle, save_to_database, save_row, display_current_prices,
    display_latest_stored_data.
  frame.
Qed.

Lemma handle_no_request v : frames no_request (handle v).
Proof.
  unfold handle, save_to_database, save_row, display_current_prices,
    display_latest_stored_data.
  frame.
Qed.

Lemma run_iteration_pace interval w r w' :
  run_iteration interval w = (r, w') →
  requests_sent w' = S (requests_sent w) ∧
  ((r = Ok () ∧ slept w' = slept w ++ [interval]) ∨
   (∃ e, r = Raise e ∧ slept w' = slept w)).
Proof.
  intros Hrun. unfold run_iteration in Hrun.
  destruct (fetch_cases w) as (v & w1 & Hf & Hr1 & _).
  pose proof (fetch_no_pause w _ w1 Hf) as Hs1.
  rewrite (bind_ok _ _ _ _ _ Hf) in Hrun. fold (handle v) in Hrun.
  apply bind_inv in Hrun as [([] & w2 & Hh & Hsl) | (e & Hh & ->)].
  - injection Hsl as <- <-. simpl.
    rewrite (handle_no_request v _ _ _ Hh), (handle_no_pause v _ _ _ Hh), Hs1.
    split; [done |]. by left.
  - rewrite (handle_no_request v _ _ _ Hh), (handle_no_pause v _ _ _ Hh), Hs1.
    split; [done |]. right. by exists e.
Qed.

(** The outcome of a run after [k] complete turns: all of its [cycles]
    turns when it returns, fewer when it raises, the request of the turn
    that raised being sent. *)
Definition paced (cycles k : nat) (r : result ()) (sent sent' : nat) : Prop :=
  (r = Ok () ∧ k = cycles ∧ sent' = sent + cycles) ∨
  (∃ e, r = Raise e ∧ k < cycles ∧ sent' = sent + S k).

Lemma run_loop_pace interval cycles : ∀ w r w',
  run_loop cycles interval w = (r, w') →
  ∃ k, slept w' = slept w ++ replicate k interval ∧
       paced cycles k r (requests_sent w) (requests_sent w').
Proof.
  induction cycles as [| n IH]; intros w r w' Hrun; simpl in Hrun.
  - injection Hrun as <- <-. exists 0. simpl. rewrite app_nil_r.
    split; [done |]. left. repeat split. lia.
  - apply bind_inv in Hrun as [([] & w1 & Hit & Hrest) | (e & Hit & ->)].
    + destruct (run_iteration_pace _ _ _ _ Hit) as [Hr1 [[_ Hs1] | (e & [=] & _)]].
      destruct (IH w1 r w' Hrest) as (k & Hs & Hk).
      exists (S k). split.
      * rewrite Hs, Hs1, <- app_assoc. done.
      * destruct Hk as [(-> & -> & Hr) | (e & -> & Hlt & Hr)].
        -- left. repeat split. lia.
        -- right. exists e. repeat split; lia.
    + destruct (run_iteration_pace _ _ _ _ Hit) as [Hr1 [[[=] _] | (e' & _ & Hs1)]].
      exists 0. simpl. rewrite app_nil_r. split; [done |].
      right. exists e. repeat split; lia.
Qed.

(** X15.  The tracker sends one request in each turn of its loop and
    pauses for [interval] seconds after each turn that completes, and at
    no other time.  A run that is interrupted after [cycles] turns has sent
    [cycles] requests and paused [cycles] times; a run that an exception
    ends has paused once for each turn completed before, fewer than
    [cycles], and has sent one request more: the exception ends the run at
    once, without a pause and without a retry. *)
Theorem run_pace (interval cycles : nat) (w w' : world) (r : result ()) :
  run interval cycles w = (r, w') →
  ∃ k, slept w' = slept w ++ replicate k interval ∧
       paced cycles k r (requests_sent w) (requests_sent w').
Proof.
  intros Hrun. unfold run in Hrun.
  set (wA := set_stdout
               (stdout w ++ [[Lit "Starting cryptocurrency price tracker..."]]) w).
  rewrite (bind_ok (print _) _ w () wA eq_refl) in Hrun.
  rewrite (bind_ok (print _) _ wA () (banner w) eq_refl) in Hrun.
  unfold try_finally in Hrun.
  destruct ((run_loop cycles interval ;; print _) (banner w)) as [r1 w1] eqn:Hbody.
  simpl in Hrun. injection Hrun as <- <-. simpl.
  apply bind_inv in Hbody as [([] & w0 & Hloop & Hpr) | (e & Hloop & ->)].
  - injection Hpr as <- <-. simpl.
    destruct (run_loop_pace _ _ _ _ _ Hloop) as (k & Hs & Hk). by exists k.
  - destruct (run_loop_pace _ _ _ _ _ Hloop) as (k & Hs & Hk). by exists k.
Qed.

Lemma run_pace_witness :
  (run 60 3 (fresh degrading)).1 = Raise (KeyError "ethereum") ∧
  ∃ k, slept (run 60 3 (fresh degrading)).2
         = slept (fresh degrading) ++ replicate k 60 ∧
       paced 3 k (run 60 3 (fresh degrading)).1
         (requests_sent (fresh degrading))
         (requests_sent (run 60 3 (fresh degrading)).2).
Proof.
  split; [vm_compute; reflexivity |].
  apply (run_pace 60 3 (fresh degrading)).
  by destruct (run 60 3 (fresh degrading)).
Defined.

(** ** Rows with equal timestamps *)

Section Stable.

Context {A} (R : relation A) `{!∀ x y, Decision (R x y)}.
Context (P : A → Prop) `{!∀ x, Decision (P x)}.

(** Among the entries that [R] does not tell apart the sort keeps the
    order of its input. *)
Lemma insert_sorted_filter x l :
  (∀ y z, P y → P z → R y z) →
  filter P (insert_sorted R x l) = filter P (x :: l).
Proof.
  intros HP. induction l as [| y l IH]; simpl; [done |].
  destruct (decide (R x y)) as [Hxy | Hxy]; [done |].
  rewrite (filter_cons _ y), IH, !filter_cons.
  destruct (decide (P y)) as [Hy |], (decide (P x)) as [Hx |]; try done.
  destruct Hxy. by apply HP.
Qed.

Lemma stable_sort_filter l :
  (∀ y z, P y → P z → R y z) →
  filter P (stable_sort R l) = filter P l.
Proof.
  intros HP. induction l as [| x l IH]; simpl; [done |].
  fold (stable_sort R l). rewrite insert_sorted_filter by done.
  by rewrite !filter_cons, IH.
Qed.

(** A sorted list is left as it is. *)
Lemma stable_sort_sorted_id l : Sorted R l → stable_sort R l = l.
Proof.
  induction 1 as [| x l Hs IH Hhd]; simpl; [done |].
  fold (stable_sort R l). rewrite IH.
  destruct Hhd as [| y l Hxy]; simpl; [done |].
  by rewrite decide_True.
Qed.

End Stable.

Lemma filter_fmap {A B} (f : A → B) (P : B → Prop) `{!∀ x, Decision (P x)}
    (l : list A) :
  filter P (f <$> l) = f <$> filter (P ∘ f) l.
Proof.
  induction l as [| x l IH]; [done |].
  rewrite fmap_cons, !filter_cons, IH. simpl. by destruct (decide (P (f x))).
Qed.

Lemma Sorted_filter {A} (R : relation A) `{!Transitive R}
    (P : A → Prop) `{!∀ x, Decision (P x)} (l : list A) :
  Sorted R l → Sorted R (filter P l).
Proof.
  intros Hs. apply Sorted_StronglySorted in Hs; [| done].
  apply StronglySorted_Sorted.
  induction Hs as [| x l Hs IH Hall]; [constructor |].
  rewrite filter_cons. destruct (decide (P x)); [| done].
  constructor; [done |]. rewrite Forall_forall in Hall |- *.
  intros y [_ Hy]%list_elem_of_filter. by apply Hall.
Qed.

(** X16.  The rows that a query returns with one and the same timestamp
    come in the order in which they were inserted.  On a table that is in
    the order of its timestamps, as a run of the tracker leaves it, the
    range query and the history query return the selected rows in the
    order of the table: the first and the last row of an asset, from which
    the price change and the current price are taken, are the first and
    the last of its selected rows that were inserted. *)
Theorem queries_keep_insertion_order (db : list row) (since : string) :
  (∀ t, filter (λ h, h_timestamp h = t) (range_query db since) =
        select_hist <$>
          filter (λ r, timestamp r = t)
            (filter (λ r, text_le since (timestamp r)) db)) ∧
  (∀ crypto t,
     filter (λ x, x.1 = t) (price_history db crypto since) =
       (λ r, (timestamp r, price_usd r)) <$>
         filter (λ r, timestamp r = t)
           (filter (λ r, cryptocurrency r = crypto ∧ text_le since (timestamp r))
              db)) ∧
  (Sorted (by_timestamp timestamp) db →
   range_query db since =
     select_hist <$> filter (λ r, text_le since (timestamp r)) db ∧
   ∀ crypto,
     price_history db crypto since =
       (λ r, (timestamp r, price_usd r)) <$>
         filter (λ r, cryptocurrency r = crypto ∧ text_le since (timestamp r)) db).
Proof.
  split; [| split].
  - intros t. unfold range_query, order_by_asc. rewrite filter_fmap.
    f_equal. apply stable_sort_filter.
    intros y z Hy Hz. unfold by_timestamp. simpl in Hy, Hz.
    rewrite Hy, Hz. apply text_le_refl.
  - intros crypto t. unfold price_history, order_by_asc. rewrite filter_fmap.
    f_equal. apply stable_sort_filter.
    intros y z Hy Hz. unfold by_timestamp. simpl in Hy, Hz.
    rewrite Hy, Hz. apply text_le_refl.
  - intros Hs. split; [| intros crypto].
    + unfold range_query, order_by_asc. f_equal.
      apply stable_sort_sorted_id. apply Sorted_filter; [apply _ | done].
    + unfold price_history, order_by_asc. f_equal.
      apply stable_sort_sorted_id. apply Sorted_filter; [apply _ | done].
Qed.

Lemma tied_store_sorted : Sorted (by_timestamp timestamp) tied_store.
Proof. repeat constructor. Qed.

Lemma queries_keep_insertion_order_witness :
  Sorted (by_timestamp timestamp) tied_store ∧
  h_price_usd <$> range_query tied_store "2024-01-01 00:00:00" =
    [Some 100%float; Some 101%float] ∧
  range_query tied_store "2024-01-01 00:00:00" =
    select_hist <$>
      filter (λ r, text_le "2024-01-01 00:00:00" (timestamp r)) tied_store.
Proof.
  split; [exact tied_store_sorted |]. split; [vm_compute; reflexivity |].
  exact (proj1 (proj2 (proj2 (queries_keep_insertion_order tied_store
                                "2024-01-01 00:00:00")) tied_store_sorted)).
Defined.

(** X17.  Of the rows of an asset that share its greatest timestamp, the
    query of [display_latest_stored_data] returns the one that was
    inserted first: the rows of the asset before it in the table have an
    earlier timestamp, those after it have none later. *)
Theorem latest_stored_first_of_ties (db : list row) (crypto : string)
    (p : cell) (t : string) :
  latest_stored db crypto = Some (p, t) →
  ∃ l1 r l2,
    db = l1 ++ r :: l2 ∧
    cryptocurrency r = crypto ∧ price_usd r = p ∧ timestamp r = t ∧
    (∀ y, y ∈ l1 → cryptocurrency y = crypto →
          String.ltb (timestamp y) t = true) ∧
    (∀ y, y ∈ l2 → cryptocurrency y = crypto → text_le (timestamp y) t).
Proof.
  unfold latest_stored. rewrite head_fmap_eq.
  destruct (head (order_by_desc timestamp _)) as [x |] eqn:Hh; [| done].
  intros [= <- <-].
  pose proof Hh as Hmax.
  apply order_by_desc_head in Hmax as [[Hc Hx]%list_elem_of_filter Hmax].
  assert (head (filter (λ r, timestamp r = timestamp x)
                  (filter (λ r, cryptocurrency r = crypto) db)) = Some x) as Hf.
  { rewrite <- (stable_sort_filter (flip (by_timestamp timestamp))
                  (λ r, timestamp r = timestamp x)).
    - fold (order_by_desc timestamp (filter (λ r, cryptocurrency r = crypto) db)).
      destruct (order_by_desc timestamp _) as [| x' l']; [done |].
      injection Hh as ->. by rewrite filter_cons_True.
    - intros y z Hy Hz. unfold flip, by_timestamp. rewrite Hy, Hz.
      apply text_le_refl. }
  rewrite list_filter_filter in Hf.
  apply head_filter_Some in Hf as (l1 & l2 & -> & Hbefore).
  exists l1, x, l2. split; [done |]. split; [done |]. split; [done |].
  split; [done |]. split.
  - intros y Hy Hcy. apply text_ltb_not_le. intros Hle.
    rewrite Forall_forall in Hbefore. apply (Hbefore y Hy). split; [| done].
    apply text_le_antisym; [| done].
    apply Hmax, list_elem_of_filter. split; [done |].
    rewrite elem_of_app. by left.
  - intros y Hy Hcy. apply Hmax, list_elem_of_filter. split; [done |].
    rewrite elem_of_app. right. by right.
Qed.

Lemma latest_stored_first_of_ties_witness :
  latest_stored tied_store "bitcoin" =
    Some (Some 100%float, "2024-01-01 00:00:00") ∧
  ∃ l1 r l2,
    tied_store = l1 ++ r :: l2 ∧
    cryptocurrency r = "bitcoin" ∧ price_usd r = Some 100%float ∧
    timestamp r = "2024-01-01 00:00:00" ∧
    (∀ y, y ∈ l1 → cryptocurrency y = "bitcoin" →
          String.ltb (timestamp y) "2024-01-01 00:00:00" = true) ∧
    (∀ y, y ∈ l2 → cryptocurrency y = "bitcoin" →
          text_le (timestamp y) "2024-01-01 00:00:00").
Proof.
  split; [vm_compute; reflexivity |].
  apply (latest_stored_first_of_ties tied_store "bitcoin").
  vm_compute; reflexivity.
Defined.
